(** * Sony IMX258 sensor drivers: shallow embedding and verified properties

    Two variants of the driver are embedded:
    - [Soho]    : drivers/media/i2c/imx258-soho.c
    - [Part000] : the second imx258 driver of the tree

    C integers are [Z] with the wrap-around of their width written out,
    device state is a record threaded through a small state monad, the I2C
    bus is a transfer log driven by a fault plan. *)

From Stdlib Require Import ZArith List Bool Lia String.
From Equations Require Import Equations.
Import ListNotations.
Local Open Scope Z_scope.

(** ** A state monad for code that threads [struct imx258 *] *)

Definition M (S A : Type) : Type := S -> A * S.

Definition ret {S A} (a : A) : M S A := fun s => (a, s).

Definition bind {S A B} (m : M S A) (k : A -> M S B) : M S B :=
  fun s => let (a, s') := m s in k a s'.

Definition gets {S A} (f : S -> A) : M S A := fun s => (f s, s).

Definition modify {S} (f : S -> S) : M S unit := fun s => (tt, f s).

Declare Scope cmd_scope.
Delimit Scope cmd_scope with cmd.
Notation "x <- m ;; k" := (bind m (fun x => k))
  (at level 61, m at next level, right associativity) : cmd_scope.
Notation "m ;;; k" := (bind m (fun _ => k))
  (at level 61, right associativity) : cmd_scope.
Local Open Scope cmd_scope.

(** ** Kernel environment shared by both drivers *)

Module Kernel.

Definition EIO : Z := 5.
Definition EINVAL : Z := 22.

(** Fixed-width C integers. *)
Definition u8 (z : Z) : Z := z mod 2 ^ 8.
Definition u16 (z : Z) : Z := z mod 2 ^ 16.
Definition u32 (z : Z) : Z := z mod 2 ^ 32.
Definition u64 (z : Z) : Z := z mod 2 ^ 64.
(** Conversion of a 32-bit pattern to [int]. *)
Definition s32 (z : Z) : Z :=
  let w := u32 z in if w <? 2 ^ 31 then w else w - 2 ^ 32.

(** The C truth value of an [int]. *)
Definition nonzero (z : Z) : bool := negb (z =? 0).

(** [put_unaligned_be16] and [put_unaligned_be32]: the bytes stored. *)
Definition put_unaligned_be16 (v : Z) : list Z :=
  [u8 (Z.shiftr v 8); u8 v].
Definition put_unaligned_be32 (v : Z) : list Z :=
  [u8 (Z.shiftr v 24); u8 (Z.shiftr v 16); u8 (Z.shiftr v 8); u8 v].

(** One I2C transfer as seen on the wire. *)
Record i2c_xfer : Type := mk_xfer {
  xfer_buf : list Z;
  xfer_ok : bool
}.

(** Supply rails, clock and reset line of the sensor. *)
Record power_rails : Type := mk_rails {
  supplies_on : bool;
  xclk_on : bool;
  reset_gpio : Z;
  (** what [regulator_bulk_enable] and [clk_prepare_enable] answer *)
  regulator_ret : Z;
  clk_ret : Z
}.

(** Modelled from the spec: the I2C core, the runtime-PM core and the
    kernel log are not part of the sources.  The register bus is a
    collaborator whose write succeeds or fails; here the [k]-th transfer
    fails when [fault k] holds, and every attempted transfer is logged.
    Runtime PM keeps a usage counter and an active flag. *)
Record i2c_client : Type := mk_client {
  fault : nat -> bool;
  xfers : list i2c_xfer;
  klog : list string;
  pm_usage : nat;
  pm_active : bool;
  rails : power_rails
}.

Definition set_xfers (x : list i2c_xfer) (c : i2c_client) : i2c_client :=
  mk_client (fault c) x (klog c) (pm_usage c) (pm_active c) (rails c).
Definition set_klog (l : list string) (c : i2c_client) : i2c_client :=
  mk_client (fault c) (xfers c) l (pm_usage c) (pm_active c) (rails c).
Definition set_pm (u : nat) (a : bool) (c : i2c_client) : i2c_client :=
  mk_client (fault c) (xfers c) (klog c) u a (rails c).
Definition set_rails (r : power_rails) (c : i2c_client) : i2c_client :=
  mk_client (fault c) (xfers c) (klog c) (pm_usage c) (pm_active c) r.

(** Modelled from the spec: [i2c_master_send] is not part of the sources.
    It sends [count] bytes of [buf] and returns [count], or a negative
    errno on a transport error. *)
Definition i2c_master_send (buf : list Z) (count : Z) : M i2c_client Z :=
  fun c =>
    let msg := firstn (Z.to_nat count) buf in
    if fault c (List.length (xfers c))
    then (- EIO, set_xfers (xfers c ++ [mk_xfer msg false]) c)
    else (count, set_xfers (xfers c ++ [mk_xfer msg true]) c).

(** Modelled from the spec: the kernel log is not part of the sources.
    [dev_err], [dev_info] and [dev_err_ratelimited] append a line to it;
    the line is the message without its formatted arguments. *)
Definition dev_err (msg : string) : M i2c_client unit :=
  modify (fun c => set_klog (klog c ++ [msg]) c).

(** Modelled from the spec: [pm_runtime_get_if_in_use] is not part of the
    sources.  It takes a reference and answers 1 when the device is in an
    active power state and in use, and answers 0 otherwise. *)
Definition pm_runtime_get_if_in_use : M i2c_client Z :=
  fun c =>
    if pm_active c && negb (Nat.eqb (pm_usage c) 0)
    then (1, set_pm (S (pm_usage c)) (pm_active c) c)
    else (0, c).

(** Modelled from the spec: [pm_runtime_put_noidle] is not part of the
    sources.  It drops a reference and does nothing else. *)
Definition pm_runtime_put_noidle : M i2c_client unit :=
  modify (fun c => set_pm (Nat.pred (pm_usage c)) (pm_active c) c).

(** The messages successfully sent, oldest first. *)
Definition sent (c : i2c_client) : list (list Z) :=
  map xfer_buf (filter xfer_ok (xfers c)).

(** The messages attempted, oldest first. *)
Definition attempted (c : i2c_client) : list (list Z) :=
  map xfer_buf (xfers c).

(** *** Regulators, clock and reset line *)

(** Modelled from the spec: the regulator, clock and GPIO cores are not
    part of the sources.  Powering on succeeds or fails; the answers are
    those recorded in the rails.  [regulator_bulk_enable] switches the
    supplies on or answers the recorded error. *)
Definition regulator_bulk_enable : M i2c_client Z :=
  fun c =>
    let r := rails c in
    if nonzero (regulator_ret r) then (regulator_ret r, c)
    else (0, set_rails (mk_rails true (xclk_on r) (reset_gpio r)
                                 (regulator_ret r) (clk_ret r)) c).

(** Modelled from the spec: [regulator_bulk_disable] switches the supplies
    off. *)
Definition regulator_bulk_disable : M i2c_client unit :=
  modify (fun c =>
    let r := rails c in
    set_rails (mk_rails false (xclk_on r) (reset_gpio r)
                        (regulator_ret r) (clk_ret r)) c).

(** Modelled from the spec: [clk_prepare_enable] starts the clock or
    answers the recorded error. *)
Definition clk_prepare_enable : M i2c_client Z :=
  fun c =>
    let r := rails c in
    if nonzero (clk_ret r) then (clk_ret r, c)
    else (0, set_rails (mk_rails (supplies_on r) true (reset_gpio r)
                                 (regulator_ret r) (clk_ret r)) c).

(** Modelled from the spec: [clk_disable_unprepare] stops the clock. *)
Definition clk_disable_unprepare : M i2c_client unit :=
  modify (fun c =>
    let r := rails c in
    set_rails (mk_rails (supplies_on r) false (reset_gpio r)
                        (regulator_ret r) (clk_ret r)) c).

(** Modelled from the spec: [gpiod_set_value_cansleep] drives the reset
    line. *)
Definition gpiod_set_value_cansleep (v : Z) : M i2c_client unit :=
  modify (fun c =>
    let r := rails c in
    set_rails (mk_rails (supplies_on r) (xclk_on r) v
                        (regulator_ret r) (clk_ret r)) c).

(** *** V4L2 controls *)

(** The control identifiers the drivers create or dispatch on. *)
Inductive cid : Type :=
| V4L2_CID_PIXEL_RATE
| V4L2_CID_LINK_FREQ
| V4L2_CID_VBLANK
| V4L2_CID_HBLANK
| V4L2_CID_EXPOSURE
| V4L2_CID_ANALOGUE_GAIN
| V4L2_CID_DIGITAL_GAIN
| V4L2_CID_HFLIP
| V4L2_CID_VFLIP
| V4L2_CID_TEST_PATTERN
| V4L2_CID_TEST_PATTERN_RED
| V4L2_CID_TEST_PATTERN_GREENR
| V4L2_CID_TEST_PATTERN_BLUE
| V4L2_CID_TEST_PATTERN_GREENB
| V4L2_CID_CAMERA_ORIENTATION
| V4L2_CID_CAMERA_SENSOR_ROTATION.

Definition cid_eqb (a b : cid) : bool :=
  match a, b with
  | V4L2_CID_PIXEL_RATE, V4L2_CID_PIXEL_RATE
  | V4L2_CID_LINK_FREQ, V4L2_CID_LINK_FREQ
  | V4L2_CID_VBLANK, V4L2_CID_VBLANK
  | V4L2_CID_HBLANK, V4L2_CID_HBLANK
  | V4L2_CID_EXPOSURE, V4L2_CID_EXPOSURE
  | V4L2_CID_ANALOGUE_GAIN, V4L2_CID_ANALOGUE_GAIN
  | V4L2_CID_DIGITAL_GAIN, V4L2_CID_DIGITAL_GAIN
  | V4L2_CID_HFLIP, V4L2_CID_HFLIP
  | V4L2_CID_VFLIP, V4L2_CID_VFLIP
  | V4L2_CID_TEST_PATTERN, V4L2_CID_TEST_PATTERN
  | V4L2_CID_TEST_PATTERN_RED, V4L2_CID_TEST_PATTERN_RED
  | V4L2_CID_TEST_PATTERN_GREENR, V4L2_CID_TEST_PATTERN_GREENR
  | V4L2_CID_TEST_PATTERN_BLUE, V4L2_CID_TEST_PATTERN_BLUE
  | V4L2_CID_TEST_PATTERN_GREENB, V4L2_CID_TEST_PATTERN_GREENB
  | V4L2_CID_CAMERA_ORIENTATION, V4L2_CID_CAMERA_ORIENTATION
  | V4L2_CID_CAMERA_SENSOR_ROTATION, V4L2_CID_CAMERA_SENSOR_ROTATION => true
  | _, _ => false
  end.

(** Control flags (uapi/linux/videodev2.h). *)
Definition V4L2_CTRL_FLAG_GRABBED : Z := 0x0002.
Definition V4L2_CTRL_FLAG_READ_ONLY : Z := 0x0004.
Definition V4L2_CTRL_FLAG_MODIFY_LAYOUT : Z := 0x0400.

(** [struct v4l2_ctrl], the fields the drivers touch. *)
Record v4l2_ctrl : Type := mk_ctrl {
  id : cid;
  minimum : Z;
  maximum : Z;
  step : Z;
  default_value : Z;
  val : Z;
  flags : Z
}.

Definition has_flag (f : Z) (c : v4l2_ctrl) : bool :=
  nonzero (Z.land (flags c) f).

(** A control handler is the list of its controls in creation order.  The
    driver's control pointers ([imx258->exposure] and the like) alias the
    entries of this list, so they are resolved by identifier. *)
Definition find_ctrl (i : cid) (hdl : list v4l2_ctrl) : option v4l2_ctrl :=
  find (fun c => cid_eqb (id c) i) hdl.

Definition update_ctrl (i : cid) (f : v4l2_ctrl -> v4l2_ctrl)
  (hdl : list v4l2_ctrl) : list v4l2_ctrl :=
  map (fun c => if cid_eqb (id c) i then f c else c) hdl.

Definition null_ctrl (i : cid) : v4l2_ctrl := mk_ctrl i 0 0 0 0 0 0.

Definition ctrl_of (i : cid) (hdl : list v4l2_ctrl) : v4l2_ctrl :=
  match find_ctrl i hdl with Some c => c | None => null_ctrl i end.

(** Modelled from the spec: [__v4l2_ctrl_modify_range] is not part of the
    sources.  The control range is updated in place, preserving the
    current value unless it now exceeds the new maximum (then it is
    clamped down). *)
Definition __v4l2_ctrl_modify_range (min max stp def : Z) (c : v4l2_ctrl)
  : v4l2_ctrl :=
  mk_ctrl (id c) min max stp def
          (if max <? val c then max else val c) (flags c).

(** Modelled from the spec: [__v4l2_ctrl_grab] is not part of the sources.
    A grabbed control is locked while streaming is active. *)
Definition __v4l2_ctrl_grab (grabbed : bool) (c : v4l2_ctrl) : v4l2_ctrl :=
  mk_ctrl (id c) (minimum c) (maximum c) (step c) (default_value c) (val c)
          (if grabbed
           then Z.lor (flags c) V4L2_CTRL_FLAG_GRABBED
           else Z.land (flags c) (Z.lnot V4L2_CTRL_FLAG_GRABBED)).

(** Modelled from the spec: [__v4l2_ctrl_handler_setup] is not part of the
    sources.  The bulk control commit replays every control value through
    the driver's [s_ctrl] operation, in creation order, and stops at the
    first failure; read-only controls have nothing to write and are
    skipped.  The controls are re-read from the live handler at each step,
    since [s_ctrl] may update other controls in place. *)
Fixpoint ctrl_handler_replay {S : Type} (hdl : S -> list v4l2_ctrl)
  (s_ctrl : v4l2_ctrl -> M S Z) (ids : list cid) : M S Z :=
  match ids with
  | [] => ret 0
  | i :: rest =>
      fun s =>
        match find_ctrl i (hdl s) with
        | None => ctrl_handler_replay hdl s_ctrl rest s
        | Some c =>
            if has_flag V4L2_CTRL_FLAG_READ_ONLY c
            then ctrl_handler_replay hdl s_ctrl rest s
            else
              let (r, s') := s_ctrl c s in
              if nonzero r then (r, s')
              else ctrl_handler_replay hdl s_ctrl rest s'
        end
  end.

Definition __v4l2_ctrl_handler_setup {S : Type} (hdl : S -> list v4l2_ctrl)
  (s_ctrl : v4l2_ctrl -> M S Z) : M S Z :=
  fun s => ctrl_handler_replay hdl s_ctrl (map id (hdl s)) s.

(** The control with its value replaced. *)
Definition set_val (v : Z) (c : v4l2_ctrl) : v4l2_ctrl :=
  mk_ctrl (id c) (minimum c) (maximum c) (step c) (default_value c) v
          (flags c).

(** Modelled from the spec: [v4l2_ctrl_s_ctrl] is not part of the sources.
    Setting a control records the new value in the control, then runs the
    driver's [s_ctrl] operation on it; an identifier the handler does not
    have is an invalid argument. *)
Definition v4l2_ctrl_s_ctrl {S : Type} (hdl : S -> list v4l2_ctrl)
  (set_hdl : list v4l2_ctrl -> S -> S) (s_ctrl : v4l2_ctrl -> M S Z)
  (i : cid) (v : Z) : M S Z :=
  fun s =>
    match find_ctrl i (hdl s) with
    | None => (- EINVAL, s)
    | Some c =>
        s_ctrl (set_val v c)
               (set_hdl (update_ctrl i (set_val v) (hdl s)) s)
    end.

(** *** Observations on the bus and the tables, used to state properties *)

(** The bytes a register write of [len] value bytes puts on the wire:
    the 16-bit address, then the value, both big-endian. *)
Definition reg_msg (reg len v : Z) : list Z :=
  firstn (Z.to_nat (len + 2))
    (put_unaligned_be16 (u16 reg) ++
     put_unaligned_be32 (u32 (Z.shiftl (u32 v) (8 * (4 - len))))).

(** Whether the next transfer on the bus succeeds. *)
Definition next_ok (c : i2c_client) : bool :=
  negb (fault c (List.length (xfers c))).

(** The client after one more transfer of [msg]. *)
Definition push_xfer (msg : list Z) (c : i2c_client) : i2c_client :=
  set_xfers (xfers c ++ [mk_xfer msg (next_ok c)]) c.

(** The transfers made since the log had [n] entries. *)
Definition xfers_since (n : nat) (c : i2c_client) : list i2c_xfer :=
  skipn n (xfers c).

(** Whether runtime PM reports the device in use. *)
Definition pm_in_use (c : i2c_client) : bool :=
  pm_active c && negb (Nat.eqb (pm_usage c) 0).

(** Position of the first occurrence of [code] in a table. *)
Fixpoint index_of (code : Z) (tbl : list Z) : option nat :=
  match tbl with
  | [] => None
  | c :: rest =>
      if c =? code then Some 0%nat else option_map S (index_of code rest)
  end.

(** The [n] low-order bytes of [x], most significant first. *)
Fixpoint be_bytes (n : nat) (x : Z) : list Z :=
  match n with
  | O => []
  | S k => (x / 256 ^ Z.of_nat k) mod 256 :: be_bytes k x
  end.

(** The number a list of bytes spells, most significant first. *)
Definition be_value (b : list Z) : Z :=
  fold_left (fun a x => a * 256 + x) b 0.

(** Among the next [n] transfers of a bus whose log has [n0] entries, the
    position of the first one that the fault plan [f] makes fail. *)
Fixpoint first_fault (f : nat -> bool) (n0 n : nat) : option nat :=
  match n with
  | O => None
  | S k => if f n0 then Some 0%nat else option_map S (first_fault f (S n0) k)
  end.

(** *** Register reads *)

(** [get_unaligned_be32]: the value of four bytes, most significant
    first. *)
Definition get_unaligned_be32 (b : list Z) : Z :=
  Z.lor (Z.shiftl (nth 0 b 0) 24)
    (Z.lor (Z.shiftl (nth 1 b 0) 16)
       (Z.lor (Z.shiftl (nth 2 b 0) 8) (nth 3 b 0))).

(** Modelled from the spec: [i2c_transfer] is not part of the sources.
    The register bus reads up to four bytes at a 16-bit address: the
    address message is followed by a read message of [len] bytes, and the
    call answers the number of messages transferred (2), or a negative
    errno on a transport error.  [rx] holds the bytes the device puts on
    the wire; the log records the address message. *)
Definition i2c_transfer (addr_buf : list Z) (len : Z) (rx : list Z)
  : M i2c_client (Z * list Z) :=
  fun c =>
    if fault c (List.length (xfers c))
    then ((- EIO, []), set_xfers (xfers c ++ [mk_xfer addr_buf false]) c)
    else ((2, firstn (Z.to_nat len) rx),
          set_xfers (xfers c ++ [mk_xfer addr_buf true]) c).

End Kernel.
Import Kernel.

(** ** The imx258-soho driver *)

Module Soho.

Definition IMX258_REG_VALUE_08BIT : Z := 1.
Definition IMX258_REG_VALUE_16BIT : Z := 2.

Definition IMX258_REG_MODE_SELECT : Z := 0x0100.
Definition IMX258_MODE_STANDBY : Z := 0x00.
Definition IMX258_MODE_STREAMING : Z := 0x01.

Definition IMX258_REG_ORIENTATION : Z := 0x101.

(** Pixel rate is fixed for all the modes. *)
Definition IMX258_PIXEL_RATE : Z := 518400000 / 2.

(** V_TIMING internal *)
Definition IMX258_REG_FRAME_LENGTH : Z := 0x0340.
Definition IMX258_FRAME_LENGTH_MAX : Z := 0xffdc.

Definition IMX258_LONG_EXP_SHIFT_REG : Z := 0x3100.

(** Exposure control *)
Definition IMX258_REG_EXPOSURE : Z := 0x0202.
Definition IMX258_EXPOSURE_OFFSET : Z := 22.
Definition IMX258_EXPOSURE_MIN : Z := 20.
Definition IMX258_EXPOSURE_STEP : Z := 1.
Definition IMX258_EXPOSURE_DEFAULT : Z := 0x640.
Definition IMX258_EXPOSURE_MAX : Z :=
  IMX258_FRAME_LENGTH_MAX - IMX258_EXPOSURE_OFFSET.

(** Analog gain control *)
Definition IMX258_REG_ANALOG_GAIN : Z := 0x0204.
Definition IMX258_ANA_GAIN_MIN : Z := 0.
Definition IMX258_ANA_GAIN_MAX : Z := 978.
Definition IMX258_ANA_GAIN_STEP : Z := 1.
Definition IMX258_ANA_GAIN_DEFAULT : Z := 0x0.

(** Digital gain control *)
Definition IMX258_REG_GR_DIGITAL_GAIN : Z := 0x020e.
Definition IMX258_REG_R_DIGITAL_GAIN : Z := 0x0210.
Definition IMX258_REG_B_DIGITAL_GAIN : Z := 0x0212.
Definition IMX258_REG_GB_DIGITAL_GAIN : Z := 0x0214.
Definition IMX258_DGTL_GAIN_MIN : Z := 0x0100.
Definition IMX258_DGTL_GAIN_MAX : Z := 4096.
Definition IMX258_DGTL_GAIN_DEFAULT : Z := 1024.
Definition IMX258_DGTL_GAIN_STEP : Z := 1.

(** Test pattern control *)
Definition IMX258_REG_TEST_PATTERN : Z := 0x0600.
Definition IMX258_TEST_PATTERN_DISABLE : Z := 0.
Definition IMX258_TEST_PATTERN_SOLID_COLOR : Z := 1.
Definition IMX258_TEST_PATTERN_COLOR_BARS : Z := 2.
Definition IMX258_TEST_PATTERN_GREY_COLOR : Z := 3.
Definition IMX258_TEST_PATTERN_PN9 : Z := 4.

(** Test pattern colour components *)
Definition IMX258_REG_TEST_PATTERN_R : Z := 0x0602.
Definition IMX258_REG_TEST_PATTERN_GR : Z := 0x0604.
Definition IMX258_REG_TEST_PATTERN_B : Z := 0x0606.
Definition IMX258_REG_TEST_PATTERN_GB : Z := 0x0608.
Definition IMX258_TEST_PATTERN_COLOUR_MIN : Z := 0.
Definition IMX258_TEST_PATTERN_COLOUR_MAX : Z := 0x0fff.
Definition IMX258_TEST_PATTERN_COLOUR_STEP : Z := 1.

(** IMX258 native and active pixel array size. *)
Definition IMX258_PIXEL_ARRAY_LEFT : Z := 0.
Definition IMX258_PIXEL_ARRAY_TOP : Z := 0.

(** Media bus format codes (uapi/linux/media-bus-format.h). *)
Definition MEDIA_BUS_FMT_SRGGB10_1X10 : Z := 0x300f.
Definition MEDIA_BUS_FMT_SGRBG10_1X10 : Z := 0x300a.
Definition MEDIA_BUS_FMT_SGBRG10_1X10 : Z := 0x300e.
Definition MEDIA_BUS_FMT_SBGGR10_1X10 : Z := 0x3007.

Record imx258_reg : Type := R {
  address : Z;
  regval : Z
}.

Record v4l2_rect : Type := mk_rect {
  rect_left : Z;
  rect_top : Z;
  rect_width : Z;
  rect_height : Z
}.

Record v4l2_fract : Type := mk_fract {
  numerator : Z;
  denominator : Z
}.

(** Mode : resolution and related config and values.  [reg_list] holds
    the register array; its [num_of_regs] is the array's length. *)
Record imx258_mode : Type := mk_mode {
  width : Z;
  height : Z;
  line_length_pix : Z;
  crop : v4l2_rect;
  timeperframe_min : v4l2_fract;
  timeperframe_default : v4l2_fract;
  reg_list : list imx258_reg
}.

Definition num_of_regs (m : imx258_mode) : Z :=
  Z.of_nat (List.length (reg_list m)).

Definition mode_common_regs : list imx258_reg :=
  [R 0x0136 0x18; R 0x0137 0x00; R 0x3051 0x00; R 0x6B11 0xCF;
   R 0x7FF0 0x08; R 0x7FF1 0x0F; R 0x7FF2 0x08; R 0x7FF3 0x1B;
   R 0x7FF4 0x23; R 0x7FF5 0x60; R 0x7FF6 0x00; R 0x7FF7 0x01;
   R 0x7FF8 0x00; R 0x7FF9 0x78; R 0x7FFA 0x01; R 0x7FFB 0x00;
   R 0x7FFC 0x00; R 0x7FFD 0x00; R 0x7FFE 0x00; R 0x7FFF 0x03;
   R 0x7F76 0x03; R 0x7F77 0xFE; R 0x7FA8 0x03; R 0x7FA9 0xFE;
   R 0x7B24 0x81; R 0x7B25 0x01; R 0x6564 0x07; R 0x6B0D 0x41;
   R 0x653D 0x04; R 0x6B05 0x8C; R 0x6B06 0xF9; R 0x6B08 0x65;
   R 0x6B09 0xFC; R 0x6B0A 0xCF; R 0x6B0B 0xD2; R 0x6700 0x0E;
   R 0x6707 0x0E; R 0x5F04 0x00; R 0x5F05 0xED].

Definition mode_4208x3120_regs : list imx258_reg :=
  [R 0x0112 0x0A; R 0x0113 0x0A; R 0x0114 0x01; R 0x0301 0x05;
   R 0x0303 0x04; R 0x0305 0x04; R 0x0306 0x00; R 0x0307 0xD8;
   R 0x0309 0x0A; R 0x030B 0x01; R 0x030D 0x02; R 0x030E 0x00;
   R 0x030F 0xD8; R 0x0310 0x00; R 0x0820 0x0A; R 0x0821 0x20;
   R 0x0822 0x00; R 0x0823 0x00; R 0x4648 0x7F; R 0x9104 0x04;
   R 0x0342 0x14; R 0x0343 0xE8; R 0x0344 0x00; R 0x0345 0x00;
   R 0x0346 0x00; R 0x0347 0x00; R 0x0348 0x10; R 0x0349 0x6F;
   R 0x034A 0x0C; R 0x034B 0x2F; R 0x0381 0x01; R 0x0383 0x01;
   R 0x0385 0x01; R 0x0387 0x01; R 0x0900 0x00; R 0x0901 0x11;
   R 0x0401 0x00; R 0x0404 0x00; R 0x0405 0x10; R 0x0408 0x00;
   R 0x0409 0x00; R 0x040A 0x00; R 0x040B 0x00; R 0x040C 0x10;
   R 0x040D 0x70; R 0x040E 0x0C; R 0x040F 0x30; R 0x3038 0x00;
   R 0x303A 0x00; R 0x303B 0x10; R 0x300D 0x00; R 0x034C 0x10;
   R 0x034D 0x70; R 0x034E 0x0C; R 0x034F 0x30; R 0x020E 0x01;
   R 0x020F 0x00; R 0x0210 0x01; R 0x0211 0x00; R 0x0212 0x01;
   R 0x0213 0x00; R 0x0214 0x01; R 0x0215 0x00; R 0x7BCD 0x00;
   R 0x94DC 0x20; R 0x94DD 0x20; R 0x94DE 0x20; R 0x95DC 0x20;
   R 0x95DD 0x20; R 0x95DE 0x20; R 0x7FB0 0x00; R 0x9010 0x3E;
   R 0x9419 0x50; R 0x941B 0x50; R 0x9519 0x50; R 0x951B 0x50;
   R 0x3030 0x01; R 0x3032 0x01; R 0x0220 0x00].

Definition mode_2048x1560_regs : list imx258_reg :=
  [R 0x0112 0x0A; R 0x0113 0x0A; R 0x0114 0x01; R 0x0301 0x05;
   R 0x0303 0x02; R 0x0305 0x04; R 0x0306 0x00; R 0x0307 0xD8;
   R 0x0309 0x0A; R 0x030B 0x01; R 0x030D 0x02; R 0x030E 0x00;
   R 0x030F 0xD8; R 0x0310 0x00; R 0x0820 0x0A; R 0x0821 0x20;
   R 0x0822 0x00; R 0x0823 0x00; R 0x4648 0x7F; R 0x9104 0x00;
   R 0x0342 0x14; R 0x0343 0xE8; R 0x0344 0x00; R 0x0345 0x00;
   R 0x0346 0x00; R 0x0347 0x00; R 0x0348 0x10; R 0x0349 0x6F;
   R 0x034A 0x0C; R 0x034B 0x2F; R 0x0381 0x01; R 0x0383 0x01;
   R 0x0385 0x01; R 0x0387 0x01; R 0x0900 0x01; R 0x0901 0x12;
   R 0x0401 0x01; R 0x0404 0x00; R 0x0405 0x20; R 0x0408 0x00;
   R 0x0409 0x02; R 0x040A 0x00; R 0x040B 0x00; R 0x040C 0x10;
   R 0x040D 0x68; R 0x040E 0x06; R 0x040F 0x18; R 0x3038 0x00;
   R 0x303A 0x00; R 0x303B 0x10; R 0x300D 0x00; R 0x034C 0x08;
   R 0x034D 0x34; R 0x034E 0x06; R 0x034F 0x18; R 0x020E 0x01;
   R 0x020F 0x00; R 0x0210 0x01; R 0x0211 0x00; R 0x0212 0x01;
   R 0x0213 0x00; R 0x0214 0x01; R 0x0215 0x00; R 0x7BCD 0x01;
   R 0x94DC 0x20; R 0x94DD 0x20; R 0x94DE 0x20; R 0x95DC 0x20;
   R 0x95DD 0x20; R 0x95DE 0x20; R 0x7FB0 0x00; R 0x9010 0x3E;
   R 0x9419 0x50; R 0x941B 0x50; R 0x9519 0x50; R 0x951B 0x50;
   R 0x3030 0x00; R 0x3032 0x00; R 0x0220 0x00].

Definition mode_1920x1080_regs : list imx258_reg :=
  [R 0x0112 0x0A; R 0x0113 0x0A; R 0x0114 0x01; R 0x0301 0x05;
   R 0x0303 0x02; R 0x0305 0x04; R 0x0306 0x00; R 0x0307 0xD8;
   R 0x0309 0x0A; R 0x030B 0x01; R 0x030D 0x02; R 0x030E 0x00;
   R 0x030F 0xD8; R 0x0310 0x00; R 0x0820 0x0A; R 0x0821 0x20;
   R 0x0822 0x00; R 0x0823 0x00; R 0x4648 0x7F; R 0x9104 0x00;
   R 0x0342 0x14; R 0x0343 0xE8; R 0x0344 0x00; R 0x0345 0x00;
   R 0x0346 0x00; R 0x0347 0x00; R 0x0348 0x10; R 0x0349 0x6F;
   R 0x034A 0x0C; R 0x034B 0x2F; R 0x0381 0x01; R 0x0383 0x01;
   R 0x0385 0x01; R 0x0387 0x01; R 0x0900 0x01; R 0x0901 0x12;
   R 0x0401 0x01; R 0x0404 0x00; R 0x0405 0x20; R 0x0408 0x00;
   R 0x0409 0x5C; R 0x040A 0x00; R 0x040B 0xF0; R 0x040C 0x0F;
   R 0x040D 0x00; R 0x040E 0x04; R 0x040F 0x38; R 0x3038 0x00;
   R 0x303A 0x00; R 0x303B 0x10; R 0x300D 0x00; R 0x034C 0x07;
   R 0x034D 0x80; R 0x034E 0x04; R 0x034F 0x38; R 0x020E 0x01;
   R 0x020F 0xF0; R 0x0210 0x01; R 0x0211 0xF0; R 0x0212 0x01;
   R 0x0213 0xF0; R 0x0214 0x01; R 0x0215 0xF0; R 0x7BCD 0x01;
   R 0x94DC 0x20; R 0x94DD 0x20; R 0x94DE 0x20; R 0x95DC 0x20;
   R 0x95DD 0x20; R 0x95DE 0x20; R 0x7FB0 0x00; R 0x9010 0x3E;
   R 0x9419 0x50; R 0x941B 0x50; R 0x9519 0x50; R 0x951B 0x50;
   R 0x3030 0x00; R 0x3032 0x00; R 0x0220 0x00].

(** Mode configs *)
Definition supported_modes_10bit : list imx258_mode :=
  [ (* 12MPix 15fps mode *)
    mk_mode 4208 3120 5352
      (mk_rect IMX258_PIXEL_ARRAY_LEFT IMX258_PIXEL_ARRAY_TOP 4096 3120)
      (mk_fract 100 1000) (mk_fract 100 1000) mode_4208x3120_regs;
    (* 2x2 binned 30fps mode *)
    mk_mode 2048 1560 5352
      (mk_rect IMX258_PIXEL_ARRAY_LEFT IMX258_PIXEL_ARRAY_TOP 2048 1560)
      (mk_fract 100 4000) (mk_fract 100 3000) mode_2048x1560_regs;
    (* 1080p 30fps cropped mode *)
    mk_mode 1920 1080 5352
      (mk_rect IMX258_PIXEL_ARRAY_LEFT (IMX258_PIXEL_ARRAY_TOP + 440)
               1920 1080)
      (mk_fract 100 4000) (mk_fract 100 3000) mode_1920x1080_regs ].

(** The supported formats.  This table MUST contain 4 entries per format,
    to cover the various flip combinations in the order: no flip, h flip,
    v flip, h&v flips. *)
Definition codes : list Z :=
  [ MEDIA_BUS_FMT_SRGGB10_1X10;
    MEDIA_BUS_FMT_SGRBG10_1X10;
    MEDIA_BUS_FMT_SGBRG10_1X10;
    MEDIA_BUS_FMT_SBGGR10_1X10 ].

Definition imx258_test_pattern_val : list Z :=
  [ IMX258_TEST_PATTERN_DISABLE;
    IMX258_TEST_PATTERN_COLOR_BARS;
    IMX258_TEST_PATTERN_SOLID_COLOR;
    IMX258_TEST_PATTERN_GREY_COLOR;
    IMX258_TEST_PATTERN_PN9 ].

(** [struct imx258].  The mutex is not modelled: every operation below
    runs to completion under it. *)
Record imx258 : Type := mk_imx258 {
  client : i2c_client;
  fmt_code : Z;
  ctrl_handler : list v4l2_ctrl;
  mode : imx258_mode;
  streaming : bool;
  common_regs_written : bool;
  long_exp_shift : Z
}.

Definition set_client (c : i2c_client) (d : imx258) : imx258 :=
  mk_imx258 c (fmt_code d) (ctrl_handler d) (mode d) (streaming d)
            (common_regs_written d) (long_exp_shift d).
Definition set_ctrl_handler (h : list v4l2_ctrl) (d : imx258) : imx258 :=
  mk_imx258 (client d) (fmt_code d) h (mode d) (streaming d)
            (common_regs_written d) (long_exp_shift d).
Definition set_streaming (b : bool) (d : imx258) : imx258 :=
  mk_imx258 (client d) (fmt_code d) (ctrl_handler d) (mode d) b
            (common_regs_written d) (long_exp_shift d).
Definition set_common_regs_written (b : bool) (d : imx258) : imx258 :=
  mk_imx258 (client d) (fmt_code d) (ctrl_handler d) (mode d) (streaming d)
            b (long_exp_shift d).
Definition set_long_exp_shift (s : Z) (d : imx258) : imx258 :=
  mk_imx258 (client d) (fmt_code d) (ctrl_handler d) (mode d) (streaming d)
            (common_regs_written d) s.

(** The control pointers of [struct imx258]. *)
Definition exposure (d : imx258) : v4l2_ctrl :=
  ctrl_of V4L2_CID_EXPOSURE (ctrl_handler d).
Definition vflip (d : imx258) : v4l2_ctrl :=
  ctrl_of V4L2_CID_VFLIP (ctrl_handler d).
Definition hflip (d : imx258) : v4l2_ctrl :=
  ctrl_of V4L2_CID_HFLIP (ctrl_handler d).
Definition vblank (d : imx258) : v4l2_ctrl :=
  ctrl_of V4L2_CID_VBLANK (ctrl_handler d).

(** Run an operation of the I2C client on the device. *)
Definition on_client {A} (m : M i2c_client A) : M imx258 A :=
  fun d => let (a, c) := m (client d) in (a, set_client c d).

(** Write registers up to 2 at a time *)
Definition imx258_write_reg (reg len v : Z) : M imx258 Z :=
  if 4 <? len then ret (- EINVAL)
  else
    let buf := put_unaligned_be16 (u16 reg) ++
               put_unaligned_be32 (u32 (Z.shiftl (u32 v) (8 * (4 - len)))) in
    n <- on_client (i2c_master_send buf (len + 2)) ;;
    if negb (n =? len + 2) then ret (- EIO) else ret 0.

(** Write a list of registers *)
Fixpoint write_regs_loop (regs : list imx258_reg) : M imx258 Z :=
  match regs with
  | [] => ret 0
  | r :: rest =>
      x <- imx258_write_reg (address r) 1 (regval r) ;;
      if nonzero x
      then on_client (dev_err "Failed to write reg") ;;; ret x
      else write_regs_loop rest
  end.

Definition imx258_write_regs (regs : list imx258_reg) (len : Z)
  : M imx258 Z :=
  write_regs_loop (firstn (Z.to_nat len) regs).

(** Index of the first entry of [codes] equal to [code], or the table's
    size when there is none: the [for] loop of [imx258_get_format_code]. *)
Fixpoint code_index (tbl : list Z) (code : Z) (i : Z) : Z :=
  match tbl with
  | [] => i
  | c :: rest => if c =? code then i else code_index rest code (i + 1)
  end.

(** Get bayer order based on flip setting. *)
Definition imx258_get_format_code (d : imx258) (code : Z) : Z :=
  let i := code_index codes code 0 in
  let i := if Z.of_nat (List.length codes) <=? i then 0 else i in
  let i := Z.lor (Z.lor (Z.land i (u32 (Z.lnot 3)))
                        (if nonzero (val (vflip d)) then 2 else 0))
                 (if nonzero (val (hflip d)) then 1 else 0) in
  nth (Z.to_nat i) codes 0.

Definition imx258_adjust_exposure_range : M imx258 unit :=
  modify (fun d =>
    (* Honour the VBLANK limits when setting exposure. *)
    let exposure_max :=
      s32 (u32 (u32 (height (mode d) + u32 (val (vblank d))) -
                u32 (Z.shiftl IMX258_EXPOSURE_OFFSET (long_exp_shift d)))) in
    let exposure_def := Z.min exposure_max (val (exposure d)) in
    set_ctrl_handler
      (update_ctrl V4L2_CID_EXPOSURE
         (__v4l2_ctrl_modify_range (minimum (exposure d)) exposure_max
                                   (step (exposure d)) exposure_def)
         (ctrl_handler d)) d).

(** The [while] loop of [imx258_set_frame_length] on [(val, shift)]. *)
Equations? frame_length_loop (v shift : Z) : Z * Z
  by wf (Z.to_nat (Z.log2 v)) lt :=
  frame_length_loop v shift with Z_gt_dec v IMX258_FRAME_LENGTH_MAX => {
    | left _ := frame_length_loop (Z.shiftr v 1) (u32 (shift + 1));
    | right _ := (v, shift) }.
Proof.
  unfold IMX258_FRAME_LENGTH_MAX in *.
  rewrite Z.shiftr_div_pow2, <- Z.shiftr_div_pow2 by lia.
  rewrite Z.log2_shiftr by lia.
  assert (1 <= Z.log2 v) by (apply Z.log2_le_pow2; simpl; lia).
  lia.
Qed.

Definition imx258_set_frame_length (v : Z) : M imx258 Z :=
  modify (set_long_exp_shift 0) ;;;
  s0 <- gets long_exp_shift ;;
  let (v', s) := frame_length_loop v s0 in
  modify (set_long_exp_shift s) ;;;
  r <- imx258_write_reg IMX258_REG_FRAME_LENGTH IMX258_REG_VALUE_16BIT v' ;;
  if nonzero r then ret r
  else
    s <- gets long_exp_shift ;;
    imx258_write_reg IMX258_LONG_EXP_SHIFT_REG IMX258_REG_VALUE_08BIT s.

(** Modelled from the spec: the macro [do_div] is not part of the sources.
    It replaces its first argument by the quotient of the division by its
    second; there is no result for a zero divisor. *)
Definition do_div (n base : Z) : option Z :=
  if base =? 0 then None else Some (n / base).

Definition imx258_get_frame_length (m : imx258_mode) (timeperframe : v4l2_fract)
  : option Z :=
  let frame_length := u64 (u64 (numerator timeperframe) * IMX258_PIXEL_RATE) in
  match do_div frame_length
               (u64 (u64 (denominator timeperframe) * line_length_pix m)) with
  | None => None
  | Some frame_length =>
      let frame_length :=
        if IMX258_FRAME_LENGTH_MAX <? frame_length
        then IMX258_FRAME_LENGTH_MAX else frame_length in
      Some (Z.max (u32 frame_length) (u32 (height m)))
  end.

(** Power/clock management functions *)
Definition imx258_power_on : M imx258 Z :=
  r <- on_client regulator_bulk_enable ;;
  if nonzero r
  then on_client (dev_err "failed to enable regulators") ;;; ret r
  else
    r <- on_client clk_prepare_enable ;;
    if nonzero r
    then
      on_client (dev_err "failed to enable clock") ;;;
      on_client regulator_bulk_disable ;;;
      ret r
    else
      on_client (gpiod_set_value_cansleep 1) ;;;
      ret 0.

Definition imx258_power_off : M imx258 Z :=
  on_client (gpiod_set_value_cansleep 0) ;;;
  on_client regulator_bulk_disable ;;;
  on_client clk_disable_unprepare ;;;
  (* Force reprogramming of the common registers when powered up again. *)
  modify (set_common_regs_written false) ;;;
  ret 0.

(** Modelled from the spec: the runtime-PM core is not part of the sources.
    [imx258_pm_ops] binds runtime suspend and resume to [imx258_power_off]
    and [imx258_power_on].  [pm_runtime_get_sync] takes a reference and
    powers the device on when it is not active: it answers 1 when the
    device was already active, 0 after a successful power-on and the
    callback's error otherwise (the reference is kept). *)
Definition pm_runtime_get_sync : M imx258 Z :=
  on_client (modify (fun c => set_pm (S (pm_usage c)) (pm_active c) c)) ;;;
  a <- gets (fun d => pm_active (client d)) ;;
  if a then ret 1
  else
    r <- imx258_power_on ;;
    if nonzero r then ret r
    else
      on_client (modify (fun c => set_pm (pm_usage c) true c)) ;;;
      ret 0.

(** Modelled from the spec: [pm_runtime_put] drops a reference and, when
    it was the last one, powers the device off. *)
Definition pm_runtime_put : M imx258 unit :=
  on_client pm_runtime_put_noidle ;;;
  u <- gets (fun d => pm_usage (client d)) ;;
  a <- gets (fun d => pm_active (client d)) ;;
  if Nat.eqb u 0 && a
  then
    imx258_power_off ;;;
    on_client (modify (fun c => set_pm (pm_usage c) false c))
  else ret tt.

Definition imx258_set_ctrl (ctrl : v4l2_ctrl) : M imx258 Z :=
  (* The VBLANK control may change the limits of usable exposure, so check
     and adjust if necessary. *)
  (if cid_eqb (id ctrl) V4L2_CID_VBLANK
   then imx258_adjust_exposure_range else ret tt) ;;;
  (* Applying V4L2 control value only happens when power is up for
     streaming *)
  u <- on_client pm_runtime_get_if_in_use ;;
  if u =? 0 then ret 0
  else
    r <- match id ctrl with
         | V4L2_CID_ANALOGUE_GAIN =>
             imx258_write_reg IMX258_REG_ANALOG_GAIN
                              IMX258_REG_VALUE_16BIT (val ctrl)
         | V4L2_CID_EXPOSURE =>
             s <- gets long_exp_shift ;;
             imx258_write_reg IMX258_REG_EXPOSURE
                              IMX258_REG_VALUE_16BIT (Z.shiftr (val ctrl) s)
         | V4L2_CID_DIGITAL_GAIN =>
             _ <- imx258_write_reg IMX258_REG_GR_DIGITAL_GAIN
                                   IMX258_REG_VALUE_16BIT (val ctrl) ;;
             _ <- imx258_write_reg IMX258_REG_R_DIGITAL_GAIN
                                   IMX258_REG_VALUE_16BIT (val ctrl) ;;
             _ <- imx258_write_reg IMX258_REG_B_DIGITAL_GAIN
                                   IMX258_REG_VALUE_16BIT (val ctrl) ;;
             imx258_write_reg IMX258_REG_GB_DIGITAL_GAIN
                              IMX258_REG_VALUE_16BIT (val ctrl)
         | V4L2_CID_TEST_PATTERN =>
             imx258_write_reg IMX258_REG_TEST_PATTERN
                              IMX258_REG_VALUE_16BIT
                              (nth (Z.to_nat (val ctrl))
                                   imx258_test_pattern_val 0)
         | V4L2_CID_TEST_PATTERN_RED =>
             imx258_write_reg IMX258_REG_TEST_PATTERN_R
                              IMX258_REG_VALUE_16BIT (val ctrl)
         | V4L2_CID_TEST_PATTERN_GREENR =>
             imx258_write_reg IMX258_REG_TEST_PATTERN_GR
                              IMX258_REG_VALUE_16BIT (val ctrl)
         | V4L2_CID_TEST_PATTERN_BLUE =>
             imx258_write_reg IMX258_REG_TEST_PATTERN_B
                              IMX258_REG_VALUE_16BIT (val ctrl)
         | V4L2_CID_TEST_PATTERN_GREENB =>
             imx258_write_reg IMX258_REG_TEST_PATTERN_GB
                              IMX258_REG_VALUE_16BIT (val ctrl)
         | V4L2_CID_HFLIP
         | V4L2_CID_VFLIP =>
             h <- gets (fun d => val (hflip d)) ;;
             v <- gets (fun d => val (vflip d)) ;;
             imx258_write_reg IMX258_REG_ORIENTATION 1
                              (Z.lor h (Z.shiftl v 1))
         | V4L2_CID_VBLANK =>
             h <- gets (fun d => height (mode d)) ;;
             imx258_set_frame_length (u32 (h + u32 (val ctrl)))
         | _ =>
             on_client (dev_err "ctrl is not handled") ;;;
             ret (- EINVAL)
         end ;;
    pm_runtime_put ;;;
    ret r.

(** Start streaming *)
Definition imx258_start_streaming : M imx258 Z :=
  w <- gets common_regs_written ;;
  r <- (if negb w
        then
          r <- imx258_write_regs mode_common_regs
                 (Z.of_nat (List.length mode_common_regs)) ;;
          if nonzero r
          then on_client (dev_err "failed to set common settings") ;;; ret r
          else modify (set_common_regs_written true) ;;; ret 0
        else ret 0) ;;
  if nonzero r then ret r
  else
    (* Apply default values of current mode *)
    m <- gets mode ;;
    r <- imx258_write_regs (reg_list m) (num_of_regs m) ;;
    if nonzero r
    then on_client (dev_err "failed to set mode") ;;; ret r
    else
      (* Apply customized values from user *)
      r <- __v4l2_ctrl_handler_setup ctrl_handler imx258_set_ctrl ;;
      if nonzero r then ret r
      else
        (* set stream on register *)
        imx258_write_reg IMX258_REG_MODE_SELECT IMX258_REG_VALUE_08BIT
                         IMX258_MODE_STREAMING.

(** Stop streaming *)
Definition imx258_stop_streaming : M imx258 unit :=
  (* set stream off register *)
  r <- imx258_write_reg IMX258_REG_MODE_SELECT IMX258_REG_VALUE_08BIT
                        IMX258_MODE_STANDBY ;;
  if nonzero r
  then on_client (dev_err "failed to set stream")
  else ret tt.

(** The code of [imx258_set_stream] after its [if (enable)] statement. *)
Definition set_stream_commit (enable r : Z) : M imx258 Z :=
  modify (set_streaming (nonzero enable)) ;;;
  (* vflip and hflip cannot change during streaming *)
  modify (fun d =>
    set_ctrl_handler
      (update_ctrl V4L2_CID_VFLIP (__v4l2_ctrl_grab (nonzero enable))
                   (ctrl_handler d)) d) ;;;
  modify (fun d =>
    set_ctrl_handler
      (update_ctrl V4L2_CID_HFLIP (__v4l2_ctrl_grab (nonzero enable))
                   (ctrl_handler d)) d) ;;;
  ret r.

Definition imx258_set_stream (enable : Z) : M imx258 Z :=
  st <- gets streaming ;;
  if Z.b2z st =? enable then ret 0
  else if nonzero enable
  then
    r <- pm_runtime_get_sync ;;
    if r <? 0
    then on_client pm_runtime_put_noidle ;;; ret r
    else
      (* Apply default & customized values and then start streaming. *)
      r <- imx258_start_streaming ;;
      if nonzero r
      then pm_runtime_put ;;; ret r
      else set_stream_commit enable r
  else
    imx258_stop_streaming ;;;
    pm_runtime_put ;;;
    set_stream_commit enable 0.

(** *** System sleep *)

Definition imx258_suspend : M imx258 Z :=
  st <- gets streaming ;;
  (if st then imx258_stop_streaming else ret tt) ;;;
  ret 0.

Definition imx258_resume : M imx258 Z :=
  st <- gets streaming ;;
  r <- (if st then imx258_start_streaming else ret 0) ;;
  if nonzero r
  then
    (* error: *)
    imx258_stop_streaming ;;;
    modify (set_streaming false) ;;;
    ret r
  else ret 0.

(** *** Chip identification *)

(** Chip ID *)
Definition IMX258_REG_CHIP_ID : Z := 0x0016.
Definition IMX258_CHIP_ID : Z := 0x0258.

(** Read registers up to 2 at a time.  [rx] is what the sensor answers;
    [val0] is the previous content of [*val], which a failed read leaves
    alone. *)
Definition imx258_read_reg (rx : list Z) (reg len val0 : Z)
  : M imx258 (Z * Z) :=
  let addr_buf := [u8 (Z.shiftr (u16 reg) 8); u8 (Z.land (u16 reg) 0xff)] in
  if 4 <? len then ret (- EINVAL, val0)
  else
    (* Write register address, then read data from register *)
    p <- on_client (i2c_transfer addr_buf len rx) ;;
    if negb (fst p =? 2) then ret (- EIO, val0)
    else
      let data_buf := repeat 0 (Z.to_nat (4 - len)) ++ snd p in
      ret (0, get_unaligned_be32 data_buf).

(** Verify chip ID.  [val0] is the uninitialised content of [val]. *)
Definition imx258_identify_module (rx : list Z) (val0 : Z) : M imx258 Z :=
  p <- imx258_read_reg rx IMX258_REG_CHIP_ID IMX258_REG_VALUE_16BIT val0 ;;
  if nonzero (fst p)
  then on_client (dev_err "failed to read chip id") ;;; ret (fst p)
  else if negb (snd p =? IMX258_CHIP_ID)
  then on_client (dev_err "chip id mismatch") ;;; ret (- EIO)
  else ret 0.

(** *** Pad operations *)

(** Embedded metadata stream structure *)
Definition IMX258_EMBEDDED_LINE_WIDTH : Z := 16384.
Definition IMX258_NUM_EMBEDDED_LINES : Z := 1.

(** [enum pad_types] *)
Definition IMAGE_PAD : Z := 0.
Definition METADATA_PAD : Z := 1.
Definition NUM_PADS : Z := 2.

(** IMX258 native and active pixel array size. *)
Definition IMX258_NATIVE_WIDTH : Z := 4208.
Definition IMX258_NATIVE_HEIGHT : Z := 3120.
Definition IMX258_PIXEL_ARRAY_WIDTH : Z := 4208.
Definition IMX258_PIXEL_ARRAY_HEIGHT : Z := 3120.

(** Constants of the V4L2 user API (media-bus-format.h, videodev2.h,
    v4l2-subdev.h, v4l2-common.h). *)
Definition MEDIA_BUS_FMT_SENSOR_DATA : Z := 0x7002.
Definition V4L2_FIELD_NONE : Z := 1.
Definition V4L2_COLORSPACE_SRGB : Z := 8.
Definition V4L2_SUBDEV_FORMAT_TRY : Z := 0.
Definition V4L2_SUBDEV_FORMAT_ACTIVE : Z := 1.
Definition V4L2_SEL_TGT_CROP : Z := 0x0000.
Definition V4L2_SEL_TGT_CROP_DEFAULT : Z := 0x0001.
Definition V4L2_SEL_TGT_CROP_BOUNDS : Z := 0x0002.
Definition V4L2_SEL_TGT_NATIVE_SIZE : Z := 0x0003.

(** [struct v4l2_mbus_framefmt] *)
Record v4l2_mbus_framefmt : Type := mk_framefmt {
  ff_width : Z;
  ff_height : Z;
  ff_code : Z;
  ff_field : Z;
  ff_colorspace : Z;
  ff_ycbcr_enc : Z;
  ff_quantization : Z;
  ff_xfer_func : Z
}.

Definition set_ff_code (c : Z) (f : v4l2_mbus_framefmt) : v4l2_mbus_framefmt :=
  mk_framefmt (ff_width f) (ff_height f) c (ff_field f) (ff_colorspace f)
              (ff_ycbcr_enc f) (ff_quantization f) (ff_xfer_func f).

(** Width, height, code and field written together. *)
Definition set_ff_geometry (w h c fld : Z) (f : v4l2_mbus_framefmt)
  : v4l2_mbus_framefmt :=
  mk_framefmt w h c fld (ff_colorspace f) (ff_ycbcr_enc f)
              (ff_quantization f) (ff_xfer_func f).

(** [struct v4l2_subdev_pad_config]: the try state of one pad.  The pad
    configuration array of a file handle is a map from pad numbers. *)
Record v4l2_subdev_pad_config : Type := mk_pad_config {
  try_fmt : v4l2_mbus_framefmt;
  try_crop : v4l2_rect
}.

Definition pad_configs : Type := Z -> v4l2_subdev_pad_config.

(** [*v4l2_subdev_get_try_format(sd, cfg, pad) = f] *)
Definition set_try_format (p : Z) (f : v4l2_mbus_framefmt) (cfg : pad_configs)
  : pad_configs :=
  fun q => if q =? p then mk_pad_config f (try_crop (cfg q)) else cfg q.

(** [*v4l2_subdev_get_try_crop(sd, cfg, pad) = r] *)
Definition set_try_crop (p : Z) (r : v4l2_rect) (cfg : pad_configs)
  : pad_configs :=
  fun q => if q =? p then mk_pad_config (try_fmt (cfg q)) r else cfg q.

(** [struct v4l2_subdev_format] *)
Record v4l2_subdev_format : Type := mk_subdev_format {
  which : Z;
  pad : Z;
  format : v4l2_mbus_framefmt
}.

Definition set_format (f : v4l2_mbus_framefmt) (fmt : v4l2_subdev_format)
  : v4l2_subdev_format :=
  mk_subdev_format (which fmt) (pad fmt) f.

(** [struct v4l2_subdev_mbus_code_enum] *)
Record v4l2_subdev_mbus_code_enum : Type := mk_code_enum {
  mce_pad : Z;
  mce_index : Z;
  mce_code : Z
}.

(** [struct v4l2_subdev_frame_size_enum] *)
Record v4l2_subdev_frame_size_enum : Type := mk_fse {
  fse_index : Z;
  fse_pad : Z;
  fse_code : Z;
  min_width : Z;
  max_width : Z;
  min_height : Z;
  max_height : Z
}.

(** [struct v4l2_subdev_selection] *)
Record v4l2_subdev_selection : Type := mk_selection {
  sel_which : Z;
  sel_pad : Z;
  sel_target : Z;
  sel_r : v4l2_rect
}.

Definition set_sel_r (r : v4l2_rect) (sel : v4l2_subdev_selection)
  : v4l2_subdev_selection :=
  mk_selection (sel_which sel) (sel_pad sel) (sel_target sel) r.

Definition set_mode (m : imx258_mode) (d : imx258) : imx258 :=
  mk_imx258 (client d) (fmt_code d) (ctrl_handler d) m (streaming d)
            (common_regs_written d) (long_exp_shift d).
Definition set_fmt_code (c : Z) (d : imx258) : imx258 :=
  mk_imx258 (client d) c (ctrl_handler d) (mode d) (streaming d)
            (common_regs_written d) (long_exp_shift d).

(** The entry read where a mode array has none. *)
Definition no_mode : imx258_mode :=
  mk_mode 0 0 0 (mk_rect 0 0 0 0) (mk_fract 0 0) (mk_fract 0 0) [].

(** The mode list of a format code; the empty list stands for the
    [NULL] list with [num_modes = 0]. *)
Definition get_mode_table (code : Z) : list imx258_mode :=
  if (code =? MEDIA_BUS_FMT_SRGGB10_1X10) ||
     (code =? MEDIA_BUS_FMT_SGRBG10_1X10) ||
     (code =? MEDIA_BUS_FMT_SGBRG10_1X10) ||
     (code =? MEDIA_BUS_FMT_SBGGR10_1X10)
  then supported_modes_10bit
  else [].

Definition imx258_set_default_format (d : imx258) : imx258 :=
  (* Set default mode to max resolution; only support 10bit mode *)
  set_fmt_code MEDIA_BUS_FMT_SRGGB10_1X10
    (set_mode (nth 0 supported_modes_10bit no_mode) d).

Definition imx258_open (d : imx258) (cfg : pad_configs) : Z * pad_configs :=
  let m0 := nth 0 supported_modes_10bit no_mode in
  (* Initialize try_fmt for the image pad *)
  let cfg :=
    set_try_format IMAGE_PAD
      (set_ff_geometry (width m0) (height m0)
         (imx258_get_format_code d MEDIA_BUS_FMT_SRGGB10_1X10)
         V4L2_FIELD_NONE (try_fmt (cfg IMAGE_PAD))) cfg in
  (* Initialize try_fmt for the embedded metadata pad *)
  let cfg :=
    set_try_format METADATA_PAD
      (set_ff_geometry IMX258_EMBEDDED_LINE_WIDTH IMX258_NUM_EMBEDDED_LINES
         MEDIA_BUS_FMT_SENSOR_DATA V4L2_FIELD_NONE
         (try_fmt (cfg METADATA_PAD))) cfg in
  (* Initialize try_crop *)
  let cfg :=
    set_try_crop IMAGE_PAD
      (mk_rect IMX258_PIXEL_ARRAY_LEFT IMX258_PIXEL_ARRAY_TOP
               IMX258_PIXEL_ARRAY_WIDTH IMX258_PIXEL_ARRAY_HEIGHT) cfg in
  (0, cfg).

Definition imx258_enum_mbus_code (d : imx258)
  (code : v4l2_subdev_mbus_code_enum) : Z * v4l2_subdev_mbus_code_enum :=
  if NUM_PADS <=? mce_pad code then (- EINVAL, code)
  else if mce_pad code =? IMAGE_PAD
  then
    if Z.of_nat (List.length codes) / 4 <=? mce_index code
    then (- EINVAL, code)
    else
      (0, mk_code_enum (mce_pad code) (mce_index code)
            (imx258_get_format_code d
               (nth (Z.to_nat (u32 (mce_index code * 4))) codes 0)))
  else
    if 0 <? mce_index code then (- EINVAL, code)
    else
      (0, mk_code_enum (mce_pad code) (mce_index code)
            MEDIA_BUS_FMT_SENSOR_DATA).

Definition imx258_enum_frame_size (d : imx258)
  (fse : v4l2_subdev_frame_size_enum) : Z * v4l2_subdev_frame_size_enum :=
  if NUM_PADS <=? fse_pad fse then (- EINVAL, fse)
  else if fse_pad fse =? IMAGE_PAD
  then
    let mode_list := get_mode_table (fse_code fse) in
    if Z.of_nat (List.length mode_list) <=? fse_index fse
    then (- EINVAL, fse)
    else if negb (fse_code fse =? imx258_get_format_code d (fse_code fse))
    then (- EINVAL, fse)
    else
      let m := nth (Z.to_nat (fse_index fse)) mode_list no_mode in
      (0, mk_fse (fse_index fse) (fse_pad fse) (fse_code fse)
                 (width m) (width m) (height m) (height m))
  else
    if negb (fse_code fse =? MEDIA_BUS_FMT_SENSOR_DATA) ||
       (0 <? fse_index fse)
    then (- EINVAL, fse)
    else
      (0, mk_fse (fse_index fse) (fse_pad fse) (fse_code fse)
                 IMX258_EMBEDDED_LINE_WIDTH IMX258_EMBEDDED_LINE_WIDTH
                 IMX258_NUM_EMBEDDED_LINES IMX258_NUM_EMBEDDED_LINES).

Definition imx258_update_metadata_pad_format (fmt : v4l2_subdev_format)
  : v4l2_subdev_format :=
  set_format (set_ff_geometry IMX258_EMBEDDED_LINE_WIDTH
                IMX258_NUM_EMBEDDED_LINES MEDIA_BUS_FMT_SENSOR_DATA
                V4L2_FIELD_NONE (format fmt)) fmt.

(** The crop rectangle of a pad; [None] is the [NULL] pointer. *)
Definition __imx258_get_pad_crop (d : imx258) (cfg : pad_configs)
  (p w : Z) : option v4l2_rect :=
  if w =? V4L2_SUBDEV_FORMAT_TRY then Some (try_crop (cfg p))
  else if w =? V4L2_SUBDEV_FORMAT_ACTIVE then Some (crop (mode d))
  else None.

(** [None] is the dereference of a [NULL] crop rectangle. *)
Definition imx258_get_selection (d : imx258) (cfg : pad_configs)
  (sel : v4l2_subdev_selection) : option (Z * v4l2_subdev_selection) :=
  if sel_target sel =? V4L2_SEL_TGT_CROP
  then
    match __imx258_get_pad_crop d cfg (sel_pad sel) (sel_which sel) with
    | None => None
    | Some r => Some (0, set_sel_r r sel)
    end
  else if sel_target sel =? V4L2_SEL_TGT_NATIVE_SIZE
  then
    Some (0, set_sel_r (mk_rect 0 0 IMX258_NATIVE_WIDTH IMX258_NATIVE_HEIGHT)
                       sel)
  else if (sel_target sel =? V4L2_SEL_TGT_CROP_DEFAULT) ||
          (sel_target sel =? V4L2_SEL_TGT_CROP_BOUNDS)
  then
    Some (0, set_sel_r (mk_rect IMX258_PIXEL_ARRAY_LEFT IMX258_PIXEL_ARRAY_TOP
                                IMX258_PIXEL_ARRAY_WIDTH
                                IMX258_PIXEL_ARRAY_HEIGHT) sel)
  else Some (- EINVAL, sel).

(** [None] is a division by zero in [imx258_get_frame_length]. *)
Definition imx258_set_framing_limits : M imx258 (option unit) :=
  m <- gets mode ;;
  match imx258_get_frame_length m (timeperframe_min m),
        imx258_get_frame_length m (timeperframe_default m) with
  | Some frm_length_min, Some frm_length_default =>
      (* Default to no long exposure multiplier. *)
      modify (set_long_exp_shift 0) ;;;
      (* Setting this will adjust the exposure limits as well. *)
      _ <- v4l2_ctrl_s_ctrl ctrl_handler set_ctrl_handler imx258_set_ctrl
             V4L2_CID_VBLANK (s32 (u32 (frm_length_default - height m))) ;;
      (* Currently PPL is fixed to the mode specified value, so hblank
         depends on mode->width only, and is not changeable in any way
         other than changing the mode. *)
      let hblank := u32 (line_length_pix m - width m) in
      modify (fun d =>
        set_ctrl_handler
          (update_ctrl V4L2_CID_HBLANK
             (__v4l2_ctrl_modify_range hblank hblank 1 hblank)
             (ctrl_handler d)) d) ;;;
      ret (Some tt)
  | _, _ => ret None
  end.

Section Uapi.

(** The colour-space mapping macros of videodev2.h and the nearest-size
    search of v4l2-common.h are not part of the sources; the operations
    below take them as they come.  [v4l2_find_nearest_size] answers an
    entry of the array, or [None] (the [NULL] pointer). *)
Variable V4L2_MAP_YCBCR_ENC_DEFAULT : Z -> Z.
Variable V4L2_MAP_QUANTIZATION_DEFAULT : bool -> Z -> Z -> Z.
Variable V4L2_MAP_XFER_FUNC_DEFAULT : Z -> Z.
Variable v4l2_find_nearest_size :
  list imx258_mode -> Z -> Z -> option imx258_mode.

Definition imx258_reset_colorspace (f : v4l2_mbus_framefmt)
  : v4l2_mbus_framefmt :=
  let colorspace := V4L2_COLORSPACE_SRGB in
  let ycbcr_enc := V4L2_MAP_YCBCR_ENC_DEFAULT colorspace in
  let quantization :=
    V4L2_MAP_QUANTIZATION_DEFAULT true colorspace ycbcr_enc in
  let xfer_func := V4L2_MAP_XFER_FUNC_DEFAULT colorspace in
  mk_framefmt (ff_width f) (ff_height f) (ff_code f) (ff_field f)
              colorspace ycbcr_enc quantization xfer_func.

Definition imx258_update_image_pad_format (m : imx258_mode)
  (fmt : v4l2_subdev_format) : v4l2_subdev_format :=
  set_format
    (imx258_reset_colorspace
       (set_ff_geometry (width m) (height m) (ff_code (format fmt))
                        V4L2_FIELD_NONE (format fmt))) fmt.

Definition imx258_get_pad_format (d : imx258) (cfg : pad_configs)
  (fmt : v4l2_subdev_format) : Z * pad_configs * v4l2_subdev_format :=
  if NUM_PADS <=? pad fmt then (- EINVAL, cfg, fmt)
  else if which fmt =? V4L2_SUBDEV_FORMAT_TRY
  then
    let t := try_fmt (cfg (pad fmt)) in
    (* update the code which could change due to vflip or hflip: *)
    let t := set_ff_code (if pad fmt =? IMAGE_PAD
                          then imx258_get_format_code d (ff_code t)
                          else MEDIA_BUS_FMT_SENSOR_DATA) t in
    (0, set_try_format (pad fmt) t cfg, set_format t fmt)
  else if pad fmt =? IMAGE_PAD
  then
    let fmt := imx258_update_image_pad_format (mode d) fmt in
    (0, cfg,
     set_format (set_ff_code (imx258_get_format_code d (fmt_code d))
                             (format fmt)) fmt)
  else (0, cfg, imx258_update_metadata_pad_format fmt).

(** [None] is the dereference of a [NULL] mode, or a division by zero in
    [imx258_set_framing_limits]. *)
Definition imx258_set_pad_format (cfg : pad_configs)
  (fmt : v4l2_subdev_format)
  : M imx258 (option (Z * pad_configs * v4l2_subdev_format)) :=
  if NUM_PADS <=? pad fmt then ret (Some (- EINVAL, cfg, fmt))
  else if pad fmt =? IMAGE_PAD
  then
    d <- gets (fun d => d) ;;
    (* Bayer order varies with flips *)
    let fmt :=
      set_format (set_ff_code (imx258_get_format_code d (ff_code (format fmt)))
                              (format fmt)) fmt in
    let mode_list := get_mode_table (ff_code (format fmt)) in
    match v4l2_find_nearest_size mode_list (ff_width (format fmt))
                                 (ff_height (format fmt)) with
    | None => ret None
    | Some m =>
        let fmt := imx258_update_image_pad_format m fmt in
        if which fmt =? V4L2_SUBDEV_FORMAT_TRY
        then ret (Some (0, set_try_format (pad fmt) (format fmt) cfg, fmt))
        else
          modify (set_mode m) ;;;
          modify (set_fmt_code (ff_code (format fmt))) ;;;
          r <- imx258_set_framing_limits ;;
          match r with
          | None => ret None
          | Some _ => ret (Some (0, cfg, fmt))
          end
    end
  else
    if which fmt =? V4L2_SUBDEV_FORMAT_TRY
    then ret (Some (0, set_try_format (pad fmt) (format fmt) cfg, fmt))
    else
      (* Only one embedded data mode is supported *)
      ret (Some (0, cfg, imx258_update_metadata_pad_format fmt)).

End Uapi.

(** The device as [imx258_probe] leaves it, on a bus with fault plan [f]:
    default mode and format, the controls of [imx258_init_controls] in
    creation order with the limits of [imx258_set_framing_limits], power
    off, not streaming. *)
Definition probe_client (f : nat -> bool) : i2c_client :=
  mk_client f [] [] 0 false (mk_rails false false 0 0 0).

Definition probe_controls : list v4l2_ctrl :=
  [ mk_ctrl V4L2_CID_PIXEL_RATE IMX258_PIXEL_RATE IMX258_PIXEL_RATE 1
            IMX258_PIXEL_RATE IMX258_PIXEL_RATE V4L2_CTRL_FLAG_READ_ONLY;
    mk_ctrl V4L2_CID_VBLANK 0 0xffff 1 0 1723 0;
    mk_ctrl V4L2_CID_HBLANK 1144 1144 1 1144 1144 V4L2_CTRL_FLAG_READ_ONLY;
    mk_ctrl V4L2_CID_EXPOSURE IMX258_EXPOSURE_MIN 4821 IMX258_EXPOSURE_STEP
            IMX258_EXPOSURE_DEFAULT IMX258_EXPOSURE_DEFAULT 0;
    mk_ctrl V4L2_CID_ANALOGUE_GAIN IMX258_ANA_GAIN_MIN IMX258_ANA_GAIN_MAX
            IMX258_ANA_GAIN_STEP IMX258_ANA_GAIN_DEFAULT
            IMX258_ANA_GAIN_DEFAULT 0;
    mk_ctrl V4L2_CID_DIGITAL_GAIN IMX258_DGTL_GAIN_MIN IMX258_DGTL_GAIN_MAX
            IMX258_DGTL_GAIN_STEP IMX258_DGTL_GAIN_DEFAULT
            IMX258_DGTL_GAIN_DEFAULT 0;
    mk_ctrl V4L2_CID_HFLIP 0 1 1 0 0 V4L2_CTRL_FLAG_MODIFY_LAYOUT;
    mk_ctrl V4L2_CID_VFLIP 0 1 1 0 0 V4L2_CTRL_FLAG_MODIFY_LAYOUT;
    mk_ctrl V4L2_CID_TEST_PATTERN 0 4 1 0 0 0;
    mk_ctrl V4L2_CID_TEST_PATTERN_RED IMX258_TEST_PATTERN_COLOUR_MIN
            IMX258_TEST_PATTERN_COLOUR_MAX IMX258_TEST_PATTERN_COLOUR_STEP
            IMX258_TEST_PATTERN_COLOUR_MAX IMX258_TEST_PATTERN_COLOUR_MAX 0;
    mk_ctrl V4L2_CID_TEST_PATTERN_GREENR IMX258_TEST_PATTERN_COLOUR_MIN
            IMX258_TEST_PATTERN_COLOUR_MAX IMX258_TEST_PATTERN_COLOUR_STEP
            IMX258_TEST_PATTERN_COLOUR_MAX IMX258_TEST_PATTERN_COLOUR_MAX 0;
    mk_ctrl V4L2_CID_TEST_PATTERN_BLUE IMX258_TEST_PATTERN_COLOUR_MIN
            IMX258_TEST_PATTERN_COLOUR_MAX IMX258_TEST_PATTERN_COLOUR_STEP
            IMX258_TEST_PATTERN_COLOUR_MAX IMX258_TEST_PATTERN_COLOUR_MAX 0;
    mk_ctrl V4L2_CID_TEST_PATTERN_GREENB IMX258_TEST_PATTERN_COLOUR_MIN
            IMX258_TEST_PATTERN_COLOUR_MAX IMX258_TEST_PATTERN_COLOUR_STEP
            IMX258_TEST_PATTERN_COLOUR_MAX IMX258_TEST_PATTERN_COLOUR_MAX 0 ].

Definition probe_state (f : nat -> bool) : imx258 :=
  mk_imx258 (probe_client f) MEDIA_BUS_FMT_SRGGB10_1X10 probe_controls
            (nth 0 supported_modes_10bit
                 (mk_mode 0 0 0 (mk_rect 0 0 0 0) (mk_fract 0 0)
                          (mk_fract 0 0) []))
            false false 0.

(** A bus on which every transfer succeeds, and one on which exactly the
    [k]-th transfer fails. *)
Definition no_fault : nat -> bool := fun _ => false.
Definition fault_at (k : nat) : nat -> bool := fun n => Nat.eqb n k.

(** *** Observations used to state the properties of this driver *)

Definition okx (msg : list Z) : i2c_xfer := mk_xfer msg true.
Definition failx (msg : list Z) : i2c_xfer := mk_xfer msg false.

(** The message that writes [v] to the mode-select register. *)
Definition mode_select_msg (v : Z) : list Z :=
  reg_msg IMX258_REG_MODE_SELECT IMX258_REG_VALUE_08BIT v.

(** The messages of a register table, in table order. *)
Definition table_msgs (regs : list imx258_reg) : list (list Z) :=
  map (fun r => reg_msg (address r) 1 (regval r)) regs.

(** The tables a stream start writes: the common registers unless they
    were written in this power cycle, then the registers of the mode. *)
Definition start_tables (d : imx258) : list imx258_reg :=
  (if common_regs_written d then [] else mode_common_regs) ++
  reg_list (mode d).


(** The bulk control commit, as [imx258_start_streaming] runs it. *)
Definition control_commit : M imx258 Z :=
  __v4l2_ctrl_handler_setup ctrl_handler imx258_set_ctrl.




(** Setting a control through the control framework. *)
Definition set_control (i : cid) (v : Z) : M imx258 Z :=
  v4l2_ctrl_s_ctrl ctrl_handler set_ctrl_handler imx258_set_ctrl i v.

(** The Bayer order the flips in force select. *)
Definition bayer_code (d : imx258) : Z :=
  nth (Z.to_nat (Z.lor (if nonzero (val (vflip d)) then 2 else 0)
                       (if nonzero (val (hflip d)) then 1 else 0)))
      codes 0.

(** The rectangle [r] lies within the rectangle [b]. *)
Definition rect_inside (r b : v4l2_rect) : Prop :=
  (rect_left b <= rect_left r) /\ (rect_top b <= rect_top r) /\
  (0 <= rect_width r) /\ (0 <= rect_height r) /\
  (rect_left r + rect_width r <= rect_left b + rect_width b) /\
  (rect_top r + rect_height r <= rect_top b + rect_height b).

(** The full pixel array and the native size of the sensor. *)
Definition pixel_array : v4l2_rect :=
  mk_rect IMX258_PIXEL_ARRAY_LEFT IMX258_PIXEL_ARRAY_TOP
          IMX258_PIXEL_ARRAY_WIDTH IMX258_PIXEL_ARRAY_HEIGHT.
Definition native_size : v4l2_rect :=
  mk_rect 0 0 IMX258_NATIVE_WIDTH IMX258_NATIVE_HEIGHT.

(** The power state of the device: the runtime-PM usage count and active
    flag, and the rails. *)
Definition power_obs (d : imx258) : nat * bool * power_rails :=
  (pm_usage (client d), pm_active (client d), rails (client d)).

(** The flags of a control of the handler, if it exists. *)
Definition ctrl_flags (i : cid) (d : imx258) : option Z :=
  option_map flags (find_ctrl i (ctrl_handler d)).

(** Rails that are switched off: no supply, no clock, reset asserted. *)
Definition rails_off (r : power_rails) : Prop :=
  supplies_on r = false /\ xclk_on r = false /\ reset_gpio r = 0.

(** The standby write of a stream stop. *)
Definition standby_msg : list Z := mode_select_msg IMX258_MODE_STANDBY.

(** The device with its runtime-PM state replaced. *)
Definition with_pm (u : nat) (a : bool) (d : imx258) : imx258 :=
  set_client (set_pm u a (client d)) d.

(** An operation that neither reads nor writes the runtime-PM state. *)
Definition pm_blind {A : Type} (m : M imx258 A) : Prop :=
  forall u a d,
    m (with_pm u a d) = (fst (m d), with_pm u a (snd (m d))).

(** The controls that [imx258_set_ctrl] has a case for. *)
Definition handled (i : cid) : bool :=
  match i with
  | V4L2_CID_PIXEL_RATE | V4L2_CID_LINK_FREQ | V4L2_CID_HBLANK
  | V4L2_CID_CAMERA_ORIENTATION | V4L2_CID_CAMERA_SENSOR_ROTATION => false
  | _ => true
  end.

(** Whether the [k]-th next transfer of the bus succeeds. *)
Definition nth_ok (c : i2c_client) (k : nat) : bool :=
  negb (fault c (List.length (xfers c) + k)%nat).


(** An operation that leaves the observation [f] of the device alone. *)
Definition preserves {A B : Type} (f : imx258 -> B) (m : M imx258 A) : Prop :=
  forall d, f (snd (m d)) = f d.

End Soho.

(** ** The second imx258 driver *)

Module Part000.

Definition IMX258_REG_VALUE_08BIT : Z := 1.
Definition IMX258_REG_VALUE_16BIT : Z := 2.

Definition IMX258_REG_MODE_SELECT : Z := 0x0100.
Definition IMX258_MODE_STANDBY : Z := 0x00.
Definition IMX258_MODE_STREAMING : Z := 0x01.

(** Exposure control *)
Definition IMX258_REG_EXPOSURE : Z := 0x0202.

(** Analog gain control *)
Definition IMX258_REG_ANALOG_GAIN : Z := 0x0204.

(** Digital gain control *)
Definition IMX258_REG_GR_DIGITAL_GAIN : Z := 0x020e.
Definition IMX258_REG_R_DIGITAL_GAIN : Z := 0x0210.
Definition IMX258_REG_B_DIGITAL_GAIN : Z := 0x0212.
Definition IMX258_REG_GB_DIGITAL_GAIN : Z := 0x0214.

(** Test Pattern Control *)
Definition IMX258_REG_TEST_PATTERN : Z := 0x0600.

(** Orientation *)
Definition REG_MIRROR_FLIP_CONTROL : Z := 0x0101.
Definition REG_CONFIG_MIRROR_HFLIP : Z := 0x01.
Definition REG_CONFIG_MIRROR_VFLIP : Z := 0x02.

Definition MEDIA_BUS_FMT_SRGGB10_1X10 : Z := 0x300f.
Definition MEDIA_BUS_FMT_SGRBG10_1X10 : Z := 0x300a.
Definition MEDIA_BUS_FMT_SGBRG10_1X10 : Z := 0x300e.
Definition MEDIA_BUS_FMT_SBGGR10_1X10 : Z := 0x3007.

(** The supported formats, 4 entries to cover the flip combinations in
    the order: no flip, h flip, v flip, h&v flips. *)
Definition codes : list Z :=
  [ MEDIA_BUS_FMT_SRGGB10_1X10;
    MEDIA_BUS_FMT_SGRBG10_1X10;
    MEDIA_BUS_FMT_SGBRG10_1X10;
    MEDIA_BUS_FMT_SBGGR10_1X10 ].

(** [struct imx258], the fields used by the operations embedded here. *)
Record imx258 : Type := mk_imx258 {
  client : i2c_client;
  ctrl_handler : list v4l2_ctrl;
  streaming : bool
}.

Definition set_client (c : i2c_client) (d : imx258) : imx258 :=
  mk_imx258 c (ctrl_handler d) (streaming d).

Definition hflip (d : imx258) : v4l2_ctrl :=
  ctrl_of V4L2_CID_HFLIP (ctrl_handler d).
Definition vflip (d : imx258) : v4l2_ctrl :=
  ctrl_of V4L2_CID_VFLIP (ctrl_handler d).

Definition on_client {A} (m : M i2c_client A) : M imx258 A :=
  fun d => let (a, c) := m (client d) in (a, set_client c d).

(** Write registers up to 2 at a time *)
Definition imx258_write_reg (reg len v : Z) : M imx258 Z :=
  if 4 <? len then ret (- EINVAL)
  else
    let buf := put_unaligned_be16 (u16 reg) ++
               put_unaligned_be32 (u32 (Z.shiftl (u32 v) (8 * (4 - len)))) in
    n <- on_client (i2c_master_send buf (len + 2)) ;;
    if negb (n =? len + 2) then ret (- EIO) else ret 0.

(** Get bayer order based on flip setting. *)
Definition imx258_get_format_code (d : imx258) : Z :=
  let i := Z.lor (if nonzero (val (vflip d)) then 2 else 0)
                 (if nonzero (val (hflip d)) then 1 else 0) in
  nth (Z.to_nat i) codes 0.

Definition imx258_update_digital_gain (len v : Z) : M imx258 Z :=
  r <- imx258_write_reg IMX258_REG_GR_DIGITAL_GAIN
                        IMX258_REG_VALUE_16BIT v ;;
  if nonzero r then ret r
  else
    r <- imx258_write_reg IMX258_REG_GB_DIGITAL_GAIN
                          IMX258_REG_VALUE_16BIT v ;;
    if nonzero r then ret r
    else
      r <- imx258_write_reg IMX258_REG_R_DIGITAL_GAIN
                            IMX258_REG_VALUE_16BIT v ;;
      if nonzero r then ret r
      else
        r <- imx258_write_reg IMX258_REG_B_DIGITAL_GAIN
                              IMX258_REG_VALUE_16BIT v ;;
        if nonzero r then ret r
        else ret 0.

Section Config.

(** The driver is built with or without [CONFIG_OF]. *)
Variable CONFIG_OF : bool.

Definition imx258_power_off : M imx258 Z :=
  on_client regulator_bulk_disable ;;;
  on_client clk_disable_unprepare ;;;
  ret 0.

(** Modelled from the spec: [pm_runtime_put] is not part of the sources.
    It drops a reference and, when it was the last one, powers the device
    off; [imx258_pm_ops] has the runtime callbacks under [CONFIG_OF]
    only. *)
Definition pm_runtime_put : M imx258 unit :=
  on_client pm_runtime_put_noidle ;;;
  u <- gets (fun d => pm_usage (client d)) ;;
  a <- gets (fun d => pm_active (client d)) ;;
  if Nat.eqb u 0 && a
  then
    (if CONFIG_OF then imx258_power_off else ret 0) ;;;
    on_client (modify (fun c => set_pm (pm_usage c) false c))
  else ret tt.

Definition imx258_set_ctrl (ctrl : v4l2_ctrl) : M imx258 Z :=
  (* Applying V4L2 control value only happens when power is up for
     streaming *)
  u <- on_client pm_runtime_get_if_in_use ;;
  if u =? 0 then ret 0
  else
    r <- match id ctrl with
         | V4L2_CID_ANALOGUE_GAIN =>
             imx258_write_reg IMX258_REG_ANALOG_GAIN
                              IMX258_REG_VALUE_16BIT (val ctrl)
         | V4L2_CID_EXPOSURE =>
             imx258_write_reg IMX258_REG_EXPOSURE
                              IMX258_REG_VALUE_16BIT (val ctrl)
         | V4L2_CID_DIGITAL_GAIN =>
             imx258_update_digital_gain IMX258_REG_VALUE_16BIT (val ctrl)
         | V4L2_CID_TEST_PATTERN =>
             imx258_write_reg IMX258_REG_TEST_PATTERN
                              IMX258_REG_VALUE_16BIT (val ctrl)
         | V4L2_CID_VFLIP
         | V4L2_CID_HFLIP =>
             h <- gets (fun d => val (hflip d)) ;;
             v <- gets (fun d => val (vflip d)) ;;
             imx258_write_reg REG_MIRROR_FLIP_CONTROL
                              IMX258_REG_VALUE_08BIT
                              (Z.lor
                                 (if nonzero h
                                  then REG_CONFIG_MIRROR_HFLIP else 0)
                                 (if nonzero v
                                  then REG_CONFIG_MIRROR_VFLIP else 0))
         | _ =>
             on_client (dev_err "ctrl is not handled") ;;;
             ret (- EINVAL)
         end ;;
    pm_runtime_put ;;;
    ret r.

(** Stop streaming *)
Definition imx258_stop_streaming : M imx258 Z :=
  (* set stream off register *)
  r <- imx258_write_reg IMX258_REG_MODE_SELECT IMX258_REG_VALUE_08BIT
                        IMX258_MODE_STANDBY ;;
  (if nonzero r
   then on_client (dev_err "failed to set stream")
   else ret tt) ;;;
  (if CONFIG_OF
   then on_client clk_disable_unprepare ;;;
        on_client regulator_bulk_disable
   else ret tt) ;;;
  (* Return success even if it was an error, as there is nothing the
     caller can do about it. *)
  ret 0.

End Config.

(** Chip ID *)
Definition IMX258_REG_CHIP_ID : Z := 0x0016.
Definition IMX258_CHIP_ID : Z := 0x0258.

(** Read registers up to 2 at a time.  [rx] is what the sensor answers;
    [val0] is the previous content of [*val], which a failed read leaves
    alone. *)
Definition imx258_read_reg (rx : list Z) (reg len val0 : Z)
  : M imx258 (Z * Z) :=
  let addr_buf := [u8 (Z.shiftr (u16 reg) 8); u8 (Z.land (u16 reg) 0xff)] in
  if 4 <? len then ret (- EINVAL, val0)
  else
    (* Write register address, then read data from register *)
    p <- on_client (i2c_transfer addr_buf len rx) ;;
    if negb (fst p =? 2) then ret (- EIO, val0)
    else
      let data_buf := repeat 0 (Z.to_nat (4 - len)) ++ snd p in
      ret (0, get_unaligned_be32 data_buf).

(** Verify chip ID.  [val0] is the uninitialised content of [val]; both
    early returns are commented out in the source. *)
Definition imx258_identify_module (rx : list Z) (val0 : Z) : M imx258 Z :=
  p <- imx258_read_reg rx IMX258_REG_CHIP_ID IMX258_REG_VALUE_16BIT val0 ;;
  (if nonzero (fst p)
   then on_client (dev_err "failed to read chip id")
   else ret tt) ;;;
  (if negb (snd p =? IMX258_CHIP_ID)
   then on_client (dev_err "chip id mismatch")
   else ret tt) ;;;
  ret 0.

(** The controls of [imx258_init_controls] for the first mode, in creation
    order. *)
Definition probe_controls : list v4l2_ctrl :=
  [ mk_ctrl V4L2_CID_LINK_FREQ 0 1 1 0 0 V4L2_CTRL_FLAG_READ_ONLY;
    mk_ctrl V4L2_CID_PIXEL_RATE 128000000 253440000 1 253440000 253440000
            V4L2_CTRL_FLAG_READ_ONLY;
    mk_ctrl V4L2_CID_VBLANK 106 62417 1 106 106 V4L2_CTRL_FLAG_READ_ONLY;
    mk_ctrl V4L2_CID_HBLANK 1144 1144 1 1144 1144 V4L2_CTRL_FLAG_READ_ONLY;
    mk_ctrl V4L2_CID_EXPOSURE 4 65535 1 0x640 0x640 0;
    mk_ctrl V4L2_CID_ANALOGUE_GAIN 0 0x1fff 1 0 0 0;
    mk_ctrl V4L2_CID_DIGITAL_GAIN 0 4096 1 1024 1024 0;
    mk_ctrl V4L2_CID_TEST_PATTERN 0 4 1 0 0 0;
    mk_ctrl V4L2_CID_HFLIP 0 1 1 0 0 V4L2_CTRL_FLAG_MODIFY_LAYOUT;
    mk_ctrl V4L2_CID_VFLIP 0 1 1 0 0 V4L2_CTRL_FLAG_MODIFY_LAYOUT ].

(** A device of this driver as the probe leaves it (idle), and one that is
    powered and streaming, on a bus with fault plan [f]. *)
Definition probe_state (f : nat -> bool) : imx258 :=
  mk_imx258 (mk_client f [] [] 0 false (mk_rails false false 0 0 0))
            probe_controls false.

Definition powered_state (f : nat -> bool) : imx258 :=
  mk_imx258 (mk_client f [] [] 1 true (mk_rails true true 0 0 0))
            probe_controls true.

Definition set_ctrl_handler (h : list v4l2_ctrl) (d : imx258) : imx258 :=
  mk_imx258 (client d) h (streaming d).

(** Setting a control through the control framework. *)
Definition set_control (CONFIG_OF : bool) (i : cid) (v : Z) : M imx258 Z :=
  v4l2_ctrl_s_ctrl ctrl_handler set_ctrl_handler (imx258_set_ctrl CONFIG_OF)
                   i v.

End Part000.

(** * Properties *)

Arguments Kernel.reg_msg : simpl never.

Module KernelFacts.

Lemma cid_eqb_eq (a b : cid) : cid_eqb a b = true <-> a = b.
Proof. destruct a, b; simpl; split; intros H; try reflexivity; discriminate. Qed.

Lemma cid_eqb_refl (a : cid) : cid_eqb a a = true.
Proof. apply cid_eqb_eq. reflexivity. Qed.

Lemma cid_eqb_neq (a b : cid) : a <> b -> cid_eqb a b = false.
Proof.
  intros H. destruct (cid_eqb a b) eqn:E; [|reflexivity].
  apply cid_eqb_eq in E. contradiction.
Qed.

Lemma find_ctrl_id (i : cid) (hdl : list v4l2_ctrl) (c : v4l2_ctrl) :
  find_ctrl i hdl = Some c -> id c = i.
Proof.
  unfold find_ctrl. intros H. apply find_some in H.
  apply cid_eqb_eq. apply H.
Qed.

(** Updating the control [i] in place changes that entry only. *)
Lemma find_update_same (i : cid) (f : v4l2_ctrl -> v4l2_ctrl)
  (hdl : list v4l2_ctrl) :
  (forall c, id (f c) = id c) ->
  find_ctrl i (update_ctrl i f hdl) = option_map f (find_ctrl i hdl).
Proof.
  intros Hf. unfold find_ctrl, update_ctrl.
  induction hdl as [|c hdl IH]; simpl; [reflexivity|].
  destruct (cid_eqb (id c) i) eqn:E.
  - rewrite Hf, E. reflexivity.
  - rewrite E. exact IH.
Qed.

Lemma find_update_other (i j : cid) (f : v4l2_ctrl -> v4l2_ctrl)
  (hdl : list v4l2_ctrl) :
  (forall c, id (f c) = id c) -> i <> j ->
  find_ctrl j (update_ctrl i f hdl) = find_ctrl j hdl.
Proof.
  intros Hf Hij. unfold find_ctrl, update_ctrl.
  induction hdl as [|c hdl IH]; simpl; [reflexivity|].
  destruct (cid_eqb (id c) i) eqn:E.
  - apply cid_eqb_eq in E. rewrite Hf.
    rewrite (cid_eqb_neq (id c) j) by congruence. exact IH.
  - destruct (cid_eqb (id c) j); [reflexivity|exact IH].
Qed.

Lemma update_ctrl_ids (i : cid) (f : v4l2_ctrl -> v4l2_ctrl)
  (hdl : list v4l2_ctrl) :
  (forall c, id (f c) = id c) ->
  map id (update_ctrl i f hdl) = map id hdl.
Proof.
  intros Hf. unfold update_ctrl. rewrite map_map.
  apply map_ext. intros c. destruct (cid_eqb (id c) i); [apply Hf|reflexivity].
Qed.

Lemma modify_range_id (a b c e : Z) (x : v4l2_ctrl) :
  id (__v4l2_ctrl_modify_range a b c e x) = id x.
Proof. reflexivity. Qed.

Lemma grab_id (g : bool) (x : v4l2_ctrl) : id (__v4l2_ctrl_grab g x) = id x.
Proof. reflexivity. Qed.

(** Two's-complement reading of a sum computed modulo [2^32]. *)
Lemma s32_of_wrapped (a b c : Z) :
  - 2 ^ 31 <= a + b - c < 2 ^ 31 ->
  s32 (u32 (u32 (a + u32 b) - u32 c)) = a + b - c.
Proof.
  intros H. unfold s32, u32.
  rewrite Z.mod_mod by lia.
  assert (E : ((a + b mod 2 ^ 32) mod 2 ^ 32 - c mod 2 ^ 32) mod 2 ^ 32
              = (a + b - c) mod 2 ^ 32).
  { rewrite <- (Zminus_mod (a + b mod 2 ^ 32) c).
    replace (a + b mod 2 ^ 32 - c) with ((a - c) + b mod 2 ^ 32) by lia.
    rewrite Zplus_mod_idemp_r. f_equal. lia. }
  rewrite E. clear E.
  destruct (Z_lt_ge_dec (a + b - c) 0) as [Hneg|Hpos].
  - assert (E : (a + b - c) mod 2 ^ 32 = a + b - c + 2 ^ 32).
    { symmetry. apply (Z.mod_unique _ _ (-1)); lia. }
    rewrite E. destruct (_ <? _) eqn:L; [apply Z.ltb_lt in L; lia|lia].
  - rewrite Z.mod_small by lia.
    destruct (_ <? _) eqn:L; [reflexivity|apply Z.ltb_ge in L; lia].
Qed.

End KernelFacts.

Module SohoFacts.
Import Soho KernelFacts.

(** *** The halving loop of [imx258_set_frame_length] *)



(** *** Register writes *)

Lemma imx258_write_reg_eq (reg len v : Z) (d : imx258) :
  0 <= len <= 4 ->
  imx258_write_reg reg len v d =
  ((if next_ok (client d) then 0 else - EIO),
   set_client (push_xfer (reg_msg reg len v) (client d)) d).
Proof.
  intros Hlen. unfold imx258_write_reg.
  destruct (4 <? len) eqn:E; [apply Z.ltb_lt in E; lia|].
  unfold bind, on_client, i2c_master_send, push_xfer, next_ok, reg_msg, ret.
  destruct (fault (client d) (List.length (xfers (client d)))); cbv beta iota.
  - destruct (- EIO =? len + 2) eqn:E2; [unfold EIO in E2; lia|]. reflexivity.
  - rewrite Z.eqb_refl. reflexivity.
Qed.











(** *** Frame length from a frame interval *)

Lemma u64_small (z : Z) : 0 <= z < 2 ^ 64 -> u64 z = z.
Proof. intros H. unfold u64. apply Z.mod_small. exact H. Qed.

Lemma u32_small (z : Z) : 0 <= z < 2 ^ 32 -> u32 z = z.
Proof. intros H. unfold u32. apply Z.mod_small. exact H. Qed.

(** The function computes the clamped quotient whenever the divisor is
    not zero. *)
Lemma imx258_get_frame_length_eq (m : imx258_mode) (tpf : v4l2_fract) :
  0 <= numerator tpf < 2 ^ 32 ->
  0 < denominator tpf < 2 ^ 32 ->
  0 < line_length_pix m < 2 ^ 32 ->
  imx258_get_frame_length m tpf =
  Some (Z.max (Z.min (numerator tpf * IMX258_PIXEL_RATE /
                      (denominator tpf * line_length_pix m))
                     IMX258_FRAME_LENGTH_MAX)
              (u32 (height m))).
Proof.
  intros Hn Hd Hl. unfold imx258_get_frame_length, do_div.
  rewrite (u64_small (numerator tpf)) by lia.
  rewrite (u64_small (denominator tpf)) by lia.
  assert (Hrate : IMX258_PIXEL_RATE = 259200000) by reflexivity.
  rewrite (u64_small (numerator tpf * _)) by (rewrite Hrate; lia).
  rewrite (u64_small (denominator tpf * _)) by nia.
  destruct (_ =? 0) eqn:E; [apply Z.eqb_eq in E; nia|].
  set (q := numerator tpf * IMX258_PIXEL_RATE / _).
  assert (Hq : 0 <= q) by (apply Z.div_pos; [rewrite Hrate|]; nia).
  unfold IMX258_FRAME_LENGTH_MAX.
  destruct (0xffdc <? q) eqn:E2.
  - apply Z.ltb_lt in E2. rewrite Z.min_r by lia. reflexivity.
  - apply Z.ltb_ge in E2. rewrite Z.min_l by lia.
    rewrite (u32_small q) by lia. reflexivity.
Qed.

Lemma supported_mode_bounds (m : imx258_mode) :
  In m supported_modes_10bit ->
  line_length_pix m = 5352 /\ 1080 <= height m <= 3120.
Proof.
  intros H. simpl in H.
  destruct H as [<-|[<-|[<-|[]]]]; simpl; lia.
Qed.

(** C5: for every supported mode and every frame interval (a 32-bit
    numerator over a non-zero 32-bit denominator), the computed frame
    length is [numerator * pixelRate / (denominator * lineLengthPixels)]
    clamped to [[height, FRAME_LENGTH_MAX]]: a larger quotient saturates
    at [FRAME_LENGTH_MAX], a smaller one is raised to the mode's height. *)
Theorem get_frame_length_clamped (m : imx258_mode) (tpf : v4l2_fract) :
  In m supported_modes_10bit ->
  0 <= numerator tpf < 2 ^ 32 ->
  0 < denominator tpf < 2 ^ 32 ->
  let q := numerator tpf * IMX258_PIXEL_RATE /
           (denominator tpf * line_length_pix m) in
  exists fl,
    imx258_get_frame_length m tpf = Some fl /\
    height m <= fl <= IMX258_FRAME_LENGTH_MAX /\
    (IMX258_FRAME_LENGTH_MAX < q -> fl = IMX258_FRAME_LENGTH_MAX) /\
    (q < height m -> fl = height m) /\
    (height m <= q <= IMX258_FRAME_LENGTH_MAX -> fl = q).
Proof.
  intros Hm Hn Hd q.
  destruct (supported_mode_bounds m Hm) as [Hl Hh].
  rewrite imx258_get_frame_length_eq by lia. fold q.
  rewrite (u32_small (height m)) by lia.
  eexists. split; [reflexivity|].
  unfold IMX258_FRAME_LENGTH_MAX. lia.
Qed.

Lemma get_frame_length_clamped_witness :
  let m := mode (probe_state no_fault) in
  let tpf := mk_fract 100 1000 in
  let q := numerator tpf * IMX258_PIXEL_RATE /
           (denominator tpf * line_length_pix m) in
  exists fl,
    imx258_get_frame_length m tpf = Some fl /\
    height m <= fl <= IMX258_FRAME_LENGTH_MAX /\
    (IMX258_FRAME_LENGTH_MAX < q -> fl = IMX258_FRAME_LENGTH_MAX) /\
    (q < height m -> fl = height m) /\
    (height m <= q <= IMX258_FRAME_LENGTH_MAX -> fl = q).
Proof.
  apply (get_frame_length_clamped (mode (probe_state no_fault))
                                  (mk_fract 100 1000)).
  - simpl. auto.
  - simpl. lia.
  - simpl. lia.
Defined.

(** C9: for every mode, the computed frame length is monotonic
    non-decreasing in the numerator of the requested frame interval: with
    the same denominator, a larger numerator gives an equal or longer
    frame length. *)
Theorem get_frame_length_monotone (m : imx258_mode) (n1 n2 den : Z) :
  0 < line_length_pix m < 2 ^ 32 ->
  0 < den < 2 ^ 32 ->
  0 <= n1 -> n1 <= n2 -> n2 < 2 ^ 32 ->
  exists f1 f2,
    imx258_get_frame_length m (mk_fract n1 den) = Some f1 /\
    imx258_get_frame_length m (mk_fract n2 den) = Some f2 /\
    f1 <= f2.
Proof.
  intros Hl Hd H1 H12 H2.
  rewrite !imx258_get_frame_length_eq by (simpl; lia). simpl.
  do 2 eexists. split; [reflexivity|]. split; [reflexivity|].
  assert (Hrate : IMX258_PIXEL_RATE = 259200000) by reflexivity.
  assert (n1 * IMX258_PIXEL_RATE / (den * line_length_pix m) <=
          n2 * IMX258_PIXEL_RATE / (den * line_length_pix m)).
  { apply Z.div_le_mono; [nia|]. rewrite Hrate. lia. }
  lia.
Qed.

Lemma get_frame_length_monotone_witness :
  exists f1 f2,
    imx258_get_frame_length (mode (probe_state no_fault))
                            (mk_fract 100 1000) = Some f1 /\
    imx258_get_frame_length (mode (probe_state no_fault))
                            (mk_fract 200 1000) = Some f2 /\
    f1 <= f2.
Proof.
  apply (get_frame_length_monotone (mode (probe_state no_fault))
                                   100 200 1000);
    simpl; lia.
Defined.

(** *** Bayer order and flips *)

(** The loop of [imx258_get_format_code] finds the first occurrence of the
    code, and runs to the end of the table when there is none. *)
Lemma code_index_first (tbl : list Z) (code i : Z) :
  code_index tbl code i =
  match index_of code tbl with
  | Some k => i + Z.of_nat k
  | None => i + Z.of_nat (List.length tbl)
  end.
Proof.
  revert i. induction tbl as [|c tbl IH]; intros i; simpl.
  - lia.
  - destruct (c =? code); [lia|].
    rewrite IH. destruct (index_of code tbl); simpl; lia.
Qed.

Lemma index_of_bound (tbl : list Z) (code : Z) (k : nat) :
  index_of code tbl = Some k -> (k < List.length tbl)%nat.
Proof.
  revert k. induction tbl as [|c tbl IH]; intros k; simpl; [discriminate|].
  destruct (c =? code).
  - intros [= <-]. lia.
  - destruct (index_of code tbl) as [k'|]; simpl; [|discriminate].
    intros [= <-]. specialize (IH k' eq_refl). lia.
Qed.

(** C6: for every requested code and flip pair, the remap returns the
    entry of the code table at index
    [(baseIndex & ~3) | (vflip ? 2 : 0) | (hflip ? 1 : 0)], where
    [baseIndex] is the position of the requested code in the table and 0
    for a code that is not in it; the result is a member of the table.
    With the single block of four codes this is the entry at
    [(vflip ? 2 : 0) | (hflip ? 1 : 0)], which is also what the second
    driver returns for the same flips. *)
Theorem get_format_code_remap (d : imx258) (code : Z) :
  let base := match index_of code codes with
              | Some k => Z.of_nat k
              | None => 0
              end in
  let flips := Z.lor (if nonzero (val (vflip d)) then 2 else 0)
                     (if nonzero (val (hflip d)) then 1 else 0) in
  imx258_get_format_code d code =
    nth (Z.to_nat (Z.lor (Z.land base (Z.lnot 3)) flips)) codes 0 /\
  imx258_get_format_code d code = nth (Z.to_nat flips) codes 0 /\
  In (imx258_get_format_code d code) codes /\
  (forall d2 : Part000.imx258,
     nonzero (val (Part000.vflip d2)) = nonzero (val (vflip d)) ->
     nonzero (val (Part000.hflip d2)) = nonzero (val (hflip d)) ->
     Part000.imx258_get_format_code d2 = imx258_get_format_code d code).
Proof.
  intros base flips.
  assert (Hcode : imx258_get_format_code d code =
                  nth (Z.to_nat (Z.lor (Z.land base (Z.lnot 3)) flips))
                      codes 0).
  { unfold imx258_get_format_code. rewrite code_index_first.
    subst base flips.
    destruct (index_of code codes) as [k|] eqn:E.
    - apply index_of_bound in E. change (List.length codes) with 4%nat in *.
      assert (Hk : (k = 0 \/ k = 1 \/ k = 2 \/ k = 3)%nat) by lia.
      destruct Hk as [-> | [-> | [-> | ->]]];
        destruct (nonzero (val (vflip d))), (nonzero (val (hflip d)));
        reflexivity.
    - destruct (nonzero (val (vflip d))), (nonzero (val (hflip d)));
        reflexivity. }
  assert (Hblock : Z.land base (Z.lnot 3) = 0).
  { subst base. destruct (index_of code codes) as [k|] eqn:E; [|reflexivity].
    apply index_of_bound in E. change (List.length codes) with 4%nat in *.
    assert (Hk : (k = 0 \/ k = 1 \/ k = 2 \/ k = 3)%nat) by lia.
    destruct Hk as [-> | [-> | [-> | ->]]]; reflexivity. }
  assert (Hflips : imx258_get_format_code d code = nth (Z.to_nat flips) codes 0).
  { rewrite Hcode, Hblock. reflexivity. }
  split; [exact Hcode|]. split; [exact Hflips|]. split.
  - rewrite Hflips. subst flips.
    destruct (nonzero (val (vflip d))), (nonzero (val (hflip d)));
      simpl; auto.
  - intros d2 Hv Hh. rewrite Hflips. subst flips.
    unfold Part000.imx258_get_format_code. rewrite Hv, Hh. reflexivity.
Qed.

End SohoFacts.

Module SohoStream.
Import Soho KernelFacts SohoFacts.

(** *** Composition of bus-only operations *)








(** *** Messages *)


Lemma reg_msg_16 (reg v : Z) :
  reg_msg reg 2 v =
  [u8 (Z.shiftr (u16 reg) 8); u8 (u16 reg);
   u8 (Z.shiftr (u32 (Z.shiftl (u32 v) 16)) 24);
   u8 (Z.shiftr (u32 (Z.shiftl (u32 v) 16)) 16)].
Proof. reflexivity. Qed.



(** *** What the operations do on the bus *)















(** *** Register tables *)

Lemma write_regs_loop_cons (x : imx258_reg) (regs : list imx258_reg)
  (d : imx258) :
  write_regs_loop (x :: regs) d =
  let d1 := set_client (push_xfer (reg_msg (address x) 1 (regval x))
                                  (client d)) d in
  if next_ok (client d) then write_regs_loop regs d1
  else (- EIO, snd (on_client (dev_err "Failed to write reg") d1)).
Proof.
  cbn [write_regs_loop]. unfold bind at 1.
  rewrite imx258_write_reg_eq by lia.
  destruct (next_ok (client d)); reflexivity.
Qed.



(** *** Stream start *)

Lemma nonzero_false (z : Z) : nonzero z = false <-> z = 0.
Proof.
  unfold nonzero. destruct (z =? 0) eqn:E; simpl.
  - apply Z.eqb_eq in E. tauto.
  - apply Z.eqb_neq in E. split; [discriminate|contradiction].
Qed.

Lemma nonzero_true (z : Z) : nonzero z = true <-> z <> 0.
Proof.
  unfold nonzero. destruct (z =? 0) eqn:E; simpl.
  - apply Z.eqb_eq in E. split; [discriminate|contradiction].
  - apply Z.eqb_neq in E. tauto.
Qed.


Lemma xfers_since_app (c c' : i2c_client) (new : list i2c_xfer) :
  xfers c' = xfers c ++ new ->
  xfers_since (List.length (xfers c)) c' = new.
Proof.
  intros H. unfold xfers_since. rewrite H. clear H.
  induction (xfers c) as [|x l IH]; [reflexivity|exact IH].
Qed.


(** *** Composition of operations that keep an observation *)

Lemma preserves_ret {A B} (f : imx258 -> B) (a : A) : preserves f (ret a).
Proof. intros d. reflexivity. Qed.

Lemma preserves_gets {A B} (f : imx258 -> B) (g : imx258 -> A) :
  preserves f (gets g).
Proof. intros d. reflexivity. Qed.

Lemma preserves_modify {B} (f : imx258 -> B) (g : imx258 -> imx258) :
  (forall d, f (g d) = f d) -> preserves f (modify g).
Proof. intros H d. apply H. Qed.

Lemma preserves_on_client {A B} (f : imx258 -> B) (m : M i2c_client A) :
  (forall c d, f (set_client c d) = f d) -> preserves f (on_client m).
Proof.
  intros H d. unfold on_client. destruct (m (client d)) as [a c]. apply H.
Qed.

Lemma preserves_bind {A B C} (f : imx258 -> C) (m : M imx258 A)
  (k : A -> M imx258 B) :
  preserves f m -> (forall a, preserves f (k a)) -> preserves f (bind m k).
Proof.
  intros Hm Hk d. unfold bind. specialize (Hm d).
  destruct (m d) as [a d1]. cbn [snd] in Hm. rewrite Hk. exact Hm.
Qed.

Lemma preserves_if {A B} (f : imx258 -> B) (b : bool) (m1 m2 : M imx258 A) :
  preserves f m1 -> preserves f m2 -> preserves f (if b then m1 else m2).
Proof. destruct b; auto. Qed.

Lemma preserves_write_reg {B} (f : imx258 -> B) (reg len v : Z) :
  (forall c d, f (set_client c d) = f d) ->
  preserves f (imx258_write_reg reg len v).
Proof.
  intros H. unfold imx258_write_reg.
  destruct (4 <? len); [apply preserves_ret|].
  apply preserves_bind; [apply preserves_on_client; exact H|].
  intros n. destruct (negb _); apply preserves_ret.
Qed.

Ltac keep :=
  lazymatch goal with
  | |- preserves _ (ret _) => apply preserves_ret
  | |- preserves _ (gets _) => apply preserves_gets
  | |- preserves _ (on_client _) =>
      apply preserves_on_client; intros ? ?; reflexivity
  | |- preserves _ (modify _) =>
      apply preserves_modify; intros ?; reflexivity
  | |- preserves _ (imx258_write_reg _ _ _) =>
      apply preserves_write_reg; intros ? ?; reflexivity
  | |- preserves _ (if _ then _ else _) => apply preserves_if
  | |- preserves _ (bind _ _) => apply preserves_bind; [ | intros ? ]
  end.





(** [imx258_set_stream] for a start from standby, in state-passing form. *)
Lemma imx258_set_stream_start_eq (d : imx258) (enable : Z) :
  streaming d = false -> enable <> 0 ->
  imx258_set_stream enable d =
  let p0 := pm_runtime_get_sync d in
  if fst p0 <? 0
  then (fst p0, snd (on_client pm_runtime_put_noidle (snd p0)))
  else
    let p := imx258_start_streaming (snd p0) in
    if nonzero (fst p) then (fst p, snd (pm_runtime_put (snd p)))
    else set_stream_commit enable (fst p) (snd p).
Proof.
  intros Hs He. unfold imx258_set_stream, bind at 1, gets. rewrite Hs.
  cbn [Z.b2z]. destruct (0 =? enable) eqn:E; [apply Z.eqb_eq in E; lia|].
  apply nonzero_true in He. rewrite He. unfold bind.
  destruct (pm_runtime_get_sync d) as [rp d0]. cbn [fst snd].
  destruct (rp <? 0).
  - destruct (on_client pm_runtime_put_noidle d0). reflexivity.
  - destruct (imx258_start_streaming d0) as [r d1]. cbn [fst snd].
    destruct (nonzero r); [|reflexivity].
    destruct (pm_runtime_put d1). reflexivity.
Qed.

Lemma set_stream_commit_run (enable r : Z) (d : imx258) :
  fst (set_stream_commit enable r d) = r /\
  streaming (snd (set_stream_commit enable r d)) = nonzero enable /\
  client (snd (set_stream_commit enable r d)) = client d.
Proof. repeat split. Qed.



(** The scenario of the specification: a failure injected in the bulk
    control commit (transfer 125 is its eighth) makes the start fail with
    [-EIO], leaves the device not streaming, and no write to the
    mode-select register is attempted; without a fault the last of the 134
    transfers is the mode-select write. *)
Example stream_start_commit_failure :
  let p := imx258_set_stream 1 (probe_state (fault_at 125)) in
  fst p = - EIO /\ streaming (snd p) = false /\
  List.length (xfers (client (snd p))) = 126%nat /\
  existsb (fun m => if list_eq_dec Z.eq_dec m
                         (mode_select_msg IMX258_MODE_STREAMING)
                    then true else false)
          (attempted (client (snd p))) = false.
Proof. vm_compute. repeat split. Qed.

Example stream_start_success :
  let p := imx258_set_stream 1 (probe_state no_fault) in
  fst p = 0 /\ streaming (snd p) = true /\
  List.length (xfers (client (snd p))) = 134%nat /\
  last (xfers (client (snd p))) (failx []) =
  okx (mode_select_msg IMX258_MODE_STREAMING).
Proof. vm_compute. repeat split. Qed.

(** *** Stream stop *)

Lemma imx258_stop_streaming_eq (d : imx258) :
  imx258_stop_streaming d =
  let c := push_xfer (mode_select_msg IMX258_MODE_STANDBY) (client d) in
  (tt, set_client
         (if next_ok (client d) then c
          else set_klog (klog c ++ ["failed to set stream"%string]) c) d).
Proof.
  unfold imx258_stop_streaming, bind.
  rewrite imx258_write_reg_eq by (unfold IMX258_REG_VALUE_08BIT; lia).
  destruct (next_ok (client d)); reflexivity.
Qed.

(** Dropping a runtime-PM reference neither talks on the bus nor logs. *)
Lemma pm_runtime_put_quiet (d : imx258) :
  xfers (client (snd (pm_runtime_put d))) = xfers (client d) /\
  klog (client (snd (pm_runtime_put d))) = klog (client d) /\
  streaming (snd (pm_runtime_put d)) = streaming d.
Proof.
  unfold pm_runtime_put, pm_runtime_put_noidle, imx258_power_off, bind,
    on_client, modify, gets, ret.
  cbn [fst snd client set_client].
  destruct (Nat.eqb _ 0 && _); repeat split.
Qed.

End SohoStream.

Module Part000Facts.
Import Part000 KernelFacts.

Lemma part000_write_reg_eq (reg len v : Z) (d : imx258) :
  0 <= len <= 4 ->
  imx258_write_reg reg len v d =
  ((if next_ok (client d) then 0 else - EIO),
   set_client (push_xfer (reg_msg reg len v) (client d)) d).
Proof.
  intros Hlen. unfold imx258_write_reg.
  destruct (4 <? len) eqn:E; [apply Z.ltb_lt in E; lia|].
  unfold bind, on_client, i2c_master_send, push_xfer, next_ok, reg_msg, ret.
  destruct (fault (client d) (List.length (xfers (client d)))); cbv beta iota.
  - destruct (- EIO =? len + 2) eqn:E2; [unfold EIO in E2; lia|]. reflexivity.
  - rewrite Z.eqb_refl. reflexivity.
Qed.

(** Stopping the stream answers 0 whatever the bus did; a failed
    mode-select write only leaves a line in the log. *)
Lemma imx258_stop_streaming_run (CONFIG_OF : bool) (d : imx258) :
  let p := imx258_stop_streaming CONFIG_OF d in
  fst p = 0 /\
  xfers (client (snd p)) =
    xfers (client d) ++
    [mk_xfer (reg_msg IMX258_REG_MODE_SELECT IMX258_REG_VALUE_08BIT
                      IMX258_MODE_STANDBY) (next_ok (client d))] /\
  klog (client (snd p)) =
    klog (client d) ++
    (if next_ok (client d) then [] else ["failed to set stream"%string]).
Proof.
  unfold imx258_stop_streaming, bind.
  rewrite part000_write_reg_eq by (unfold IMX258_REG_VALUE_08BIT; lia).
  destruct (next_ok (client d)) eqn:Hok, CONFIG_OF;
    unfold bind, on_client, dev_err, modify, ret, clk_disable_unprepare,
      regulator_bulk_disable, push_xfer;
    cbn [fst snd client set_client xfers klog set_xfers set_klog set_rails];
    rewrite ?Hok, ?app_nil_r; repeat split.
Qed.

End Part000Facts.

Module StreamStop.
Import Soho KernelFacts SohoFacts SohoStream.

(** [imx258_set_stream] with [enable = 0], in state-passing form. *)
Lemma imx258_set_stream_stop_eq (d : imx258) :
  imx258_set_stream 0 d =
  if streaming d
  then set_stream_commit 0 0
         (snd (pm_runtime_put (snd (imx258_stop_streaming d))))
  else (0, d).
Proof.
  unfold imx258_set_stream, bind, gets.
  destruct (streaming d); cbn [Z.b2z].
  - change (1 =? 0) with false. change (nonzero 0) with false.
    cbv beta iota.
    destruct (imx258_stop_streaming d) as [[] d1]. cbn [snd].
    destruct (pm_runtime_put d1) as [[] d3]. reflexivity.
  - reflexivity.
Qed.

(** C7: stopping the stream always completes without an error for the
    caller and leaves the device not streaming.  When the write of the
    standby value to the mode-select register fails, the failure is logged
    and nothing else happens: [imx258_set_stream] still answers 0 and
    clears the streaming flag, and [imx258_stop_streaming] of the second
    driver answers 0 as well. *)
Theorem stream_stop_swallows_error (d : imx258) (CONFIG_OF : bool)
  (d2 : Part000.imx258) :
  let p := imx258_set_stream 0 d in
  let q := Part000.imx258_stop_streaming CONFIG_OF d2 in
  let standby := mode_select_msg IMX258_MODE_STANDBY in
  fst p = 0 /\
  streaming (snd p) = false /\
  xfers_since (List.length (xfers (client d))) (client (snd p)) =
    (if streaming d then [mk_xfer standby (next_ok (client d))] else []) /\
  klog (client (snd p)) =
    klog (client d) ++
    (if streaming d && negb (next_ok (client d))
     then ["failed to set stream"%string] else []) /\
  fst q = 0 /\
  xfers_since (List.length (xfers (Part000.client d2)))
              (Part000.client (snd q)) =
    [mk_xfer standby (next_ok (Part000.client d2))] /\
  klog (Part000.client (snd q)) =
    klog (Part000.client d2) ++
    (if next_ok (Part000.client d2)
     then [] else ["failed to set stream"%string]).
Proof.
  intros p q standby.
  assert (Hp : fst p = 0 /\
               streaming (snd p) = false /\
               xfers (client (snd p)) =
                 xfers (client d) ++
                 (if streaming d
                  then [mk_xfer standby (next_ok (client d))] else []) /\
               klog (client (snd p)) =
                 klog (client d) ++
                 (if streaming d && negb (next_ok (client d))
                  then ["failed to set stream"%string] else [])).
  { subst p. rewrite imx258_set_stream_stop_eq.
    destruct (streaming d) eqn:Hs.
    - rewrite imx258_stop_streaming_eq. cbn zeta. cbn [snd].
      set (d1 := set_client _ d).
      destruct (pm_runtime_put_quiet d1) as (X & K & S).
      destruct (set_stream_commit_run 0 0 (snd (pm_runtime_put d1)))
        as (R5 & S5 & C5).
      rewrite R5, S5, C5, X, K. unfold d1, push_xfer.
      destruct (next_ok (client d));
        cbn [client set_client xfers klog set_xfers set_klog andb negb];
        rewrite ?app_nil_r; auto.
    - cbn [fst snd andb]. rewrite !app_nil_r. auto. }
  destruct Hp as (P1 & P2 & P3 & P4).
  destruct (Part000Facts.imx258_stop_streaming_run CONFIG_OF d2)
    as (Q1 & Q2 & Q3).
  fold q in Q1, Q2, Q3.
  repeat split; try assumption.
  - apply xfers_since_app. exact P3.
  - apply xfers_since_app. exact Q2.
Qed.

End StreamStop.

Module DigitalGain.
Import KernelFacts.

(** A 16-bit value goes on the wire verbatim, high byte first, after the
    register address. *)
Lemma reg_msg_16_verbatim (reg v : Z) :
  0 <= reg < 2 ^ 16 -> 0 <= v < 2 ^ 16 ->
  reg_msg reg 2 v = [reg / 256; reg mod 256; v / 256; v mod 256].
Proof.
  intros Hr Hv. rewrite SohoStream.reg_msg_16.
  unfold u8, u16, u32.
  rewrite (Z.mod_small reg) by lia. rewrite (Z.mod_small v) by lia.
  rewrite Z.shiftl_mul_pow2 by lia.
  rewrite (Z.mod_small (v * 2 ^ 16)) by lia.
  rewrite !Z.shiftr_div_pow2 by lia.
  change (2 ^ 8) with 256. change (2 ^ 16) with 65536.
  change (2 ^ 24) with (65536 * 256).
  rewrite <- Z.div_div by lia. rewrite Z.div_mul by lia.
  assert (0 <= reg / 256 < 256).
  { split; [apply Z.div_pos; lia|apply Z.div_lt_upper_bound; lia]. }
  assert (0 <= v / 256 < 256).
  { split; [apply Z.div_pos; lia|apply Z.div_lt_upper_bound; lia]. }
  rewrite (Z.mod_small (reg / 256)) by lia.
  rewrite (Z.mod_small (v / 256)) by lia.
  reflexivity.
Qed.

(** The second driver stops at the first channel write that fails and
    returns its error; the channels written before keep the new value. *)
Lemma update_digital_gain_run (len v : Z) (d : Part000.imx258) :
  let msgs := [reg_msg Part000.IMX258_REG_GR_DIGITAL_GAIN 2 v;
               reg_msg Part000.IMX258_REG_GB_DIGITAL_GAIN 2 v;
               reg_msg Part000.IMX258_REG_R_DIGITAL_GAIN 2 v;
               reg_msg Part000.IMX258_REG_B_DIGITAL_GAIN 2 v] in
  let p := Part000.imx258_update_digital_gain len v d in
  (fst p = 0 /\
   xfers (Part000.client (snd p)) =
     xfers (Part000.client d) ++ map Soho.okx msgs) \/
  (exists k, (k < 4)%nat /\ fst p = - EIO /\
     xfers (Part000.client (snd p)) =
       xfers (Part000.client d) ++ map Soho.okx (firstn k msgs) ++
       [Soho.failx (nth k msgs [])]).
Proof.
  cbn zeta. unfold Part000.imx258_update_digital_gain, bind,
    Part000.IMX258_REG_VALUE_16BIT.
  rewrite Part000Facts.part000_write_reg_eq by lia.
  destruct (next_ok (Part000.client d)) eqn:H1.
  2:{ right. exists 0%nat. split; [lia|]. split; [reflexivity|].
      unfold push_xfer. rewrite H1. reflexivity. }
  cbv beta iota. change (nonzero 0) with false. cbv beta iota.
  rewrite Part000Facts.part000_write_reg_eq by lia.
  set (d1 := Part000.set_client _ d).
  destruct (next_ok (Part000.client d1)) eqn:H2.
  2:{ right. exists 1%nat. split; [lia|]. split; [reflexivity|].
      unfold push_xfer. rewrite H2. unfold d1, push_xfer. rewrite H1.
      cbn [Part000.client Part000.set_client xfers set_xfers firstn map
           nth snd app].
      rewrite <- app_assoc. reflexivity. }
  cbv beta iota. change (nonzero 0) with false. cbv beta iota.
  rewrite Part000Facts.part000_write_reg_eq by lia.
  set (d2 := Part000.set_client _ d1).
  destruct (next_ok (Part000.client d2)) eqn:H3.
  2:{ right. exists 2%nat. split; [lia|]. split; [reflexivity|].
      unfold push_xfer. rewrite H3. unfold d2, push_xfer. rewrite H2.
      unfold d1, push_xfer. rewrite H1.
      cbn [Part000.client Part000.set_client xfers set_xfers firstn map
           nth snd app].
      rewrite <- !app_assoc. reflexivity. }
  cbv beta iota. change (nonzero 0) with false. cbv beta iota.
  rewrite Part000Facts.part000_write_reg_eq by lia.
  set (d3 := Part000.set_client _ d2).
  destruct (next_ok (Part000.client d3)) eqn:H4.
  2:{ right. exists 3%nat. split; [lia|]. split; [reflexivity|].
      unfold push_xfer. rewrite H4. unfold d3, push_xfer. rewrite H3.
      unfold d2, push_xfer. rewrite H2. unfold d1, push_xfer. rewrite H1.
      cbn [Part000.client Part000.set_client xfers set_xfers firstn map
           nth snd app].
      rewrite <- !app_assoc. reflexivity. }
  cbv beta iota. change (nonzero 0) with false. cbv beta iota.
  left. split; [reflexivity|].
  unfold push_xfer. rewrite H4. unfold d3, push_xfer. rewrite H3.
  unfold d2, push_xfer. rewrite H2. unfold d1, push_xfer. rewrite H1.
  cbn [Part000.client Part000.set_client xfers set_xfers firstn map
       nth snd app fst].
  rewrite <- !app_assoc. reflexivity.
Qed.

(** C3 (defect of the imx258-soho driver): the digital gain is set to 2048
    on a streaming device whose bus fails the third channel write (B) only.
    The first two channels are written and stay written, but the control
    set answers 0: each write overwrites [ret], so only the status of the
    GB write survives and the failure is not reported.  The second driver,
    at a failure of its third channel write, reports [-EIO]. *)
Theorem digital_gain_failure_not_reported :
  let d := snd (Soho.imx258_set_stream 1
                  (Soho.probe_state (Soho.fault_at 136))) in
  let p := Soho.set_control V4L2_CID_DIGITAL_GAIN 2048 d in
  let q := Part000.set_control true V4L2_CID_DIGITAL_GAIN 2048
             (Part000.powered_state (Soho.fault_at 2)) in
  Soho.streaming d = true /\
  fst p = 0 /\
  xfers_since 134 (Soho.client (snd p)) =
    [Soho.okx [0x02; 0x0e; 0x08; 0x00];
     Soho.okx [0x02; 0x10; 0x08; 0x00];
     Soho.failx [0x02; 0x12; 0x08; 0x00];
     Soho.okx [0x02; 0x14; 0x08; 0x00]] /\
  fst q = - EIO /\
  xfers (Part000.client (snd q)) =
    [Soho.okx [0x02; 0x0e; 0x08; 0x00];
     Soho.okx [0x02; 0x14; 0x08; 0x00];
     Soho.failx [0x02; 0x10; 0x08; 0x00]].
Proof. vm_compute. repeat split. Qed.

End DigitalGain.

Module Deferred.
Import Soho KernelFacts SohoFacts SohoStream.

(** *** Control sets while the device is idle *)

Lemma get_if_in_use_idle (c : i2c_client) :
  pm_in_use c = false -> pm_runtime_get_if_in_use c = (0, c).
Proof.
  unfold pm_in_use, pm_runtime_get_if_in_use. intros ->. reflexivity.
Qed.

Lemma get_if_in_use_active (c : i2c_client) :
  pm_in_use c = true ->
  pm_runtime_get_if_in_use c = (1, set_pm (S (pm_usage c)) (pm_active c) c).
Proof.
  unfold pm_in_use, pm_runtime_get_if_in_use. intros ->. reflexivity.
Qed.

(** With the device idle, [imx258_set_ctrl] answers 0 and leaves the bus
    alone; only a VBLANK set adjusts the exposure range. *)
Lemma imx258_set_ctrl_idle (ctrl : v4l2_ctrl) (d : imx258) :
  pm_in_use (client d) = false ->
  imx258_set_ctrl ctrl d =
  (0, if cid_eqb (id ctrl) V4L2_CID_VBLANK
      then snd (imx258_adjust_exposure_range d) else d).
Proof.
  intros Hidle. unfold imx258_set_ctrl, bind at 1.
  destruct (cid_eqb (id ctrl) V4L2_CID_VBLANK).
  - unfold imx258_adjust_exposure_range at 1, modify. cbv beta iota.
    unfold bind at 1, on_client.
    change (client (set_ctrl_handler _ d)) with (client d).
    rewrite get_if_in_use_idle by exact Hidle. reflexivity.
  - unfold ret at 1. cbv beta iota. unfold bind at 1, on_client.
    rewrite get_if_in_use_idle by exact Hidle.
    destruct d as [[] ]; reflexivity.
Qed.


Lemma set_val_id (v : Z) (c : v4l2_ctrl) : id (set_val v c) = id c.
Proof. reflexivity. Qed.



(** *** Control sets while the device is in use *)







(** Only the exposure control is touched by a control set. *)
Lemma ctrl_kept_set_ctrl (i : cid) (ctrl : v4l2_ctrl) :
  i <> V4L2_CID_EXPOSURE ->
  preserves (fun d => find_ctrl i (ctrl_handler d)) (imx258_set_ctrl ctrl).
Proof.
  intros Hi. unfold imx258_set_ctrl. keep.
  - keep; [|keep]. unfold imx258_adjust_exposure_range.
    apply preserves_modify. intros d. cbn [ctrl_handler set_ctrl_handler].
    apply find_update_other; [intros; apply modify_range_id|congruence].
  - keep; [keep|]. keep; [keep|]. keep.
    + destruct (id ctrl); repeat keep.
      unfold imx258_set_frame_length. keep; [keep|]. keep; [keep|].
      match goal with
      | |- context [frame_length_loop ?v ?s] =>
          destruct (frame_length_loop v s) as [v' s']
      end.
      repeat keep.
    + keep; [|keep]. unfold pm_runtime_put. repeat keep.
      unfold imx258_power_off. repeat keep.
Qed.


(** In use, the exposure control is one 16-bit register write of its
    value shifted right by the long-exposure shift. *)
Lemma imx258_set_ctrl_exposure (ctrl : v4l2_ctrl) (d : imx258) :
  pm_in_use (client d) = true ->
  id ctrl = V4L2_CID_EXPOSURE ->
  fst (imx258_set_ctrl ctrl d) = (if next_ok (client d) then 0 else - EIO) /\
  xfers (client (snd (imx258_set_ctrl ctrl d))) =
    xfers (client d) ++
    [mk_xfer (reg_msg IMX258_REG_EXPOSURE 2
                      (Z.shiftr (val ctrl) (long_exp_shift d)))
             (next_ok (client d))].
Proof.
  intros Huse Hid.
  set (d1 := set_client
                (set_pm (S (pm_usage (client d))) (pm_active (client d))
                        (client d)) d).
  assert (Heq : imx258_set_ctrl ctrl d =
                bind (imx258_write_reg IMX258_REG_EXPOSURE
                        IMX258_REG_VALUE_16BIT
                        (Z.shiftr (val ctrl) (long_exp_shift d)))
                     (fun r => pm_runtime_put ;;; ret r) d1).
  { unfold imx258_set_ctrl. rewrite Hid.
    change (cid_eqb V4L2_CID_EXPOSURE V4L2_CID_VBLANK) with false.
    unfold bind at 1, ret at 1.
    cbv beta iota. unfold bind at 1, on_client at 1.
    rewrite get_if_in_use_active by exact Huse.
    change (1 =? 0) with false. cbv beta iota. fold d1.
    unfold bind at 1. unfold bind at 1, gets. reflexivity. }
  rewrite Heq. clear Heq. unfold bind at 1 3.
  rewrite imx258_write_reg_eq by (unfold IMX258_REG_VALUE_16BIT; lia).
  set (d2 := set_client _ d1).
  unfold bind.
  destruct (pm_runtime_put_quiet d2) as (X & _ & _).
  destruct (pm_runtime_put d2) as [[] d3]. cbn [fst snd ret] in *.
  split; [reflexivity|]. rewrite X. reflexivity.
Qed.

(** *** The bulk control commit applies the recorded values *)


Lemma replay_cons (i : cid) (ids : list cid) (d : imx258) :
  ctrl_handler_replay ctrl_handler imx258_set_ctrl (i :: ids) d =
  match find_ctrl i (ctrl_handler d) with
  | None => ctrl_handler_replay ctrl_handler imx258_set_ctrl ids d
  | Some c =>
      if has_flag V4L2_CTRL_FLAG_READ_ONLY c
      then ctrl_handler_replay ctrl_handler imx258_set_ctrl ids d
      else
        if nonzero (fst (imx258_set_ctrl c d))
        then imx258_set_ctrl c d
        else ctrl_handler_replay ctrl_handler imx258_set_ctrl ids
               (snd (imx258_set_ctrl c d))
  end.
Proof.
  cbn [ctrl_handler_replay].
  destruct (find_ctrl i (ctrl_handler d)) as [c|]; [|reflexivity].
  destruct (has_flag V4L2_CTRL_FLAG_READ_ONLY c); [reflexivity|].
  destruct (imx258_set_ctrl c d) as [r d1]. cbn [fst snd].
  destruct (nonzero r); reflexivity.
Qed.

(** A control set keeps the flags of every control. *)
Lemma flags_kept_set_ctrl (i : cid) (ctrl : v4l2_ctrl) :
  preserves (fun d => option_map flags (find_ctrl i (ctrl_handler d)))
            (imx258_set_ctrl ctrl).
Proof.
  unfold imx258_set_ctrl. keep.
  - keep; [|keep]. unfold imx258_adjust_exposure_range.
    apply preserves_modify. intros d. cbn [ctrl_handler set_ctrl_handler].
    destruct (cid_eqb V4L2_CID_EXPOSURE i) eqn:E.
    + apply cid_eqb_eq in E. subst i.
      rewrite find_update_same by (intros; apply modify_range_id).
      destruct (find_ctrl V4L2_CID_EXPOSURE (ctrl_handler d)); reflexivity.
    + rewrite find_update_other; [reflexivity|intros; apply modify_range_id|].
      intros Heq. subst i. rewrite cid_eqb_refl in E. discriminate E.
  - keep; [keep|]. keep; [keep|]. keep.
    + destruct (id ctrl); repeat keep.
      unfold imx258_set_frame_length. keep; [keep|]. keep; [keep|].
      match goal with
      | |- context [frame_length_loop ?v ?s] =>
          destruct (frame_length_loop v s) as [v' s']
      end.
      repeat keep.
    + keep; [|keep]. unfold pm_runtime_put. repeat keep.
      unfold imx258_power_off. repeat keep.
Qed.



(** *** From a deferred set to the stream start *)

Lemma get_sync_ctrl_handler : preserves ctrl_handler pm_runtime_get_sync.
Proof.
  unfold pm_runtime_get_sync. repeat keep.
  unfold imx258_power_on. repeat keep.
Qed.

(** When the platform answers 0 or a negative errno, a runtime-PM get that
    does not fail leaves the device in use. *)
Lemma get_sync_in_use (d : imx258) :
  regulator_ret (rails (client d)) <= 0 ->
  clk_ret (rails (client d)) <= 0 ->
  ~ fst (pm_runtime_get_sync d) < 0 ->
  pm_in_use (client (snd (pm_runtime_get_sync d))) = true.
Proof.
  destruct d as [[f x k us a [so xo rg rr cr]] fc h m st w sh].
  cbn [client rails regulator_ret clk_ret]. intros Hr Hc.
  unfold pm_runtime_get_sync, imx258_power_on, regulator_bulk_enable,
    clk_prepare_enable, regulator_bulk_disable, gpiod_set_value_cansleep,
    dev_err, bind, on_client, modify, gets, ret, pm_in_use, nonzero.
  destruct a; [reflexivity|]. simpl.
  destruct (rr =? 0) eqn:E1; destruct (cr =? 0) eqn:E2;
    do 3 (simpl; rewrite ?E1, ?E2); simpl;
    try reflexivity;
    try apply Z.eqb_neq in E1; try apply Z.eqb_neq in E2;
    intros H; exfalso; apply H; lia.
Qed.





(** The deferred set of the analogue gain on the probed device, followed
    by a stream start on a healthy bus: nothing is sent at set time, and
    the start sends the recorded 300 to register 0x0204. *)
Example deferred_gain_committed :
  let p := set_control V4L2_CID_ANALOGUE_GAIN 300 (probe_state no_fault) in
  let s := imx258_set_stream 1 (snd p) in
  fst p = 0 /\ xfers (client (snd p)) = [] /\ fst s = 0 /\
  nth 121 (sent (client (snd s))) [] = [0x02; 0x04; 0x01; 0x2c].
Proof. vm_compute. repeat split. Qed.

End Deferred.

Module ExposureRange.
Import Soho KernelFacts SohoFacts SohoStream Deferred.

(** C4: after [imx258_adjust_exposure_range] for the current mode and
    VBLANK value [V], the exposure control's maximum is
    [height + V - (EXPOSURE_OFFSET << shift)] (the value being one an [int]
    holds); the new default is the current value clamped to that maximum,
    and the current value is clamped down to it as well, so a value above
    the maximum is never kept, and what a later set of the exposure
    control writes to the exposure register is the clamped value (shifted
    by the long-exposure shift), never the old one. *)
Theorem adjust_exposure_range_max (d : imx258) (e : v4l2_ctrl) :
  find_ctrl V4L2_CID_EXPOSURE (ctrl_handler d) = Some e ->
  let h := height (mode d) in
  let V := val (vblank d) in
  let s := long_exp_shift d in
  let mx := h + V - Z.shiftl IMX258_EXPOSURE_OFFSET s in
  - 2 ^ 31 <= mx < 2 ^ 31 ->
  let d' := snd (imx258_adjust_exposure_range d) in
  maximum (exposure d') = mx /\
  default_value (exposure d') = Z.min mx (val e) /\
  val (exposure d') = Z.min mx (val e) /\
  val (exposure d') <= maximum (exposure d') /\
  minimum (exposure d') = minimum e /\
  step (exposure d') = step e /\
  (pm_in_use (client d) = true ->
   xfers (client (snd (imx258_set_ctrl (exposure d') d'))) =
     xfers (client d) ++
     [mk_xfer (reg_msg IMX258_REG_EXPOSURE 2
                       (Z.shiftr (Z.min mx (val e)) s))
              (next_ok (client d))]).
Proof.
  intros He h V s mx Hmx d'.
  assert (Hexp : exposure d = e)
    by (unfold exposure, ctrl_of; rewrite He; reflexivity).
  assert (Hexp' : exposure d' =
                  __v4l2_ctrl_modify_range (minimum e) mx (step e)
                                           (Z.min mx (val e)) e).
  { unfold d', imx258_adjust_exposure_range, modify, exposure at 1, ctrl_of.
    cbn [snd ctrl_handler set_ctrl_handler].
    rewrite find_update_same by (intros; apply modify_range_id).
    rewrite He. cbn [option_map]. rewrite Hexp.
    fold h V s. unfold mx in Hmx |- *.
    rewrite s32_of_wrapped by exact Hmx. reflexivity. }
  assert (Hval : val (exposure d') = Z.min mx (val e)).
  { rewrite Hexp'. unfold __v4l2_ctrl_modify_range. cbn [val].
    destruct (mx <? val e) eqn:L;
      [apply Z.ltb_lt in L|apply Z.ltb_ge in L]; lia. }
  split; [rewrite Hexp'; reflexivity|].
  split; [rewrite Hexp'; reflexivity|].
  split; [exact Hval|].
  split; [rewrite Hval, Hexp'; cbn [maximum __v4l2_ctrl_modify_range]; lia|].
  split; [rewrite Hexp'; reflexivity|].
  split; [rewrite Hexp'; reflexivity|].
  intros Huse.
  destruct (imx258_set_ctrl_exposure (exposure d') d') as [_ Hx].
  - exact Huse.
  - rewrite Hexp'. apply find_ctrl_id in He. exact He.
  - rewrite Hx, Hval. reflexivity.
Qed.

Lemma adjust_exposure_range_max_witness :
  let d := snd (imx258_set_stream 1 (probe_state no_fault)) in
  let e := mk_ctrl V4L2_CID_EXPOSURE 20 4821 1 1600 1600 0 in
  let mx := 3120 + 1723 - Z.shiftl IMX258_EXPOSURE_OFFSET 0 in
  let d' := snd (imx258_adjust_exposure_range d) in
  maximum (exposure d') = mx /\
  default_value (exposure d') = Z.min mx (val e) /\
  val (exposure d') = Z.min mx (val e) /\
  val (exposure d') <= maximum (exposure d') /\
  minimum (exposure d') = minimum e /\
  step (exposure d') = step e /\
  (pm_in_use (client d) = true ->
   xfers (client (snd (imx258_set_ctrl (exposure d') d'))) =
     xfers (client d) ++
     [mk_xfer (reg_msg IMX258_REG_EXPOSURE 2
                       (Z.shiftr (Z.min mx (val e)) 0))
              (next_ok (client d))]).
Proof.
  apply (adjust_exposure_range_max
           (snd (imx258_set_stream 1 (probe_state no_fault)))
           (mk_ctrl V4L2_CID_EXPOSURE 20 4821 1 1600 1600 0)).
  - vm_compute. reflexivity.
  - vm_compute. split; [discriminate|reflexivity].
Defined.

End ExposureRange.

Module RegisterIO.
Import Soho KernelFacts SohoFacts SohoStream.

(** *** Bytes on the wire *)

(** Shifting a 32-bit value left by [s] bits and reading the byte at bit
    [t] gives the byte of the value at bit [t - s]. *)
Lemma byte_extract (v s t : Z) :
  0 <= s -> s <= t -> t + 8 <= 32 ->
  u8 (Z.shiftr (u32 (Z.shiftl (u32 v) s)) t) = (v / 2 ^ (t - s)) mod 2 ^ 8.
Proof.
  intros Hs Hst Ht. unfold u8, u32.
  apply Z.bits_inj'. intros n Hn.
  destruct (Z.ltb_spec n 8) as [Hlt|Hge].
  - rewrite !Z.mod_pow2_bits_low by lia.
    rewrite Z.shiftr_spec by lia.
    rewrite Z.mod_pow2_bits_low by lia.
    rewrite Z.shiftl_spec by lia.
    rewrite Z.mod_pow2_bits_low by lia.
    rewrite <- Z.shiftr_div_pow2 by lia.
    rewrite Z.shiftr_spec by lia.
    f_equal. lia.
  - rewrite !Z.mod_pow2_bits_high by lia. reflexivity.
Qed.

Lemma addr_bytes (reg : Z) :
  [u8 (Z.shiftr (u16 reg) 8); u8 (u16 reg)] = be_bytes 2 reg.
Proof.
  unfold be_bytes, u8, u16. f_equal; [|f_equal].
  - apply Z.bits_inj'. intros n Hn.
    change (256 ^ Z.of_nat 1) with (2 ^ 8). change 256 with (2 ^ 8).
    destruct (Z.ltb_spec n 8) as [Hlt|Hge].
    + rewrite !Z.mod_pow2_bits_low by lia.
      rewrite Z.shiftr_spec by lia.
      rewrite Z.mod_pow2_bits_low by lia.
      rewrite <- Z.shiftr_div_pow2 by lia.
      rewrite Z.shiftr_spec by lia. reflexivity.
    + rewrite !Z.mod_pow2_bits_high by lia. reflexivity.
  - change (256 ^ Z.of_nat 0) with 1. rewrite Z.div_1_r.
    change 256 with (2 ^ 8).
    apply Z.bits_inj'. intros n Hn.
    destruct (Z.ltb_spec n 8) as [Hlt|Hge].
    + rewrite !Z.mod_pow2_bits_low by lia. reflexivity.
    + rewrite !Z.mod_pow2_bits_high by lia. reflexivity.
Qed.

(** The message of a register write: the address, then the [len]
    low-order bytes of the value, both most significant byte first. *)
Lemma reg_msg_bytes (reg len v : Z) :
  0 <= len <= 4 ->
  reg_msg reg len v = be_bytes 2 reg ++ be_bytes (Z.to_nat len) v.
Proof.
  intros Hlen. rewrite <- addr_bytes.
  assert (Hc : len = 0 \/ len = 1 \/ len = 2 \/ len = 3 \/ len = 4) by lia.
  destruct Hc as [-> | [-> | [-> | [-> | ->]]]].
  - reflexivity.
  - change (reg_msg reg 1 v) with
      [u8 (Z.shiftr (u16 reg) 8); u8 (u16 reg);
       u8 (Z.shiftr (u32 (Z.shiftl (u32 v) 24)) 24)].
    rewrite byte_extract by lia. reflexivity.
  - change (reg_msg reg 2 v) with
      [u8 (Z.shiftr (u16 reg) 8); u8 (u16 reg);
       u8 (Z.shiftr (u32 (Z.shiftl (u32 v) 16)) 24);
       u8 (Z.shiftr (u32 (Z.shiftl (u32 v) 16)) 16)].
    rewrite !byte_extract by lia. reflexivity.
  - change (reg_msg reg 3 v) with
      [u8 (Z.shiftr (u16 reg) 8); u8 (u16 reg);
       u8 (Z.shiftr (u32 (Z.shiftl (u32 v) 8)) 24);
       u8 (Z.shiftr (u32 (Z.shiftl (u32 v) 8)) 16);
       u8 (Z.shiftr (u32 (Z.shiftl (u32 v) 8)) 8)].
    rewrite !byte_extract by lia. reflexivity.
  - change (reg_msg reg 4 v) with
      [u8 (Z.shiftr (u16 reg) 8); u8 (u16 reg);
       u8 (Z.shiftr (u32 (Z.shiftl (u32 v) 0)) 24);
       u8 (Z.shiftr (u32 (Z.shiftl (u32 v) 0)) 16);
       u8 (Z.shiftr (u32 (Z.shiftl (u32 v) 0)) 8);
       u8 (u32 (Z.shiftl (u32 v) 0))].
    rewrite !byte_extract by lia.
    change (u8 (u32 (Z.shiftl (u32 v) 0)))
      with (u8 (Z.shiftr (u32 (Z.shiftl (u32 v) 0)) 0)).
    rewrite byte_extract by lia. reflexivity.
Qed.

(** X1: a register write either rejects a length above four bytes without
    touching the bus, or makes exactly one transfer: the 16-bit address
    followed by the [len] low-order bytes of the value, most significant
    byte first.  It answers 0 when the bus takes the message and [-EIO]
    otherwise, and changes nothing but the transfer log. *)
Theorem write_reg_wire_format (reg len v : Z) (d : imx258) :
  0 <= len ->
  let p := imx258_write_reg reg len v d in
  (4 < len -> p = (- EINVAL, d)) /\
  (len <= 4 ->
   p = ((if next_ok (client d) then 0 else - EIO),
        set_client
          (push_xfer (be_bytes 2 reg ++ be_bytes (Z.to_nat len) v) (client d))
          d)).
Proof.
  intros Hlen p. subst p. split; intros H.
  - unfold imx258_write_reg.
    destruct (4 <? len) eqn:E; [reflexivity|apply Z.ltb_ge in E; lia].
  - rewrite imx258_write_reg_eq by lia.
    rewrite reg_msg_bytes by lia. reflexivity.
Qed.

Lemma write_reg_wire_format_witness :
  let d := probe_state no_fault in
  let p := imx258_write_reg IMX258_REG_EXPOSURE 2 0x1234 d in
  (4 < 2 -> p = (- EINVAL, d)) /\
  (2 <= 4 ->
   p = ((if next_ok (client d) then 0 else - EIO),
        set_client
          (push_xfer (be_bytes 2 IMX258_REG_EXPOSURE ++
                      be_bytes (Z.to_nat 2) 0x1234) (client d))
          d)).
Proof.
  apply (write_reg_wire_format IMX258_REG_EXPOSURE 2 0x1234
           (probe_state no_fault)). lia.
Defined.

(** *** Register tables *)

Lemma first_fault_bound (f : nat -> bool) (n n0 k : nat) :
  first_fault f n0 n = Some k -> (k < n)%nat /\ f (n0 + k)%nat = true.
Proof.
  revert n0 k. induction n as [|n IH]; intros n0 k H; simpl in H.
  - discriminate.
  - destruct (f n0) eqn:E.
    + injection H as <-. rewrite Nat.add_0_r. split; [lia|exact E].
    + destruct (first_fault f (S n0) n) as [j|] eqn:Ej; [|discriminate].
      injection H as <-. destruct (IH _ _ Ej) as [? ?].
      split; [lia|]. rewrite Nat.add_succ_r. assumption.
Qed.

(** The loop over a register table, by the position of the first transfer
    that fails. *)
Lemma write_regs_loop_first_fault (regs : list imx258_reg) (d : imx258) :
  let c := client d in
  let msgs := table_msgs regs in
  write_regs_loop regs d =
  match first_fault (fault c) (List.length (xfers c)) (List.length regs) with
  | None => (0, set_client (set_xfers (xfers c ++ map okx msgs) c) d)
  | Some k =>
      (- EIO,
       set_client
         (set_klog (klog c ++ ["Failed to write reg"%string])
            (set_xfers (xfers c ++ map okx (firstn k msgs) ++
                        [failx (nth k msgs [])]) c)) d)
  end.
Proof.
  revert d. induction regs as [|x regs IH]; intros d; cbv zeta.
  - simpl. rewrite app_nil_r. destruct d as [[] ? ? ? ? ? ?]. reflexivity.
  - rewrite write_regs_loop_cons. cbv zeta. unfold next_ok.
    simpl first_fault.
    destruct (fault (client d) (List.length (xfers (client d)))) eqn:E.
    + simpl. unfold push_xfer, next_ok. rewrite E. reflexivity.
    + cbv beta iota. simpl negb. cbv beta iota.
      rewrite IH. cbv zeta.
      unfold push_xfer, next_ok. rewrite E. simpl negb.
      simpl client. simpl xfers. simpl fault.
      rewrite length_app. simpl List.length. rewrite Nat.add_1_r.
      destruct (first_fault (fault (client d))
                  (S (List.length (xfers (client d)))) (List.length regs))
        as [k|]; simpl option_map; cbv beta iota.
      * simpl klog. simpl table_msgs. simpl firstn. simpl nth.
        simpl map. rewrite <- !app_assoc. reflexivity.
      * simpl table_msgs. simpl map. rewrite <- !app_assoc. reflexivity.
Qed.

(** X2: writing a register table sends its first [len] entries in table
    order, one single-byte write each, and stops at the first transfer
    that fails: the entries before it are on the bus, the failing one was
    attempted, none of the later ones is, one line is logged and [-EIO]
    is returned.  Without a failure all entries are written and 0 is
    returned.  Nothing else of the device changes. *)
Theorem write_regs_stops_at_first_failure (regs : list imx258_reg) (len : Z)
  (d : imx258) :
  0 <= len <= Z.of_nat (List.length regs) ->
  let c := client d in
  let todo := firstn (Z.to_nat len) regs in
  let msgs := table_msgs todo in
  List.length msgs = Z.to_nat len /\
  match first_fault (fault c) (List.length (xfers c)) (Z.to_nat len) with
  | None =>
      imx258_write_regs regs len d =
      (0, set_client (set_xfers (xfers c ++ map okx msgs) c) d)
  | Some k =>
      (k < Z.to_nat len)%nat /\
      imx258_write_regs regs len d =
      (- EIO,
       set_client
         (set_klog (klog c ++ ["Failed to write reg"%string])
            (set_xfers (xfers c ++ map okx (firstn k msgs) ++
                        [failx (nth k msgs [])]) c)) d)
  end.
Proof.
  intros Hlen c todo msgs.
  assert (Hl : List.length todo = Z.to_nat len).
  { unfold todo. rewrite length_firstn. lia. }
  split.
  { unfold msgs, table_msgs. rewrite length_map. exact Hl. }
  unfold imx258_write_regs. fold todo.
  rewrite write_regs_loop_first_fault. cbv zeta. fold c. rewrite Hl.
  destruct (first_fault (fault c) (List.length (xfers c)) (Z.to_nat len))
    as [k|] eqn:E.
  - split; [|reflexivity]. apply first_fault_bound in E. tauto.
  - reflexivity.
Qed.

Lemma write_regs_stops_at_first_failure_witness :
  let regs := mode_common_regs in
  let len := 39 in
  let d := probe_state (fault_at 5) in
  let c := client d in
  let todo := firstn (Z.to_nat len) regs in
  let msgs := table_msgs todo in
  List.length msgs = Z.to_nat len /\
  match first_fault (fault c) (List.length (xfers c)) (Z.to_nat len) with
  | None =>
      imx258_write_regs regs len d =
      (0, set_client (set_xfers (xfers c ++ map okx msgs) c) d)
  | Some k =>
      (k < Z.to_nat len)%nat /\
      imx258_write_regs regs len d =
      (- EIO,
       set_client
         (set_klog (klog c ++ ["Failed to write reg"%string])
            (set_xfers (xfers c ++ map okx (firstn k msgs) ++
                        [failx (nth k msgs [])]) c)) d)
  end.
Proof.
  apply (write_regs_stops_at_first_failure mode_common_regs 39
           (probe_state (fault_at 5))).
  simpl. lia.
Defined.

(** *** Register reads *)

Lemma lor_shift_add (a b k : Z) :
  0 <= k -> 0 <= b < 2 ^ k -> Z.lor (Z.shiftl a k) b = a * 2 ^ k + b.
Proof.
  intros Hk Hb.
  assert (Hl : Z.land (Z.shiftl a k) b = 0).
  { apply Z.bits_inj'. intros n Hn. rewrite Z.land_spec, Z.bits_0.
    destruct (Z.ltb_spec n k) as [Hlt|Hge].
    - rewrite Z.shiftl_spec_low by lia. reflexivity.
    - rewrite <- (Z.mod_small b (2 ^ k)) by lia.
      rewrite Z.mod_pow2_bits_high by lia. apply andb_false_r. }
  rewrite <- Z.lxor_lor by exact Hl.
  rewrite <- Z.add_nocarry_lxor by exact Hl.
  rewrite Z.shiftl_mul_pow2 by lia. reflexivity.
Qed.

(** The receive buffer, zero-padded in front, spells the bytes read. *)
Lemma get_unaligned_be32_padded (rx : list Z) (len : Z) :
  0 <= len <= 4 -> List.length rx = Z.to_nat len ->
  Forall (fun b => 0 <= b < 256) rx ->
  get_unaligned_be32 (repeat 0 (Z.to_nat (4 - len)) ++ rx) = be_value rx /\
  0 <= be_value rx < 256 ^ len.
Proof.
  intros Hlen Hl Hb.
  assert (Hc : len = 0 \/ len = 1 \/ len = 2 \/ len = 3 \/ len = 4) by lia.
  unfold get_unaligned_be32, be_value.
  destruct Hc as [-> | [-> | [-> | [-> | ->]]]];
    repeat (destruct rx as [|?b rx]; try discriminate Hl);
    repeat match goal with
           | H : Forall _ (_ :: _) |- _ => inversion H; subst; clear H
           end;
    match goal with
    | |- context [repeat 0 ?n ++ ?l] =>
        let n' := eval vm_compute in n in
        change (repeat 0 n ++ l) with (repeat 0 n' ++ l)
    end;
    cbn [repeat app nth fold_left];
    rewrite ?Z.shiftl_0_l, ?Z.lor_0_l.
  - simpl. lia.
  - split; lia.
  - rewrite lor_shift_add by lia. split; lia.
  - rewrite (lor_shift_add _ b1) by lia.
    rewrite lor_shift_add by lia.
    change (2 ^ 16) with (2 ^ 8 * 2 ^ 8). split; lia.
  - rewrite (lor_shift_add _ b2) by lia.
    rewrite (lor_shift_add _ (b1 * 2 ^ 8 + b2)) by lia.
    rewrite lor_shift_add by lia.
    change (2 ^ 16) with (2 ^ 8 * 2 ^ 8).
    change (2 ^ 24) with (2 ^ 8 * 2 ^ 8 * 2 ^ 8). split; lia.
Qed.

Lemma fold_left_be (l : list Z) (a : Z) :
  fold_left (fun a x => a * 256 + x) l a =
  a * 256 ^ Z.of_nat (List.length l) + be_value l.
Proof.
  unfold be_value. revert a.
  induction l as [|x l IH]; intros a.
  - simpl. lia.
  - cbn [fold_left List.length]. rewrite IH. rewrite (IH (0 * 256 + x)).
    rewrite Nat2Z.inj_succ, Z.pow_succ_r by lia. lia.
Qed.

Lemma be_bytes_length (n : nat) (x : Z) : List.length (be_bytes n x) = n.
Proof. induction n; simpl; congruence. Qed.

Lemma be_bytes_range (n : nat) (x : Z) :
  Forall (fun b => 0 <= b < 256) (be_bytes n x).
Proof.
  induction n; simpl; constructor; [apply Z.mod_pos_bound; lia|assumption].
Qed.

(** Decoding the bytes of a value gives the value back, cut to their
    number. *)
Lemma be_value_bytes (n : nat) (x : Z) :
  be_value (be_bytes n x) = x mod 256 ^ Z.of_nat n.
Proof.
  induction n as [|n IH].
  - simpl. rewrite Z.mod_1_r. reflexivity.
  - cbn [be_bytes]. unfold be_value. cbn [fold_left].
    rewrite fold_left_be, be_bytes_length, IH.
    rewrite Nat2Z.inj_succ, Z.pow_succ_r by lia.
    rewrite (Z.mul_comm 256), Z.rem_mul_r by lia. lia.
Qed.

Lemma imx258_read_reg_eq (rx : list Z) (reg len val0 : Z) (d : imx258) :
  0 <= len <= 4 ->
  imx258_read_reg rx reg len val0 d =
  ((if next_ok (client d)
    then (0, get_unaligned_be32
               (repeat 0 (Z.to_nat (4 - len)) ++ firstn (Z.to_nat len) rx))
    else (- EIO, val0)),
   set_client (push_xfer (be_bytes 2 reg) (client d)) d).
Proof.
  intros Hlen. unfold imx258_read_reg.
  destruct (4 <? len) eqn:E; [apply Z.ltb_lt in E; lia|].
  assert (Ha : [u8 (Z.shiftr (u16 reg) 8); u8 (Z.land (u16 reg) 255)] =
               be_bytes 2 reg).
  { rewrite <- addr_bytes. do 2 f_equal.
    change 255 with (Z.ones 8). rewrite Z.land_ones by lia.
    unfold u8. rewrite Z.mod_mod by lia. reflexivity. }
  rewrite Ha.
  unfold bind, on_client, i2c_transfer, push_xfer, next_ok, ret.
  destruct (fault (client d) (List.length (xfers (client d))));
    reflexivity.
Qed.

(** X3: a register read either rejects a length above four bytes without
    touching the bus, or makes exactly one transfer that carries the
    16-bit address, most significant byte first.  When the bus fails it
    answers [-EIO] and leaves the caller's value alone; otherwise the
    value is the number spelled by the [len] bytes read, most significant
    first, below [256 ^ len].  Reading back the bytes a register write
    puts on the wire for [v] gives [v] cut to [len] bytes. *)
Theorem read_reg_decodes (rx : list Z) (reg len val0 : Z) (d : imx258) :
  0 <= len ->
  let p := imx258_read_reg rx reg len val0 d in
  (4 < len -> p = ((- EINVAL, val0), d)) /\
  (len <= 4 -> List.length rx = Z.to_nat len ->
   Forall (fun b => 0 <= b < 256) rx ->
   p = ((if next_ok (client d) then (0, be_value rx) else (- EIO, val0)),
        set_client (push_xfer (be_bytes 2 reg) (client d)) d) /\
   0 <= be_value rx < 256 ^ len) /\
  (len <= 4 -> next_ok (client d) = true ->
   forall v,
     fst (imx258_read_reg (be_bytes (Z.to_nat len) v) reg len val0 d) =
     (0, v mod 256 ^ len)).
Proof.
  intros Hlen p. subst p. split; [|split].
  - intros H. unfold imx258_read_reg.
    destruct (4 <? len) eqn:E; [reflexivity|apply Z.ltb_ge in E; lia].
  - intros H Hl Hb. rewrite imx258_read_reg_eq by lia.
    rewrite <- Hl, firstn_all.
    destruct (get_unaligned_be32_padded rx len) as [-> Hr];
      [lia|assumption|assumption|]. split; [reflexivity|exact Hr].
  - intros H Hok v. rewrite imx258_read_reg_eq by lia. rewrite Hok.
    cbn [fst].
    replace (firstn (Z.to_nat len) (be_bytes (Z.to_nat len) v))
      with (be_bytes (Z.to_nat len) v)
      by (rewrite <- (be_bytes_length (Z.to_nat len) v) at 2;
          symmetry; apply firstn_all).
    destruct (get_unaligned_be32_padded (be_bytes (Z.to_nat len) v) len)
      as [-> _]; [lia|apply be_bytes_length|apply be_bytes_range|].
    rewrite be_value_bytes, Z2Nat.id by lia. reflexivity.
Qed.

Lemma read_reg_decodes_witness :
  let rx := [0x02; 0x58] in
  let reg := IMX258_REG_CHIP_ID in
  let len := 2 in
  let val0 := 0 in
  let d := probe_state no_fault in
  let p := imx258_read_reg rx reg len val0 d in
  (4 < len -> p = ((- EINVAL, val0), d)) /\
  (len <= 4 -> List.length rx = Z.to_nat len ->
   Forall (fun b => 0 <= b < 256) rx ->
   p = ((if next_ok (client d) then (0, be_value rx) else (- EIO, val0)),
        set_client (push_xfer (be_bytes 2 reg) (client d)) d) /\
   0 <= be_value rx < 256 ^ len) /\
  (len <= 4 -> next_ok (client d) = true ->
   forall v,
     fst (imx258_read_reg (be_bytes (Z.to_nat len) v) reg len val0 d) =
     (0, v mod 256 ^ len)).
Proof.
  apply (read_reg_decodes [0x02; 0x58] IMX258_REG_CHIP_ID 2 0
           (probe_state no_fault)). lia.
Defined.

(** *** Chip identification *)

Lemma part000_read_reg_eq (rx : list Z) (reg len val0 : Z)
  (d : Part000.imx258) :
  0 <= len <= 4 ->
  Part000.imx258_read_reg rx reg len val0 d =
  ((if next_ok (Part000.client d)
    then (0, get_unaligned_be32
               (repeat 0 (Z.to_nat (4 - len)) ++ firstn (Z.to_nat len) rx))
    else (- EIO, val0)),
   Part000.set_client (push_xfer (be_bytes 2 reg) (Part000.client d)) d).
Proof.
  intros Hlen. unfold Part000.imx258_read_reg.
  destruct (4 <? len) eqn:E; [apply Z.ltb_lt in E; lia|].
  assert (Ha : [u8 (Z.shiftr (u16 reg) 8); u8 (Z.land (u16 reg) 255)] =
               be_bytes 2 reg).
  { rewrite <- addr_bytes. do 2 f_equal.
    change 255 with (Z.ones 8). rewrite Z.land_ones by lia.
    unfold u8. rewrite Z.mod_mod by lia. reflexivity. }
  rewrite Ha.
  unfold bind, Part000.on_client, i2c_transfer, push_xfer, next_ok, ret.
  destruct (fault (Part000.client d)
              (List.length (xfers (Part000.client d)))); reflexivity.
Qed.

Lemma chip_id_bytes (rx : list Z) :
  List.length rx = 2%nat -> Forall (fun b => 0 <= b < 256) rx ->
  (be_value rx = IMX258_CHIP_ID <-> rx = [0x02; 0x58]).
Proof.
  intros Hl Hb.
  destruct rx as [|a [|b [|? ?]]]; try discriminate Hl.
  inversion Hb as [|? ? Ha Hb']; subst. inversion Hb' as [|? ? Hb2 _]; subst.
  unfold be_value, IMX258_CHIP_ID. cbn [fold_left]. split.
  - intros H. assert (a = 2 /\ b = 88) as [-> ->] by lia. reflexivity.
  - intros H. injection H as -> ->. reflexivity.
Qed.

(** X4: the chip-identity check reads the 16-bit register 0x0016 in one
    transfer.  The soho driver accepts the module exactly when the read
    succeeds and the two bytes are 0x02 0x58; a failed read and a wrong
    identifier both give [-EIO] and one log line.  The second driver logs
    the same conditions but always answers 0, whatever the bus does and
    whatever the indeterminate content of its local variable. *)
Theorem identify_module_policy (rx : list Z) (val0 : Z) (d : imx258)
  (d2 : Part000.imx258) :
  List.length rx = 2%nat -> Forall (fun b => 0 <= b < 256) rx ->
  let p := imx258_identify_module rx val0 d in
  let q := Part000.imx258_identify_module rx val0 d2 in
  let c := client d in
  let c2 := Part000.client d2 in
  (fst p = 0 <-> next_ok c = true /\ rx = [0x02; 0x58]) /\
  (fst p <> 0 -> fst p = - EIO) /\
  xfers (client (snd p)) = xfers c ++ [mk_xfer [0x00; 0x16] (next_ok c)] /\
  klog (client (snd p)) =
    klog c ++
    (if next_ok c
     then if be_value rx =? IMX258_CHIP_ID then []
          else ["chip id mismatch"%string]
     else ["failed to read chip id"%string]) /\
  fst q = 0 /\
  xfers (Part000.client (snd q)) =
    xfers c2 ++ [mk_xfer [0x00; 0x16] (next_ok c2)] /\
  (next_ok c2 = true -> rx <> [0x02; 0x58] ->
   klog (Part000.client (snd q)) = klog c2 ++ ["chip id mismatch"%string]).
Proof.
  intros Hl Hb p q c c2.
  pose proof (chip_id_bytes rx Hl Hb) as Hid.
  destruct (get_unaligned_be32_padded rx 2) as [Hv _];
    [lia|exact Hl|exact Hb|].
  assert (Hf : firstn (Z.to_nat 2) rx = rx).
  { rewrite <- Hl at 1. apply firstn_all. }
  assert (Hp : p =
    if next_ok c
    then if be_value rx =? IMX258_CHIP_ID
         then (0, set_client (push_xfer (be_bytes 2 IMX258_REG_CHIP_ID) c) d)
         else (- EIO,
               snd (on_client (dev_err "chip id mismatch")
                      (set_client
                         (push_xfer (be_bytes 2 IMX258_REG_CHIP_ID) c) d)))
    else (- EIO,
          snd (on_client (dev_err "failed to read chip id")
                 (set_client
                    (push_xfer (be_bytes 2 IMX258_REG_CHIP_ID) c) d)))).
  { subst p. unfold imx258_identify_module, bind.
    unfold IMX258_REG_VALUE_16BIT.
    rewrite imx258_read_reg_eq by lia. rewrite Hf, Hv. fold c.
    destruct (next_ok c); cbn [fst snd].
    - change (nonzero 0) with false. cbv iota.
      destruct (be_value rx =? IMX258_CHIP_ID); reflexivity.
    - reflexivity. }
  assert (Hq : q =
    let d3 := Part000.set_client
                (push_xfer (be_bytes 2 Part000.IMX258_REG_CHIP_ID) c2) d2 in
    if next_ok c2
    then if be_value rx =? IMX258_CHIP_ID then (0, d3)
         else (0, snd (Part000.on_client (dev_err "chip id mismatch") d3))
    else (0,
          snd ((Part000.on_client (dev_err "failed to read chip id") ;;;
                if negb (val0 =? Part000.IMX258_CHIP_ID)
                then Part000.on_client (dev_err "chip id mismatch")
                else ret tt) d3))).
  { subst q. unfold Part000.imx258_identify_module, bind.
    unfold Part000.IMX258_REG_VALUE_16BIT.
    rewrite part000_read_reg_eq by lia. rewrite Hf, Hv. fold c2.
    destruct (next_ok c2); cbn [fst snd].
    - change (nonzero 0) with false. cbv iota.
      change Part000.IMX258_CHIP_ID with IMX258_CHIP_ID.
      destruct (be_value rx =? IMX258_CHIP_ID); reflexivity.
    - change (nonzero (- EIO)) with true. cbv iota.
      destruct (negb (val0 =? Part000.IMX258_CHIP_ID)); reflexivity. }
  change (be_bytes 2 IMX258_REG_CHIP_ID) with [0x00; 0x16] in Hp.
  change (be_bytes 2 Part000.IMX258_REG_CHIP_ID) with [0x00; 0x16] in Hq.
  rewrite Hp, Hq. clear Hp Hq Hv Hf. cbv zeta. unfold push_xfer.
  fold c c2.
  assert (He : (be_value rx =? IMX258_CHIP_ID) = true <-> rx = [2; 88]).
  { rewrite Z.eqb_eq. exact Hid. }
  destruct (be_value rx =? IMX258_CHIP_ID).
  - assert (Hrx : rx = [2; 88]) by (apply He; reflexivity).
    destruct (next_ok c), (next_ok c2); cbn [fst snd];
      (split; [split; [intros; try discriminate; auto
                      |intros [H1 H2]; try discriminate H1; reflexivity]|]);
      (split; [intros H; try reflexivity; exfalso; apply H; reflexivity|]);
      repeat split; try reflexivity;
      try (simpl; rewrite app_nil_r; reflexivity);
      try (intros _ H; exfalso; apply H; exact Hrx);
      try (intros H; discriminate H);
      try (destruct (negb (val0 =? Part000.IMX258_CHIP_ID)); reflexivity).
  - assert (Hrx : rx <> [2; 88]).
    { intros H. apply He in H. discriminate H. }
    destruct (next_ok c), (next_ok c2); cbn [fst snd];
      (split; [split; [intros H; discriminate H
                      |intros [H1 H2]; try discriminate H1;
                       exfalso; apply Hrx; exact H2]|]);
      (split; [intros H; reflexivity|]);
      repeat split; try reflexivity;
      try (intros H; discriminate H);
      try (destruct (negb (val0 =? Part000.IMX258_CHIP_ID)); reflexivity).
Qed.

Lemma identify_module_policy_witness :
  let rx := [0x02; 0x59] in
  let val0 := 0 in
  let d := probe_state no_fault in
  let d2 := Part000.probe_state no_fault in
  let p := imx258_identify_module rx val0 d in
  let q := Part000.imx258_identify_module rx val0 d2 in
  let c := client d in
  let c2 := Part000.client d2 in
  (fst p = 0 <-> next_ok c = true /\ rx = [0x02; 0x58]) /\
  (fst p <> 0 -> fst p = - EIO) /\
  xfers (client (snd p)) = xfers c ++ [mk_xfer [0x00; 0x16] (next_ok c)] /\
  klog (client (snd p)) =
    klog c ++
    (if next_ok c
     then if be_value rx =? IMX258_CHIP_ID then []
          else ["chip id mismatch"%string]
     else ["failed to read chip id"%string]) /\
  fst q = 0 /\
  xfers (Part000.client (snd q)) =
    xfers c2 ++ [mk_xfer [0x00; 0x16] (next_ok c2)] /\
  (next_ok c2 = true -> rx <> [0x02; 0x58] ->
   klog (Part000.client (snd q)) = klog c2 ++ ["chip id mismatch"%string]).
Proof.
  apply (identify_module_policy [0x02; 0x59] 0 (probe_state no_fault)
           (Part000.probe_state no_fault)).
  - reflexivity.
  - repeat constructor; lia.
Defined.

End RegisterIO.

Module PadOps.
Import Soho KernelFacts SohoFacts SohoStream.

(** *** Format codes *)

(** Whatever code is requested, the remap answers the Bayer order of the
    flips in force. *)
Lemma get_format_code_flips (d : imx258) (code : Z) :
  imx258_get_format_code d code = bayer_code d.
Proof.
  unfold imx258_get_format_code, bayer_code. rewrite code_index_first.
  destruct (index_of code codes) as [k|] eqn:E.
  - apply index_of_bound in E. change (List.length codes) with 4%nat in *.
    assert (Hk : (k = 0 \/ k = 1 \/ k = 2 \/ k = 3)%nat) by lia.
    destruct Hk as [-> | [-> | [-> | ->]]];
      destruct (nonzero (val (vflip d))), (nonzero (val (hflip d)));
      reflexivity.
  - destruct (nonzero (val (vflip d))), (nonzero (val (hflip d)));
      reflexivity.
Qed.

Lemma bayer_code_in (d : imx258) : In (bayer_code d) codes.
Proof.
  unfold bayer_code.
  destruct (nonzero (val (vflip d))), (nonzero (val (hflip d)));
    simpl; auto.
Qed.

Lemma get_mode_table_codes (c : Z) :
  In c codes -> get_mode_table c = supported_modes_10bit.
Proof.
  intros [<- | [<- | [<- | [<- | []]]]]; reflexivity.
Qed.

Lemma get_mode_table_other (c : Z) :
  ~ In c codes -> get_mode_table c = [].
Proof.
  intros H. unfold get_mode_table.
  destruct (c =? MEDIA_BUS_FMT_SRGGB10_1X10) eqn:E1;
    [apply Z.eqb_eq in E1; exfalso; apply H; rewrite E1; simpl; auto|].
  destruct (c =? MEDIA_BUS_FMT_SGRBG10_1X10) eqn:E2;
    [apply Z.eqb_eq in E2; exfalso; apply H; rewrite E2; simpl; auto|].
  destruct (c =? MEDIA_BUS_FMT_SGBRG10_1X10) eqn:E3;
    [apply Z.eqb_eq in E3; exfalso; apply H; rewrite E3; simpl; auto|].
  destruct (c =? MEDIA_BUS_FMT_SBGGR10_1X10) eqn:E4;
    [apply Z.eqb_eq in E4; exfalso; apply H; rewrite E4; simpl; auto|].
  reflexivity.
Qed.

(** X5: enumerating media-bus codes succeeds for index 0 of either pad
    and for nothing else; every other request gets [-EINVAL] and leaves
    the caller's structure alone.  The image pad enumerates the Bayer
    order of the flips in force, the metadata pad the sensor-data code. *)
Theorem enum_mbus_code_cases (d : imx258) (code : v4l2_subdev_mbus_code_enum) :
  0 <= mce_pad code -> 0 <= mce_index code < 2 ^ 32 ->
  let p := imx258_enum_mbus_code d code in
  (fst p = 0 <->
   (mce_pad code = IMAGE_PAD \/ mce_pad code = METADATA_PAD) /\
   mce_index code = 0) /\
  (fst p <> 0 -> p = (- EINVAL, code)) /\
  (fst p = 0 ->
   snd p = mk_code_enum (mce_pad code) (mce_index code)
             (if mce_pad code =? IMAGE_PAD then bayer_code d
              else MEDIA_BUS_FMT_SENSOR_DATA)).
Proof.
  intros Hp Hi p. subst p. unfold imx258_enum_mbus_code.
  unfold NUM_PADS, IMAGE_PAD, METADATA_PAD.
  change (Z.of_nat (List.length codes) / 4) with 1.
  rewrite get_format_code_flips.
  destruct (2 <=? mce_pad code) eqn:E1.
  { apply Z.leb_le in E1. cbn [fst snd]. unfold EINVAL.
    repeat split; intros; try lia; try reflexivity. }
  apply Z.leb_gt in E1.
  destruct (mce_pad code =? 0) eqn:E2.
  - apply Z.eqb_eq in E2.
    destruct (1 <=? mce_index code) eqn:E3.
    + apply Z.leb_le in E3. cbn [fst snd]. unfold EINVAL.
      repeat split; intros; try lia; try reflexivity.
    + apply Z.leb_gt in E3. cbn [fst snd].
      repeat split; intros; try lia; try reflexivity.

  - apply Z.eqb_neq in E2.
    destruct (0 <? mce_index code) eqn:E3.
    + apply Z.ltb_lt in E3. cbn [fst snd]. unfold EINVAL.
      repeat split; intros; try lia; try reflexivity.
    + apply Z.ltb_ge in E3. cbn [fst snd].
      repeat split; intros; try lia; try reflexivity.

Qed.

Lemma enum_mbus_code_cases_witness :
  let d := probe_state no_fault in
  let code := mk_code_enum 0 0 0 in
  let p := imx258_enum_mbus_code d code in
  (fst p = 0 <->
   (mce_pad code = IMAGE_PAD \/ mce_pad code = METADATA_PAD) /\
   mce_index code = 0) /\
  (fst p <> 0 -> p = (- EINVAL, code)) /\
  (fst p = 0 ->
   snd p = mk_code_enum (mce_pad code) (mce_index code)
             (if mce_pad code =? IMAGE_PAD then bayer_code d
              else MEDIA_BUS_FMT_SENSOR_DATA)).
Proof.
  apply (enum_mbus_code_cases (probe_state no_fault) (mk_code_enum 0 0 0));
    simpl; lia.
Defined.

(** X6: enumerating frame sizes succeeds on the image pad exactly for the
    three mode indices and the Bayer order of the flips in force, and on
    the metadata pad exactly for index 0 and the sensor-data code; every
    other request gets [-EINVAL] and leaves the caller's structure alone.
    A successful answer has equal minimum and maximum: the size of the
    mode, or the one embedded line.  The code that the code enumeration
    gives for the image pad is always accepted here. *)
Theorem enum_frame_size_cases (d : imx258) (fse : v4l2_subdev_frame_size_enum) :
  0 <= fse_pad fse -> 0 <= fse_index fse ->
  let p := imx258_enum_frame_size d fse in
  (fst p = 0 <->
   (fse_pad fse = IMAGE_PAD /\ fse_index fse < 3 /\
    fse_code fse = bayer_code d) \/
   (fse_pad fse = METADATA_PAD /\ fse_index fse = 0 /\
    fse_code fse = MEDIA_BUS_FMT_SENSOR_DATA)) /\
  (fst p <> 0 -> p = (- EINVAL, fse)) /\
  (fst p = 0 ->
   exists w h,
     snd p = mk_fse (fse_index fse) (fse_pad fse) (fse_code fse) w w h h /\
     if fse_pad fse =? IMAGE_PAD
     then exists m,
            nth_error supported_modes_10bit (Z.to_nat (fse_index fse)) =
              Some m /\ w = width m /\ h = height m
     else w = IMX258_EMBEDDED_LINE_WIDTH /\ h = IMX258_NUM_EMBEDDED_LINES) /\
  (forall i c0, 0 <= i < 3 ->
     let e := snd (imx258_enum_mbus_code d (mk_code_enum IMAGE_PAD 0 c0)) in
     fst (imx258_enum_frame_size d
            (mk_fse i IMAGE_PAD (mce_code e) 0 0 0 0)) = 0).
Proof.
  intros Hp Hi p.
  assert (Himg : forall i c,
            0 <= i -> 
            imx258_enum_frame_size d (mk_fse i IMAGE_PAD c 0 0 0 0) =
            if (i <? 3) && (c =? bayer_code d)
            then (0, mk_fse i IMAGE_PAD c
                       (width (nth (Z.to_nat i) supported_modes_10bit no_mode))
                       (width (nth (Z.to_nat i) supported_modes_10bit no_mode))
                       (height (nth (Z.to_nat i) supported_modes_10bit no_mode))
                       (height (nth (Z.to_nat i) supported_modes_10bit no_mode)))
            else (- EINVAL, mk_fse i IMAGE_PAD c 0 0 0 0)).
  { intros i c Hi0. unfold imx258_enum_frame_size. cbn [fse_pad fse_code fse_index].
    change (NUM_PADS <=? IMAGE_PAD) with false.
    change (IMAGE_PAD =? IMAGE_PAD) with true. cbv iota.
    rewrite get_format_code_flips.
    destruct (c =? bayer_code d) eqn:Ec.
    - apply Z.eqb_eq in Ec. subst c.
      rewrite get_mode_table_codes by apply bayer_code_in.
      change (Z.of_nat (List.length supported_modes_10bit)) with 3.
      destruct (Z.leb_spec 3 i), (Z.ltb_spec i 3); try lia; reflexivity.
    - rewrite andb_false_r.
      destruct (Z.of_nat (List.length (get_mode_table c)) <=? i);
        reflexivity. }
  split; [|split; [|split]].
  4: { intros i c0 Hi3 e. subst e. unfold imx258_enum_mbus_code.
       cbn [mce_pad mce_index]. change (NUM_PADS <=? IMAGE_PAD) with false.
       change (IMAGE_PAD =? IMAGE_PAD) with true. cbv iota.
       change (Z.of_nat (List.length codes) / 4 <=? 0) with false. cbv iota.
       cbn [snd mce_code]. rewrite get_format_code_flips.
       rewrite Himg by lia. rewrite Z.eqb_refl.
       destruct (Z.ltb_spec i 3); [reflexivity|lia]. }
  all: subst p; destruct fse as [i pd c w1 w2 h1 h2];
    cbn [fse_pad fse_index fse_code] in *.
  all: unfold imx258_enum_frame_size; cbn [fse_pad fse_index fse_code];
    rewrite get_format_code_flips;
    unfold NUM_PADS, IMAGE_PAD, METADATA_PAD, EINVAL.
  all: destruct (Z.leb_spec 2 pd);
    [cbn [fst snd];
     try (split; [intros H'; discriminate H'|intros [[? _]|[? _]]; lia]);
     try reflexivity; try (intros H'; discriminate H')|].
  all: destruct (Z.eqb_spec pd 0) as [->|Hpd].
  all: try (destruct (c =? bayer_code d) eqn:Ec;
    [apply Z.eqb_eq in Ec; subst c;
     rewrite get_mode_table_codes by apply bayer_code_in;
     change (Z.of_nat (List.length supported_modes_10bit)) with 3;
     destruct (Z.leb_spec 3 i)
    |apply Z.eqb_neq in Ec;
     destruct (Z.of_nat (List.length (get_mode_table c)) <=? i)]);
    cbn [negb fst snd].
  all: try (destruct (Z.eqb_spec c MEDIA_BUS_FMT_SENSOR_DATA) as [->|Hc];
            destruct (Z.ltb_spec 0 i); cbn [negb orb fst snd]).
  all: try reflexivity; try (intros H'; discriminate H');
    try (intros H'; exfalso; apply H'; reflexivity).
  all: try (split; [intros H'; try discriminate H'|intros H']).
  all: try (destruct H' as [[? [? ?]]|[? [? ?]]]; try lia; try discriminate;
            try contradiction; try reflexivity; fail).
  all: try (left; repeat split; try reflexivity; lia).
  all: try (right; repeat split; try reflexivity; lia).
  - intros _. do 2 eexists. split; [reflexivity|].
    assert (Hk : i = 0 \/ i = 1 \/ i = 2) by lia.
    destruct Hk as [-> | [-> | ->]]; eexists; repeat split; reflexivity.
  - intros _. do 2 eexists. split; [reflexivity|].
    destruct (Z.eqb_spec pd 0); [contradiction|]. split; reflexivity.
Qed.

Lemma enum_frame_size_cases_witness :
  let d := probe_state no_fault in
  let fse := mk_fse 1 0 MEDIA_BUS_FMT_SRGGB10_1X10 0 0 0 0 in
  let p := imx258_enum_frame_size d fse in
  (fst p = 0 <->
   (fse_pad fse = IMAGE_PAD /\ fse_index fse < 3 /\
    fse_code fse = bayer_code d) \/
   (fse_pad fse = METADATA_PAD /\ fse_index fse = 0 /\
    fse_code fse = MEDIA_BUS_FMT_SENSOR_DATA)) /\
  (fst p <> 0 -> p = (- EINVAL, fse)) /\
  (fst p = 0 ->
   exists w h,
     snd p = mk_fse (fse_index fse) (fse_pad fse) (fse_code fse) w w h h /\
     if fse_pad fse =? IMAGE_PAD
     then exists m,
            nth_error supported_modes_10bit (Z.to_nat (fse_index fse)) =
              Some m /\ w = width m /\ h = height m
     else w = IMX258_EMBEDDED_LINE_WIDTH /\ h = IMX258_NUM_EMBEDDED_LINES) /\
  (forall i c0, 0 <= i < 3 ->
     let e := snd (imx258_enum_mbus_code d (mk_code_enum IMAGE_PAD 0 c0)) in
     fst (imx258_enum_frame_size d
            (mk_fse i IMAGE_PAD (mce_code e) 0 0 0 0)) = 0).
Proof.
  apply (enum_frame_size_cases (probe_state no_fault)
           (mk_fse 1 0 MEDIA_BUS_FMT_SRGGB10_1X10 0 0 0 0)); simpl; lia.
Defined.

(** *** Selection rectangles *)

Lemma supported_crops_inside (m : imx258_mode) :
  In m supported_modes_10bit -> rect_inside (crop m) pixel_array.
Proof.
  intros [<- | [<- | [<- | []]]]; unfold rect_inside;
    repeat split; vm_compute; intros H; discriminate H.
Qed.

(** X7: the selection query knows four targets and answers [-EINVAL],
    leaving the rectangle alone, for any other.  The active crop is the
    crop rectangle of the current mode, which for every supported mode
    lies within the crop bounds; the try crop is the one stored for the
    pad; bounds and default are the pixel array, which is the native
    size.  A crop query whose [which] is neither try nor active
    dereferences a null rectangle. *)
Theorem get_selection_rectangles (d : imx258) (cfg : pad_configs)
  (sel : v4l2_subdev_selection) :
  In (mode d) supported_modes_10bit ->
  let t := sel_target sel in
  let known := t = V4L2_SEL_TGT_CROP \/ t = V4L2_SEL_TGT_NATIVE_SIZE \/
               t = V4L2_SEL_TGT_CROP_DEFAULT \/ t = V4L2_SEL_TGT_CROP_BOUNDS in
  (~ known -> imx258_get_selection d cfg sel = Some (- EINVAL, sel)) /\
  (t = V4L2_SEL_TGT_CROP ->
   (sel_which sel = V4L2_SUBDEV_FORMAT_ACTIVE ->
    imx258_get_selection d cfg sel = Some (0, set_sel_r (crop (mode d)) sel) /\
    rect_inside (crop (mode d)) pixel_array) /\
   (sel_which sel = V4L2_SUBDEV_FORMAT_TRY ->
    imx258_get_selection d cfg sel =
      Some (0, set_sel_r (try_crop (cfg (sel_pad sel))) sel)) /\
   (sel_which sel <> V4L2_SUBDEV_FORMAT_ACTIVE ->
    sel_which sel <> V4L2_SUBDEV_FORMAT_TRY ->
    imx258_get_selection d cfg sel = None)) /\
  (t = V4L2_SEL_TGT_CROP_DEFAULT \/ t = V4L2_SEL_TGT_CROP_BOUNDS ->
   imx258_get_selection d cfg sel = Some (0, set_sel_r pixel_array sel)) /\
  (t = V4L2_SEL_TGT_NATIVE_SIZE ->
   imx258_get_selection d cfg sel = Some (0, set_sel_r native_size sel)) /\
  rect_inside pixel_array native_size.
Proof.
  intros Hm t known. subst known t.
  unfold imx258_get_selection, __imx258_get_pad_crop.
  unfold V4L2_SEL_TGT_CROP, V4L2_SEL_TGT_NATIVE_SIZE,
    V4L2_SEL_TGT_CROP_DEFAULT, V4L2_SEL_TGT_CROP_BOUNDS,
    V4L2_SUBDEV_FORMAT_ACTIVE, V4L2_SUBDEV_FORMAT_TRY.
  split; [|split; [|split; [|split]]].
  - intros Hk.
    destruct (Z.eqb_spec (sel_target sel) 0); [exfalso; auto|].
    destruct (Z.eqb_spec (sel_target sel) 3); [exfalso; auto|].
    destruct (Z.eqb_spec (sel_target sel) 1); [exfalso; auto|].
    destruct (Z.eqb_spec (sel_target sel) 2); [exfalso; auto 6|].
    reflexivity.
  - intros ->. cbn [Z.eqb]. split; [|split].
    + intros ->. split; [reflexivity|apply supported_crops_inside, Hm].
    + intros ->. reflexivity.
    + intros Ha Ht.
      destruct (Z.eqb_spec (sel_which sel) 0); [contradiction|].
      destruct (Z.eqb_spec (sel_which sel) 1); [contradiction|].
      reflexivity.
  - intros [-> | ->]; reflexivity.
  - intros ->. reflexivity.
  - unfold rect_inside. repeat split; vm_compute; intros H; discriminate H.
Qed.

Lemma get_selection_rectangles_witness :
  let d := probe_state no_fault in
  let cfg := fun _ : Z => mk_pad_config (mk_framefmt 0 0 0 0 0 0 0 0)
                                        (mk_rect 0 0 0 0) in
  let sel := mk_selection V4L2_SUBDEV_FORMAT_ACTIVE 0 V4L2_SEL_TGT_CROP
                          (mk_rect 0 0 0 0) in
  let t := sel_target sel in
  let known := t = V4L2_SEL_TGT_CROP \/ t = V4L2_SEL_TGT_NATIVE_SIZE \/
               t = V4L2_SEL_TGT_CROP_DEFAULT \/ t = V4L2_SEL_TGT_CROP_BOUNDS in
  (~ known -> imx258_get_selection d cfg sel = Some (- EINVAL, sel)) /\
  (t = V4L2_SEL_TGT_CROP ->
   (sel_which sel = V4L2_SUBDEV_FORMAT_ACTIVE ->
    imx258_get_selection d cfg sel = Some (0, set_sel_r (crop (mode d)) sel) /\
    rect_inside (crop (mode d)) pixel_array) /\
   (sel_which sel = V4L2_SUBDEV_FORMAT_TRY ->
    imx258_get_selection d cfg sel =
      Some (0, set_sel_r (try_crop (cfg (sel_pad sel))) sel)) /\
   (sel_which sel <> V4L2_SUBDEV_FORMAT_ACTIVE ->
    sel_which sel <> V4L2_SUBDEV_FORMAT_TRY ->
    imx258_get_selection d cfg sel = None)) /\
  (t = V4L2_SEL_TGT_CROP_DEFAULT \/ t = V4L2_SEL_TGT_CROP_BOUNDS ->
   imx258_get_selection d cfg sel = Some (0, set_sel_r pixel_array sel)) /\
  (t = V4L2_SEL_TGT_NATIVE_SIZE ->
   imx258_get_selection d cfg sel = Some (0, set_sel_r native_size sel)) /\
  rect_inside pixel_array native_size.
Proof.
  apply (get_selection_rectangles (probe_state no_fault)
           (fun _ : Z => mk_pad_config (mk_framefmt 0 0 0 0 0 0 0 0)
                                       (mk_rect 0 0 0 0))
           (mk_selection V4L2_SUBDEV_FORMAT_ACTIVE 0 V4L2_SEL_TGT_CROP
                         (mk_rect 0 0 0 0))).
  simpl. auto.
Defined.

(** *** Opening a file handle *)

(** X11: opening the sub-device always succeeds and leaves a try state
    that the other pad operations accept: the image pad holds the size of
    the first mode with the Bayer order of the flips in force, which the
    frame-size enumeration lists at index 0; the metadata pad holds the
    one embedded line format, which the enumeration lists as well; the
    try crop of the image pad is the pixel array, as the selection query
    reports.  Only width, height, code and field of the try formats are
    written; the try state of any other pad is left alone. *)
Theorem open_try_state_valid (d : imx258) (cfg : pad_configs)
  (r0 : v4l2_rect) :
  let cfg' := snd (imx258_open d cfg) in
  let ti := try_fmt (cfg' IMAGE_PAD) in
  let tm := try_fmt (cfg' METADATA_PAD) in
  let ei := imx258_enum_frame_size d
              (mk_fse 0 IMAGE_PAD (ff_code ti) 0 0 0 0) in
  let em := imx258_enum_frame_size d
              (mk_fse 0 METADATA_PAD (ff_code tm) 0 0 0 0) in
  fst (imx258_open d cfg) = 0 /\
  ti = set_ff_geometry 4208 3120 (bayer_code d) V4L2_FIELD_NONE
         (try_fmt (cfg IMAGE_PAD)) /\
  tm = set_ff_geometry 16384 1 MEDIA_BUS_FMT_SENSOR_DATA V4L2_FIELD_NONE
         (try_fmt (cfg METADATA_PAD)) /\
  (fst ei = 0 /\ min_width (snd ei) = ff_width ti /\
   min_height (snd ei) = ff_height ti) /\
  (fst em = 0 /\ min_width (snd em) = ff_width tm /\
   min_height (snd em) = ff_height tm) /\
  imx258_get_selection d cfg'
    (mk_selection V4L2_SUBDEV_FORMAT_TRY IMAGE_PAD V4L2_SEL_TGT_CROP r0) =
    Some (0, mk_selection V4L2_SUBDEV_FORMAT_TRY IMAGE_PAD V4L2_SEL_TGT_CROP
               pixel_array) /\
  try_crop (cfg' METADATA_PAD) = try_crop (cfg METADATA_PAD) /\
  (forall q, q <> IMAGE_PAD -> q <> METADATA_PAD -> cfg' q = cfg q).
Proof.
  intros cfg' ti tm ei em.
  assert (Hti : ti = set_ff_geometry 4208 3120 (bayer_code d) V4L2_FIELD_NONE
                       (try_fmt (cfg IMAGE_PAD))).
  { subst ti cfg'. unfold imx258_open. cbn [snd].
    rewrite get_format_code_flips. reflexivity. }
  assert (Htm : tm = set_ff_geometry 16384 1 MEDIA_BUS_FMT_SENSOR_DATA
                       V4L2_FIELD_NONE (try_fmt (cfg METADATA_PAD)))
    by reflexivity.
  split; [reflexivity|]. split; [exact Hti|]. split; [exact Htm|].
  split; [|split; [|split; [|split]]].
  - subst ei. rewrite Hti. cbn [ff_code ff_width ff_height set_ff_geometry].
    unfold imx258_enum_frame_size. cbn [fse_pad fse_code fse_index].
    rewrite get_format_code_flips.
    rewrite get_mode_table_codes by apply bayer_code_in.
    change (NUM_PADS <=? IMAGE_PAD) with false.
    change (IMAGE_PAD =? IMAGE_PAD) with true.
    change (Z.of_nat (List.length supported_modes_10bit) <=? 0) with false.
    cbv iota. rewrite Z.eqb_refl. cbn [negb fst snd min_width min_height].
    repeat split; reflexivity.
  - subst em. rewrite Htm. repeat split; reflexivity.
  - reflexivity.
  - reflexivity.
  - intros q H1 H2. subst cfg'. unfold imx258_open, set_try_crop,
      set_try_format. cbn [snd].
    destruct (Z.eqb_spec q IMAGE_PAD); [contradiction|].
    destruct (Z.eqb_spec q METADATA_PAD); [contradiction|]. reflexivity.
Qed.

End PadOps.

Module PadFormat.
Import Soho KernelFacts SohoFacts SohoStream Deferred PadOps.

(** *** What a control set leaves alone *)

Section Keeps.

Context {B : Type} (f : imx258 -> B).
Hypothesis f_client : forall c d, f (set_client c d) = f d.
Hypothesis f_handler : forall h d, f (set_ctrl_handler h d) = f d.
Hypothesis f_shift : forall s d, f (set_long_exp_shift s d) = f d.
Hypothesis f_common : forall b d, f (set_common_regs_written b d) = f d.

Ltac keepf :=
  lazymatch goal with
  | |- preserves _ (ret _) => apply preserves_ret
  | |- preserves _ (gets _) => apply preserves_gets
  | |- preserves _ (on_client _) => apply preserves_on_client; exact f_client
  | |- preserves _ (modify _) =>
      apply preserves_modify; intros ?;
      first [ apply f_handler | apply f_shift | apply f_common ]
  | |- preserves _ (imx258_write_reg _ _ _) =>
      apply preserves_write_reg; exact f_client
  | |- preserves _ (if _ then _ else _) => apply preserves_if
  | |- preserves _ (bind _ _) => apply preserves_bind; [ | intros ? ]
  end.

Lemma set_frame_length_keeps (v : Z) : preserves f (imx258_set_frame_length v).
Proof.
  unfold imx258_set_frame_length. keepf; [keepf|]. keepf; [keepf|].
  match goal with
  | |- context [frame_length_loop ?v ?s] =>
      destruct (frame_length_loop v s) as [v' s']
  end.
  repeat keepf.
Qed.

Lemma set_ctrl_keeps (ctrl : v4l2_ctrl) : preserves f (imx258_set_ctrl ctrl).
Proof.
  unfold imx258_set_ctrl. keepf.
  - keepf; [|keepf]. unfold imx258_adjust_exposure_range. keepf.
  - keepf; [keepf|]. keepf; [keepf|]. keepf.
    + destruct (id ctrl); repeat keepf; apply set_frame_length_keeps.
    + keepf; [|keepf]. unfold pm_runtime_put. repeat keepf.
      unfold imx258_power_off. repeat keepf.
Qed.

End Keeps.

(** *** Framing limits *)

Lemma s_ctrl_keeps {B : Type} (f : imx258 -> B) (i : cid) (v : Z) :
  (forall d, f (set_ctrl_handler (update_ctrl i (set_val v) (ctrl_handler d))
                                 d) = f d) ->
  (forall c, preserves f (imx258_set_ctrl c)) ->
  preserves f (set_control i v).
Proof.
  intros Hh Hs d. unfold set_control, v4l2_ctrl_s_ctrl.
  destruct (find_ctrl i (ctrl_handler d)); [|reflexivity].
  rewrite Hs. apply Hh.
Qed.

(** Every supported mode has frame lengths for its minimum and default
    frame intervals, and the default leaves a vertical blanking that the
    VBLANK control can hold. *)
Lemma supported_frame_lengths (m : imx258_mode) :
  In m supported_modes_10bit ->
  exists a b,
    imx258_get_frame_length m (timeperframe_min m) = Some a /\
    imx258_get_frame_length m (timeperframe_default m) = Some b /\
    0 <= height m <= b /\ b <= IMX258_FRAME_LENGTH_MAX /\
    0 <= line_length_pix m - width m < 2 ^ 32.
Proof.
  intros [<- | [<- | [<- | []]]]; vm_compute;
    do 2 eexists; repeat split; try reflexivity; intros H; discriminate H.
Qed.

Lemma framing_limits_run (d : imx258) (fl_min fl : Z) :
  imx258_get_frame_length (mode d) (timeperframe_min (mode d)) = Some fl_min ->
  imx258_get_frame_length (mode d) (timeperframe_default (mode d)) = Some fl ->
  imx258_set_framing_limits d =
  let m := mode d in
  let d1 := set_long_exp_shift 0 d in
  let d2 := snd (set_control V4L2_CID_VBLANK (s32 (u32 (fl - height m))) d1) in
  let hb := u32 (line_length_pix m - width m) in
  (Some tt,
   set_ctrl_handler
     (update_ctrl V4L2_CID_HBLANK (__v4l2_ctrl_modify_range hb hb 1 hb)
                  (ctrl_handler d2)) d2).
Proof.
  intros H1 H2. unfold imx258_set_framing_limits, bind, gets.
  rewrite H1, H2. unfold bind, modify, ret, set_control.
  change (mode (set_long_exp_shift 0 d)) with (mode d).
  destruct (v4l2_ctrl_s_ctrl ctrl_handler set_ctrl_handler imx258_set_ctrl
              V4L2_CID_VBLANK (s32 (u32 (fl - height (mode d))))
              (set_long_exp_shift 0 d)) as [r d2].
  reflexivity.
Qed.

(** Setting the framing limits changes controls, the long-exposure shift
    and, on a powered device, the bus; it leaves alone whatever does not
    depend on them. *)
Lemma framing_limits_keeps {B : Type} (f : imx258 -> B) (d : imx258) :
  (forall c d, f (set_client c d) = f d) ->
  (forall h d, f (set_ctrl_handler h d) = f d) ->
  (forall s d, f (set_long_exp_shift s d) = f d) ->
  (forall b d, f (set_common_regs_written b d) = f d) ->
  In (mode d) supported_modes_10bit ->
  fst (imx258_set_framing_limits d) = Some tt /\
  f (snd (imx258_set_framing_limits d)) = f d.
Proof.
  intros Hc Hh Hs Hw Hm.
  destruct (supported_frame_lengths _ Hm) as (a & b & Ha & Hb & _).
  rewrite (framing_limits_run d a b Ha Hb). cbv zeta. cbn [fst snd].
  split; [reflexivity|]. rewrite Hh.
  rewrite (s_ctrl_keeps f); [apply Hs| intros; apply Hh|].
  intros c. apply set_ctrl_keeps; assumption.
Qed.

(** The flip controls are not touched by the framing limits. *)
Lemma framing_limits_flip (i : cid) (d : imx258) :
  i = V4L2_CID_HFLIP \/ i = V4L2_CID_VFLIP ->
  In (mode d) supported_modes_10bit ->
  find_ctrl i (ctrl_handler (snd (imx258_set_framing_limits d))) =
  find_ctrl i (ctrl_handler d).
Proof.
  intros Hi Hm.
  destruct (supported_frame_lengths _ Hm) as (a & b & Ha & Hb & _).
  rewrite (framing_limits_run d a b Ha Hb). cbv zeta. cbn [snd].
  cbn [ctrl_handler set_ctrl_handler].
  rewrite find_update_other;
    [|intros; apply modify_range_id|destruct Hi; subst; discriminate].
  rewrite (s_ctrl_keeps (fun d => find_ctrl i (ctrl_handler d))).
  - reflexivity.
  - intros d0. cbn [ctrl_handler set_ctrl_handler].
    apply find_update_other;
      [intros; apply set_val_id|destruct Hi; subst; discriminate].
  - intros c. apply ctrl_kept_set_ctrl. destruct Hi; subst; discriminate.
Qed.

Lemma bayer_code_flips (d d' : imx258) :
  find_ctrl V4L2_CID_HFLIP (ctrl_handler d') =
    find_ctrl V4L2_CID_HFLIP (ctrl_handler d) ->
  find_ctrl V4L2_CID_VFLIP (ctrl_handler d') =
    find_ctrl V4L2_CID_VFLIP (ctrl_handler d) ->
  bayer_code d' = bayer_code d.
Proof.
  intros Hh Hv. unfold bayer_code, vflip, hflip, ctrl_of.
  rewrite Hh, Hv. reflexivity.
Qed.

(** *** Try and active formats *)

Section Format.

Variable ycbcr_enc_default : Z -> Z.
Variable quantization_default : bool -> Z -> Z -> Z.
Variable xfer_func_default : Z -> Z.
Variable nearest : list imx258_mode -> Z -> Z -> option imx258_mode.

Let get_fmt :=
  imx258_get_pad_format ycbcr_enc_default quantization_default
                        xfer_func_default.
Let set_fmt :=
  imx258_set_pad_format ycbcr_enc_default quantization_default
                        xfer_func_default nearest.

(** The image format of mode [m] under the flips of [d]. *)
Let image_format (m : imx258_mode) (d : imx258) : v4l2_mbus_framefmt :=
  mk_framefmt (width m) (height m) (bayer_code d) V4L2_FIELD_NONE
    V4L2_COLORSPACE_SRGB
    (ycbcr_enc_default V4L2_COLORSPACE_SRGB)
    (quantization_default true V4L2_COLORSPACE_SRGB
       (ycbcr_enc_default V4L2_COLORSPACE_SRGB))
    (xfer_func_default V4L2_COLORSPACE_SRGB).

Lemma set_image_format_eq (cfg : pad_configs) (fmt : v4l2_subdev_format)
  (d : imx258) :
  pad fmt = IMAGE_PAD ->
  set_fmt cfg fmt d =
  match nearest supported_modes_10bit (ff_width (format fmt))
                (ff_height (format fmt)) with
  | None => (None, d)
  | Some m =>
      let fmt' := set_format (image_format m d) fmt in
      if which fmt =? V4L2_SUBDEV_FORMAT_TRY
      then (Some (0, set_try_format IMAGE_PAD (image_format m d) cfg, fmt'), d)
      else
        let d1 := set_fmt_code (bayer_code d) (set_mode m d) in
        match fst (imx258_set_framing_limits d1) with
        | None => (None, snd (imx258_set_framing_limits d1))
        | Some _ => (Some (0, cfg, fmt'), snd (imx258_set_framing_limits d1))
        end
  end.
Proof.
  intros Hp. unfold set_fmt, imx258_set_pad_format. rewrite Hp.
  change (NUM_PADS <=? IMAGE_PAD) with false.
  change (IMAGE_PAD =? IMAGE_PAD) with true. cbv iota.
  unfold bind, gets. cbn [format set_format ff_code set_ff_code ff_width
                          ff_height].
  rewrite get_format_code_flips.
  rewrite get_mode_table_codes by apply bayer_code_in.
  destruct (nearest supported_modes_10bit (ff_width (format fmt))
              (ff_height (format fmt))) as [m|]; [|reflexivity].
  unfold imx258_update_image_pad_format, imx258_reset_colorspace.
  cbn [format set_format which pad ff_code set_ff_geometry ff_width
       ff_height ff_field].
  change (ff_code (set_ff_code (bayer_code d) (format fmt)))
    with (bayer_code d).
  destruct (which fmt =? V4L2_SUBDEV_FORMAT_TRY).
  - unfold ret. rewrite Hp. reflexivity.
  - unfold bind, modify, ret.
    destruct (imx258_set_framing_limits
                (set_fmt_code (bayer_code d) (set_mode m d))) as [[[]|] d2];
      reflexivity.
Qed.

(** X8: a try request never changes the device.  On the image pad it
    stores and returns the size of the mode the nearest-size search
    picks, with the Bayer order of the flips in force, a progressive
    field and the sRGB defaults, whatever code was asked for; reading the
    try format back returns exactly that and leaves the stored state as
    it is.  On the metadata pad the requested format is stored as given,
    unchecked, and reading it back corrects only the code.  A pad number
    beyond the two pads is rejected with [-EINVAL]. *)
Theorem try_format_round_trip (cfg : pad_configs) (fmt : v4l2_subdev_format)
  (d : imx258) :
  which fmt = V4L2_SUBDEV_FORMAT_TRY ->
  let p := set_fmt cfg fmt d in
  snd p = d /\
  (pad fmt = IMAGE_PAD ->
   match nearest supported_modes_10bit (ff_width (format fmt))
                 (ff_height (format fmt)) with
   | None => fst p = None
   | Some m =>
       let cfg' := set_try_format IMAGE_PAD (image_format m d) cfg in
       fst p = Some (0, cfg', set_format (image_format m d) fmt) /\
       forall fmt0,
         which fmt0 = V4L2_SUBDEV_FORMAT_TRY -> pad fmt0 = IMAGE_PAD ->
         exists cfg'',
           get_fmt d cfg' fmt0 =
             (0, cfg'', set_format (image_format m d) fmt0) /\
           forall q, cfg'' q = cfg' q
   end) /\
  (pad fmt = METADATA_PAD ->
   let cfg' := set_try_format METADATA_PAD (format fmt) cfg in
   fst p = Some (0, cfg', fmt) /\
   forall fmt0,
     which fmt0 = V4L2_SUBDEV_FORMAT_TRY -> pad fmt0 = METADATA_PAD ->
     exists cfg'',
       get_fmt d cfg' fmt0 =
         (0, cfg'',
          set_format (set_ff_code MEDIA_BUS_FMT_SENSOR_DATA (format fmt))
                     fmt0)) /\
  (NUM_PADS <= pad fmt -> fst p = Some (- EINVAL, cfg, fmt)).
Proof.
  intros Hw p. subst p. split; [|split; [|split]].
  - unfold set_fmt, imx258_set_pad_format.
    destruct (NUM_PADS <=? pad fmt); [reflexivity|].
    destruct (pad fmt =? IMAGE_PAD).
    + unfold bind, gets.
      cbn [format set_format ff_code set_ff_code ff_width ff_height].
      match goal with
      | |- context [nearest ?l ?a ?b] => destruct (nearest l a b)
      end; [|reflexivity].
      cbn [which imx258_update_image_pad_format set_format].
      unfold imx258_update_image_pad_format. cbn [which set_format].
      rewrite Hw. reflexivity.
    + rewrite Hw. reflexivity.
  - intros Hp. rewrite set_image_format_eq by exact Hp. rewrite Hw.
    change (V4L2_SUBDEV_FORMAT_TRY =? V4L2_SUBDEV_FORMAT_TRY) with true.
    destruct (nearest supported_modes_10bit (ff_width (format fmt))
                (ff_height (format fmt))) as [m|]; [|reflexivity].
    cbv zeta. cbn [fst]. split; [reflexivity|].
    intros fmt0 Hw0 Hp0. unfold get_fmt, imx258_get_pad_format.
    rewrite Hw0, Hp0.
    change (NUM_PADS <=? IMAGE_PAD) with false.
    change (V4L2_SUBDEV_FORMAT_TRY =? V4L2_SUBDEV_FORMAT_TRY) with true.
    change (IMAGE_PAD =? IMAGE_PAD) with true. cbv iota zeta.
    rewrite get_format_code_flips. eexists. split; [reflexivity|].
    intros q. unfold set_try_format.
    destruct (q =? IMAGE_PAD); reflexivity.
  - intros Hp. unfold set_fmt, imx258_set_pad_format. rewrite Hp, Hw.
    cbv zeta. split; [reflexivity|].
    intros fmt0 Hw0 Hp0. unfold get_fmt, imx258_get_pad_format.
    rewrite Hw0, Hp0. eexists. reflexivity.
  - intros Hp. unfold set_fmt, imx258_set_pad_format.
    destruct (Z.leb_spec NUM_PADS (pad fmt)); [reflexivity|lia].
Qed.

(** X9: committing a format on the image pad always succeeds when the
    nearest-size search answers a supported mode: the search is never
    handed an empty mode list, whatever code was asked for.  The mode
    becomes the current mode, the Bayer order of the flips in force
    becomes the current code, the flips, the streaming state and the try
    state are left alone, and reading the active format back returns
    exactly the format the commit returned. *)
Theorem active_format_round_trip (cfg : pad_configs)
  (fmt : v4l2_subdev_format) (d : imx258) (m : imx258_mode) :
  pad fmt = IMAGE_PAD ->
  which fmt <> V4L2_SUBDEV_FORMAT_TRY ->
  nearest supported_modes_10bit (ff_width (format fmt))
          (ff_height (format fmt)) = Some m ->
  In m supported_modes_10bit ->
  let p := set_fmt cfg fmt d in
  fst p = Some (0, cfg, set_format (image_format m d) fmt) /\
  mode (snd p) = m /\
  fmt_code (snd p) = bayer_code d /\
  bayer_code (snd p) = bayer_code d /\
  streaming (snd p) = streaming d /\
  forall fmt0,
    pad fmt0 = IMAGE_PAD -> which fmt0 <> V4L2_SUBDEV_FORMAT_TRY ->
    get_fmt (snd p) cfg fmt0 = (0, cfg, set_format (image_format m d) fmt0).
Proof.
  intros Hp Hw Hn Hm p. subst p.
  rewrite set_image_format_eq by exact Hp. rewrite Hn. cbv zeta.
  destruct (Z.eqb_spec (which fmt) V4L2_SUBDEV_FORMAT_TRY) as [E|_];
    [contradiction|].
  set (d1 := set_fmt_code (bayer_code d) (set_mode m d)).
  assert (Hm1 : In (mode d1) supported_modes_10bit) by exact Hm.
  destruct (framing_limits_keeps mode d1) as [Hr Hmode]; auto.
  destruct (framing_limits_keeps fmt_code d1) as [_ Hcode]; auto.
  destruct (framing_limits_keeps streaming d1) as [_ Hst]; auto.
  pose proof (framing_limits_flip V4L2_CID_HFLIP d1 (or_introl eq_refl) Hm1)
    as Hh.
  pose proof (framing_limits_flip V4L2_CID_VFLIP d1 (or_intror eq_refl) Hm1)
    as Hv.
  pose proof (bayer_code_flips d1 _ Hh Hv) as Hb.
  change (bayer_code d1) with (bayer_code d) in Hb.
  rewrite Hr. cbn [fst snd].
  split; [reflexivity|]. split; [exact Hmode|]. split; [exact Hcode|].
  split; [exact Hb|]. split; [exact Hst|].
  intros fmt0 Hp0 Hw0. unfold get_fmt, imx258_get_pad_format.
  rewrite Hp0. change (NUM_PADS <=? IMAGE_PAD) with false.
  destruct (Z.eqb_spec (which fmt0) V4L2_SUBDEV_FORMAT_TRY) as [E|_];
    [contradiction|].
  change (IMAGE_PAD =? IMAGE_PAD) with true. cbv iota zeta.
  rewrite get_format_code_flips, Hb, Hmode. reflexivity.
Qed.



End Format.

(** Instances, with the colour-space macros as constants and a
    nearest-size search that picks a fixed entry of the list. *)
Lemma try_format_round_trip_witness :
  let y := fun _ : Z => 1 in
  let q := fun (_ : bool) (_ _ : Z) => 1 in
  let x := fun _ : Z => 2 in
  let nearest := fun (l : list imx258_mode) (_ _ : Z) => hd_error l in
  let cfg := fun _ : Z => mk_pad_config (mk_framefmt 0 0 0 0 0 0 0 0)
                                        (mk_rect 0 0 0 0) in
  let fmt := mk_subdev_format V4L2_SUBDEV_FORMAT_TRY IMAGE_PAD
               (mk_framefmt 640 480 0 0 0 0 0 0) in
  let d := probe_state no_fault in
  snd (imx258_set_pad_format y q x nearest cfg fmt d) = d.
Proof.
  intros y q x nearest cfg fmt d.
  apply (try_format_round_trip y q x nearest cfg fmt d). reflexivity.
Defined.

Lemma active_format_round_trip_witness :
  let y := fun _ : Z => 1 in
  let q := fun (_ : bool) (_ _ : Z) => 1 in
  let x := fun _ : Z => 2 in
  let nearest := fun (l : list imx258_mode) (_ _ : Z) => nth_error l 1 in
  let cfg := fun _ : Z => mk_pad_config (mk_framefmt 0 0 0 0 0 0 0 0)
                                        (mk_rect 0 0 0 0) in
  let fmt := mk_subdev_format V4L2_SUBDEV_FORMAT_ACTIVE IMAGE_PAD
               (mk_framefmt 2000 1500 0 0 0 0 0 0) in
  let d := probe_state no_fault in
  mode (snd (imx258_set_pad_format y q x nearest cfg fmt d)) =
  nth 1 supported_modes_10bit no_mode.
Proof.
  intros y q x nearest cfg fmt d.
  apply (active_format_round_trip y q x nearest cfg fmt d
           (nth 1 supported_modes_10bit no_mode)).
  - reflexivity.
  - discriminate.
  - reflexivity.
  - simpl. auto.
Defined.


End PadFormat.

Module StreamPower.
Import Soho KernelFacts SohoFacts SohoStream Deferred.

(** *** The power state across register traffic *)

Lemma power_obs_write_reg (reg len v : Z) :
  0 <= len <= 4 -> preserves power_obs (imx258_write_reg reg len v).
Proof.
  intros Hlen d. rewrite imx258_write_reg_eq by exact Hlen. reflexivity.
Qed.

Ltac keep_pw :=
  lazymatch goal with
  | |- preserves _ (ret _) => apply preserves_ret
  | |- preserves _ (gets _) => apply preserves_gets
  | |- preserves _ (on_client (dev_err _)) => intros ?; reflexivity
  | |- preserves _ (modify _) =>
      apply preserves_modify; intros ?; reflexivity
  | |- preserves _ (imx258_write_reg _ _ _) =>
      apply power_obs_write_reg;
      unfold IMX258_REG_VALUE_16BIT, IMX258_REG_VALUE_08BIT; lia
  | |- preserves _ (if _ then _ else _) => apply preserves_if
  | |- preserves _ (bind _ _) => apply preserves_bind; [ | intros ? ]
  end.

Lemma power_obs_set_frame_length (v : Z) :
  preserves power_obs (imx258_set_frame_length v).
Proof.
  unfold imx258_set_frame_length. keep_pw; [keep_pw|]. keep_pw; [keep_pw|].
  match goal with
  | |- context [frame_length_loop ?v ?s] =>
      destruct (frame_length_loop v s) as [v' s']
  end.
  repeat keep_pw.
Qed.

(** Dropping a reference that is not the last one does nothing else. *)
Lemma pm_runtime_put_held_eq (d : imx258) (u : nat) :
  pm_usage (client d) = S u -> u <> 0%nat ->
  pm_runtime_put d =
  (tt, set_client (set_pm u (pm_active (client d)) (client d)) d).
Proof.
  intros Hu Hne. destruct d as [[f x k us a r] fc h m st w sh].
  cbn in Hu. subst us.
  unfold pm_runtime_put, pm_runtime_put_noidle, bind, on_client, modify,
    gets, ret.
  cbn [fst snd client set_client pm_usage pm_active set_pm Nat.pred].
  destruct (Nat.eqb u 0) eqn:E; [apply Nat.eqb_eq in E; contradiction|].
  reflexivity.
Qed.

(** The reference a control set takes is dropped again without powering
    the device off: the rails never move during a control set. *)
Lemma power_obs_bracket (body : M imx258 Z) :
  preserves power_obs body ->
  preserves power_obs
    (u <- on_client pm_runtime_get_if_in_use ;;
     if u =? 0 then ret 0
     else r <- body ;; pm_runtime_put ;;; ret r).
Proof.
  intros Hbody d. unfold bind at 1, on_client.
  destruct (pm_in_use (client d)) eqn:Huse.
  - rewrite get_if_in_use_active by exact Huse.
    change (1 =? 0) with false. cbv beta iota.
    set (d1 := set_client _ d).
    unfold bind at 1. specialize (Hbody d1).
    destruct (body d1) as [r d2]. cbn [snd] in Hbody.
    unfold power_obs in Hbody. unfold d1 in Hbody.
    cbn [client set_client pm_usage pm_active set_pm rails] in Hbody.
    injection Hbody as Hu Ha Hr.
    unfold pm_in_use in Huse. apply andb_prop in Huse as [Hact Hne].
    assert (Hne' : pm_usage (client d) <> 0%nat).
    { intros E. rewrite E in Hne. discriminate Hne. }
    unfold bind, ret.
    rewrite (pm_runtime_put_held_eq d2 _ Hu Hne').
    unfold power_obs. cbn [snd client set_client pm_usage pm_active set_pm
                           rails].
    rewrite Ha, Hr. reflexivity.
  - rewrite get_if_in_use_idle by exact Huse.
    change (0 =? 0) with true. cbv beta iota.
    destruct d as [[] ]; reflexivity.
Qed.

Lemma power_obs_set_ctrl (ctrl : v4l2_ctrl) :
  preserves power_obs (imx258_set_ctrl ctrl).
Proof.
  unfold imx258_set_ctrl. apply preserves_bind.
  - apply preserves_if; [|apply preserves_ret].
    unfold imx258_adjust_exposure_range. keep_pw.
  - intros _. apply power_obs_bracket.
    destruct (id ctrl); repeat keep_pw; apply power_obs_set_frame_length.
Qed.

(** *** What a stream start leaves alone *)

Section StartKeeps.

Context {B : Type} (f : imx258 -> B).
Hypothesis f_write : forall reg v, preserves f (imx258_write_reg reg 1 v).
Hypothesis f_log : forall msg, preserves f (on_client (dev_err msg)).
Hypothesis f_ctrl : forall c, preserves f (imx258_set_ctrl c).
Hypothesis f_common : forall b d, f (set_common_regs_written b d) = f d.

Lemma write_regs_loop_keeps (regs : list imx258_reg) :
  preserves f (write_regs_loop regs).
Proof.
  induction regs as [|x regs IH]; simpl.
  - apply preserves_ret.
  - apply preserves_bind; [apply f_write|]. intros r.
    apply preserves_if; [|exact IH].
    apply preserves_bind; [apply f_log|]. intros _. apply preserves_ret.
Qed.

Lemma replay_keeps (ids : list cid) :
  preserves f (ctrl_handler_replay ctrl_handler imx258_set_ctrl ids).
Proof.
  induction ids as [|i ids IH]; intros d.
  - reflexivity.
  - rewrite replay_cons.
    destruct (find_ctrl i (ctrl_handler d)) as [c|]; [|apply IH].
    destruct (has_flag V4L2_CTRL_FLAG_READ_ONLY c); [apply IH|].
    destruct (nonzero (fst (imx258_set_ctrl c d))); [apply f_ctrl|].
    rewrite IH. apply f_ctrl.
Qed.

Lemma control_commit_keeps : preserves f control_commit.
Proof.
  intros d. unfold control_commit, __v4l2_ctrl_handler_setup.
  apply replay_keeps.
Qed.

Lemma write_regs_keeps (regs : list imx258_reg) (len : Z) :
  preserves f (imx258_write_regs regs len).
Proof. unfold imx258_write_regs. apply write_regs_loop_keeps. Qed.

Ltac keep_start :=
  lazymatch goal with
  | |- preserves _ (ret _) => apply preserves_ret
  | |- preserves _ (gets _) => apply preserves_gets
  | |- preserves _ (on_client (dev_err _)) => apply f_log
  | |- preserves _ (modify _) => apply preserves_modify; intros ?; apply f_common
  | |- preserves _ (imx258_write_regs _ _) => apply write_regs_keeps
  | |- preserves _ (__v4l2_ctrl_handler_setup _ _) => apply control_commit_keeps
  | |- preserves _ (imx258_write_reg _ _ _) => apply f_write
  | |- preserves _ (if _ then _ else _) => apply preserves_if
  | |- preserves _ (bind _ _) => apply preserves_bind; [ | intros ? ]
  end.

Lemma start_streaming_keeps : preserves f imx258_start_streaming.
Proof. unfold imx258_start_streaming. repeat keep_start. Qed.

End StartKeeps.

Lemma start_streaming_power : preserves power_obs imx258_start_streaming.
Proof.
  apply start_streaming_keeps.
  - intros. apply power_obs_write_reg. lia.
  - intros msg d. reflexivity.
  - apply power_obs_set_ctrl.
  - reflexivity.
Qed.

Lemma start_streaming_streaming : preserves streaming imx258_start_streaming.
Proof.
  apply start_streaming_keeps.
  - intros. apply preserves_write_reg. reflexivity.
  - intros msg d. reflexivity.
  - intros c. apply PadFormat.set_ctrl_keeps; reflexivity.
  - reflexivity.
Qed.

Lemma start_streaming_flags (i : cid) :
  preserves (ctrl_flags i) imx258_start_streaming.
Proof.
  apply start_streaming_keeps.
  - intros. apply preserves_write_reg. reflexivity.
  - intros msg d. reflexivity.
  - intros c. apply flags_kept_set_ctrl.
  - reflexivity.
Qed.

(** *** Runtime-PM references *)

Lemma get_sync_usage (d : imx258) :
  pm_usage (client (snd (pm_runtime_get_sync d))) = S (pm_usage (client d)).
Proof.
  destruct d as [[f x k us a [so xo rg rr cr]] fc h m st w sh].
  unfold pm_runtime_get_sync, imx258_power_on, regulator_bulk_enable,
    clk_prepare_enable, regulator_bulk_disable, gpiod_set_value_cansleep,
    dev_err, bind, on_client, modify, gets, ret, nonzero.
  destruct a; [reflexivity|]. simpl.
  destruct (rr =? 0) eqn:E1; destruct (cr =? 0) eqn:E2;
    do 3 (simpl; rewrite ?E1, ?E2); reflexivity.
Qed.

Lemma put_usage (d : imx258) :
  pm_usage (client (snd (pm_runtime_put d))) = Nat.pred (pm_usage (client d)).
Proof.
  destruct d as [[f x k us a r] fc h m st w sh].
  unfold pm_runtime_put, pm_runtime_put_noidle, imx258_power_off,
    regulator_bulk_disable, clk_disable_unprepare, gpiod_set_value_cansleep,
    bind, on_client, modify, gets, ret.
  cbn [fst snd client set_client pm_usage pm_active set_pm].
  destruct (Nat.eqb (Nat.pred us) 0 && a); reflexivity.
Qed.

Lemma get_sync_streaming : preserves streaming pm_runtime_get_sync.
Proof.
  unfold pm_runtime_get_sync. repeat keep.
  unfold imx258_power_on. repeat keep.
Qed.

Lemma stop_streaming_power : preserves power_obs imx258_stop_streaming.
Proof.
  intros d. rewrite imx258_stop_streaming_eq. cbv zeta.
  destruct (next_ok (client d)); reflexivity.
Qed.

Lemma set_stream_noop (d : imx258) (enable : Z) :
  Z.b2z (streaming d) = enable -> imx258_set_stream enable d = (0, d).
Proof.
  intros <-. unfold imx258_set_stream, bind, gets.
  rewrite Z.eqb_refl. reflexivity.
Qed.

(** X12: stream control keeps the runtime-PM usage count in step with
    the streaming flag.  For [enable] 0 or 1 on a device whose streaming
    flag is backed by a reference, the count after the call exceeds the
    count before by one exactly when streaming was switched on, and falls
    short by one exactly when it was switched off: a start that fails on
    any path gives back the reference it took.  A call that fails leaves
    the streaming flag as it was; one that succeeds leaves it equal to
    [enable]. *)
Theorem set_stream_pm_balance (d : imx258) (enable : Z) :
  enable = 0 \/ enable = 1 ->
  (streaming d = true -> pm_usage (client d) <> 0%nat) ->
  let p := imx258_set_stream enable d in
  let b2n := fun b : bool => if b then 1%nat else 0%nat in
  (pm_usage (client (snd p)) + b2n (streaming d) =
   pm_usage (client d) + b2n (streaming (snd p)))%nat /\
  (streaming (snd p) = true -> pm_usage (client (snd p)) <> 0%nat) /\
  (fst p <> 0 -> streaming (snd p) = streaming d) /\
  (fst p = 0 -> streaming (snd p) = nonzero enable).
Proof.
  intros He Hinv p b2n. subst p.
  destruct (streaming d) eqn:Hs; destruct He as [-> | ->].
  - (* stop *)
    rewrite StreamStop.imx258_set_stream_stop_eq, Hs.
    destruct (set_stream_commit_run 0 0
                (snd (pm_runtime_put (snd (imx258_stop_streaming d)))))
      as (R & S & C).
    rewrite R, S, C, put_usage.
    pose proof (stop_streaming_power d) as Hp. unfold power_obs in Hp.
    injection Hp as Hu _ _. rewrite Hu.
    specialize (Hinv eq_refl). cbn [b2n nonzero Z.eqb negb].
    repeat split; try lia; try discriminate; try congruence.
  - (* already streaming *)
    rewrite set_stream_noop by (rewrite Hs; reflexivity). cbn [fst snd].
    rewrite Hs. repeat split; auto; try lia; congruence.
  - (* already stopped *)
    rewrite set_stream_noop by (rewrite Hs; reflexivity). cbn [fst snd].
    rewrite Hs. repeat split; auto; try lia; try discriminate.
  - (* start *)
    rewrite (imx258_set_stream_start_eq d 1 Hs) by lia. cbv zeta.
    pose proof (get_sync_usage d) as Hu0.
    pose proof (get_sync_streaming d) as Hs0.
    set (p0 := pm_runtime_get_sync d) in *.
    destruct (Z.ltb_spec (fst p0) 0) as [Hneg|Hpos].
    + cbn [fst snd]. unfold on_client, pm_runtime_put_noidle, modify.
      cbn [snd client set_client pm_usage set_pm streaming].
      rewrite Hu0, Hs0, Hs. cbn [b2n Nat.pred].
      repeat split; try lia; try discriminate.
    + pose proof (start_streaming_power (snd p0)) as Hp.
      unfold power_obs in Hp. injection Hp as Hu1 _ _.
      pose proof (start_streaming_streaming (snd p0)) as Hs1.
      set (q := imx258_start_streaming (snd p0)) in *.
      destruct (nonzero (fst q)) eqn:Hq.
      * cbn [fst snd]. rewrite put_usage, Hu1, Hu0.
        destruct (pm_runtime_put_quiet (snd q)) as (_ & _ & S2).
        rewrite S2, Hs1, Hs0, Hs. cbn [b2n Nat.pred].
        apply nonzero_true in Hq.
        repeat split; try lia; try discriminate; try contradiction.
      * destruct (set_stream_commit_run 1 (fst q) (snd q)) as (R & S & C).
        rewrite R, S, C, Hu1, Hu0. apply nonzero_false in Hq.
        cbn [b2n nonzero Z.eqb negb].
        repeat split; try lia; try contradiction.
Qed.

Lemma set_stream_pm_balance_witness :
  let d := probe_state (fault_at 125) in
  let p := imx258_set_stream 1 d in
  let b2n := fun b : bool => if b then 1%nat else 0%nat in
  (pm_usage (client (snd p)) + b2n (streaming d) =
   pm_usage (client d) + b2n (streaming (snd p)))%nat /\
  (streaming (snd p) = true -> pm_usage (client (snd p)) <> 0%nat) /\
  (fst p <> 0 -> streaming (snd p) = streaming d) /\
  (fst p = 0 -> streaming (snd p) = nonzero 1).
Proof.
  apply (set_stream_pm_balance (probe_state (fault_at 125)) 1).
  - right. reflexivity.
  - simpl. discriminate.
Defined.

(** *** Power across a stream start and stop *)

(** Powering up an idle device: either everything is on, or the call
    fails and leaves the rails off. *)
Lemma get_sync_idle (d : imx258) :
  pm_active (client d) = false -> rails_off (rails (client d)) ->
  let p := pm_runtime_get_sync d in
  let c' := client (snd p) in
  (fst p = 0 /\ pm_active c' = true /\ supplies_on (rails c') = true /\
   xclk_on (rails c') = true /\ reset_gpio (rails c') = 1) \/
  (fst p <> 0 /\ pm_active c' = false /\ rails_off (rails c')).
Proof.
  destruct d as [[f x k us a [so xo rg rr cr]] fc h m st w sh].
  unfold rails_off. cbn [client rails pm_active supplies_on xclk_on reset_gpio].
  intros -> (-> & -> & ->).
  unfold pm_runtime_get_sync, imx258_power_on, regulator_bulk_enable,
    clk_prepare_enable, regulator_bulk_disable, gpiod_set_value_cansleep,
    dev_err, bind, on_client, modify, gets, ret, nonzero.
  simpl.
  destruct (rr =? 0) eqn:E1; destruct (cr =? 0) eqn:E2;
    do 3 (simpl; rewrite ?E1, ?E2); simpl;
    try apply Z.eqb_neq in E1; try apply Z.eqb_neq in E2;
    first [ left; repeat split; reflexivity
          | right; repeat split; first [assumption|reflexivity] ].
Qed.

(** Dropping the last reference powers an active device off. *)
Lemma put_last (d : imx258) :
  pm_usage (client d) = 1%nat ->
  (pm_active (client d) = false -> rails_off (rails (client d))) ->
  let d' := snd (pm_runtime_put d) in
  pm_usage (client d') = 0%nat /\ pm_active (client d') = false /\
  rails_off (rails (client d')) /\
  (pm_active (client d) = true -> common_regs_written d' = false) /\
  mode d' = mode d /\ streaming d' = streaming d /\
  ctrl_handler d' = ctrl_handler d /\ xfers (client d') = xfers (client d).
Proof.
  destruct d as [[f x k us a [so xo rg rr cr]] fc h m st w sh].
  unfold rails_off. cbn [client rails pm_active pm_usage supplies_on xclk_on
                         reset_gpio].
  intros -> Hoff.
  unfold pm_runtime_put, pm_runtime_put_noidle, imx258_power_off,
    regulator_bulk_disable, clk_disable_unprepare, gpiod_set_value_cansleep,
    bind, on_client, modify, gets, ret.
  destruct a; simpl.
  - repeat split; reflexivity.
  - destruct (Hoff eq_refl) as (-> & -> & ->). repeat split; try reflexivity.
    intros H; discriminate H.
Qed.

(** X13: a stream start on an idle, powered-off device either succeeds
    and leaves the device streaming with one runtime-PM reference, or
    fails and leaves it as idle as before: not streaming, no reference
    held, inactive, supplies and clock off and the reset line low.  This
    holds wherever the failure occurs: in the regulators, in the clock,
    in a register table, in the control commit or in the final
    mode-select write.  When the platform answers 0 or a negative errno,
    a successful start leaves the supplies and the clock on and the reset
    line high. *)
Theorem start_power_outcome (d : imx258) (enable : Z) :
  streaming d = false -> enable <> 0 ->
  pm_usage (client d) = 0%nat -> pm_active (client d) = false ->
  rails_off (rails (client d)) ->
  let p := imx258_set_stream enable d in
  let c' := client (snd p) in
  (fst p <> 0 ->
   streaming (snd p) = false /\ pm_usage c' = 0%nat /\
   pm_active c' = false /\ rails_off (rails c')) /\
  (fst p = 0 ->
   streaming (snd p) = true /\ pm_usage c' = 1%nat /\
   (regulator_ret (rails (client d)) <= 0 ->
    clk_ret (rails (client d)) <= 0 ->
    pm_active c' = true /\ supplies_on (rails c') = true /\
    xclk_on (rails c') = true /\ reset_gpio (rails c') = 1)).
Proof.
  intros Hs He Hu Ha Hoff p c'. subst c' p.
  rewrite (imx258_set_stream_start_eq d enable Hs He). cbv zeta.
  pose proof (get_sync_usage d) as Hu0. rewrite Hu in Hu0.
  pose proof (get_sync_streaming d) as Hs0. rewrite Hs in Hs0.
  pose proof (get_sync_idle d Ha Hoff) as Hcase. cbv zeta in Hcase.
  pose proof (get_sync_in_use d) as Huse.
  set (p0 := pm_runtime_get_sync d) in *.
  destruct (Z.ltb_spec (fst p0) 0) as [Hneg|Hpos].
  - cbn [fst snd]. unfold on_client, pm_runtime_put_noidle, modify.
    cbn [snd client set_client pm_usage pm_active set_pm streaming rails].
    rewrite Hu0, Hs0. cbn [Nat.pred].
    destruct Hcase as [(H0 & _)|(_ & Hact & Hr)]; [lia|].
    split; [intros _|lia].
    split; [reflexivity|]. split; [reflexivity|].
    split; [exact Hact|exact Hr].
  - pose proof (start_streaming_power (snd p0)) as Hp.
    unfold power_obs in Hp. injection Hp as Hu1 Ha1 Hr1.
    pose proof (start_streaming_streaming (snd p0)) as Hs1.
    set (q := imx258_start_streaming (snd p0)) in *.
    destruct (nonzero (fst q)) eqn:Hq.
    + cbn [fst snd]. apply nonzero_true in Hq.
      split; [intros _|intros H; contradiction].
      destruct (put_last (snd q)) as (P1 & P2 & P3 & _ & _ & P4 & _).
      * rewrite Hu1. exact Hu0.
      * rewrite Ha1, Hr1. intros Hf.
        destruct Hcase as [(_ & Hact & _)|(_ & _ & Hr)];
          [congruence|exact Hr].
      * rewrite P4, Hs1, Hs0. split; [reflexivity|].
        split; [exact P1|]. split; [exact P2|exact P3].
    + apply nonzero_false in Hq.
      destruct (set_stream_commit_run enable (fst q) (snd q)) as (R & S & C).
      rewrite R, S, C. split; [intros H; contradiction|intros _].
      split; [apply nonzero_true; exact He|].
      split; [rewrite Hu1; exact Hu0|].
      intros Hrr Hcc. rewrite Ha1, Hr1.
      destruct Hcase as [(_ & Hact & H1 & H2 & H3)|(_ & Hact & _)].
      * repeat split; assumption.
      * exfalso. specialize (Huse Hrr Hcc ltac:(lia)).
        unfold pm_in_use in Huse. apply andb_prop in Huse as [Hact' _].
        congruence.
Qed.

Lemma start_power_outcome_witness :
  let d := probe_state (fault_at 125) in
  let p := imx258_set_stream 1 d in
  let c' := client (snd p) in
  (fst p <> 0 ->
   streaming (snd p) = false /\ pm_usage c' = 0%nat /\
   pm_active c' = false /\ rails_off (rails c')) /\
  (fst p = 0 ->
   streaming (snd p) = true /\ pm_usage c' = 1%nat /\
   (regulator_ret (rails (client d)) <= 0 ->
    clk_ret (rails (client d)) <= 0 ->
    pm_active c' = true /\ supplies_on (rails c') = true /\
    xclk_on (rails c') = true /\ reset_gpio (rails c') = 1)).
Proof.
  apply (start_power_outcome (probe_state (fault_at 125)) 1).
  - reflexivity.
  - discriminate.
  - reflexivity.
  - reflexivity.
  - unfold rails_off. simpl. auto.
Defined.

(** X14: stopping the stream when the stream holds the only runtime-PM
    reference powers the sensor off: no reference is left, the device is
    inactive, supplies and clock are off and the reset line is low.  The
    power-off clears the record of the common registers, so the tables of
    the next stream start begin with the common registers again; the mode
    is kept.  The only transfer made is the standby write. *)
Theorem stop_releases_power (d : imx258) :
  streaming d = true ->
  pm_usage (client d) = 1%nat -> pm_active (client d) = true ->
  let p := imx258_set_stream 0 d in
  let c' := client (snd p) in
  fst p = 0 /\ streaming (snd p) = false /\
  pm_usage c' = 0%nat /\ pm_active c' = false /\ rails_off (rails c') /\
  common_regs_written (snd p) = false /\ mode (snd p) = mode d /\
  start_tables (snd p) = mode_common_regs ++ reg_list (mode d) /\
  xfers c' = xfers (client d) ++ [mk_xfer standby_msg (next_ok (client d))].
Proof.
  intros Hs Hu Ha p c'. subst c' p.
  rewrite StreamStop.imx258_set_stream_stop_eq, Hs.
  pose proof (stop_streaming_power d) as Hp. unfold power_obs in Hp.
  injection Hp as Hu1 Ha1 Hr1.
  assert (Hx : xfers (client (snd (imx258_stop_streaming d))) =
               xfers (client d) ++
               [mk_xfer standby_msg (next_ok (client d))] /\
               mode (snd (imx258_stop_streaming d)) = mode d).
  { rewrite imx258_stop_streaming_eq. cbv zeta. unfold push_xfer.
    destruct (next_ok (client d)); split; reflexivity. }
  destruct Hx as [Hx Hm].
  set (d1 := snd (imx258_stop_streaming d)) in *.
  destruct (put_last d1) as (P1 & P2 & P3 & P4 & P5 & P6 & P7 & P8).
  - rewrite Hu1. exact Hu.
  - rewrite Ha1, Ha. discriminate.
  - set (d2 := snd (pm_runtime_put d1)) in *.
    assert (Hw : common_regs_written d2 = false)
      by (apply P4; rewrite Ha1; exact Ha).
    unfold set_stream_commit, bind, modify, ret. cbn [fst snd].
    cbn [client streaming common_regs_written mode set_ctrl_handler
         set_streaming].
    unfold start_tables.
    cbn [common_regs_written mode set_ctrl_handler set_streaming].
    rewrite Hw, P5, Hm, P8, Hx.
    destruct P3 as (? & ? & ?).
    repeat split; first [assumption|reflexivity].
Qed.

Lemma stop_releases_power_witness :
  let d := snd (imx258_set_stream 1 (probe_state no_fault)) in
  let p := imx258_set_stream 0 d in
  let c' := client (snd p) in
  fst p = 0 /\ streaming (snd p) = false /\
  pm_usage c' = 0%nat /\ pm_active c' = false /\ rails_off (rails c') /\
  common_regs_written (snd p) = false /\ mode (snd p) = mode d /\
  start_tables (snd p) = mode_common_regs ++ reg_list (mode d) /\
  xfers c' = xfers (client d) ++ [mk_xfer standby_msg (next_ok (client d))].
Proof.
  apply (stop_releases_power
           (snd (imx258_set_stream 1 (probe_state no_fault))));
    vm_compute; reflexivity.
Defined.

(** *** Flip controls and the stream state *)

Lemma grabbed_bit (f : Z) :
  Z.land (Z.lor f V4L2_CTRL_FLAG_GRABBED) V4L2_CTRL_FLAG_GRABBED =
    V4L2_CTRL_FLAG_GRABBED /\
  Z.land (Z.land f (Z.lnot V4L2_CTRL_FLAG_GRABBED)) V4L2_CTRL_FLAG_GRABBED = 0.
Proof.
  change V4L2_CTRL_FLAG_GRABBED with (2 ^ 1).
  split; apply Z.bits_inj'; intros n Hn;
    rewrite ?Z.land_spec, ?Z.lor_spec, ?Z.lnot_spec, ?Z.bits_0 by lia;
    rewrite Z.pow2_bits_eqb by lia;
    destruct (1 =? n); rewrite ?orb_true_r, ?andb_false_r, ?andb_true_r;
    reflexivity.
Qed.

Lemma grab_has_flag (c : v4l2_ctrl) :
  has_flag V4L2_CTRL_FLAG_GRABBED (__v4l2_ctrl_grab true c) = true /\
  has_flag V4L2_CTRL_FLAG_GRABBED (__v4l2_ctrl_grab false c) = false.
Proof.
  unfold has_flag, __v4l2_ctrl_grab. cbn [flags].
  destruct (grabbed_bit (flags c)) as [-> ->]. split; reflexivity.
Qed.

Lemma put_ctrl_handler : preserves ctrl_handler pm_runtime_put.
Proof.
  unfold pm_runtime_put. repeat keep. unfold imx258_power_off. repeat keep.
Qed.

(** The controls after the last step of [imx258_set_stream]. *)
Lemma set_stream_commit_ctrl (enable r : Z) (d : imx258) (i : cid) :
  find_ctrl i (ctrl_handler (snd (set_stream_commit enable r d))) =
  if cid_eqb i V4L2_CID_HFLIP || cid_eqb i V4L2_CID_VFLIP
  then option_map (__v4l2_ctrl_grab (nonzero enable))
                  (find_ctrl i (ctrl_handler d))
  else find_ctrl i (ctrl_handler d).
Proof.
  unfold set_stream_commit, bind, modify, ret.
  cbn [snd ctrl_handler set_ctrl_handler set_streaming].
  destruct i; cbn [cid_eqb orb];
    try (rewrite !find_update_other;
         [reflexivity|intros; apply grab_id|discriminate
         |intros; apply grab_id|discriminate]).
  - rewrite find_update_same by (intros; apply grab_id).
    rewrite find_update_other;
      [reflexivity|intros; apply grab_id|discriminate].
  - rewrite find_update_other;
      [|intros; apply grab_id|discriminate].
    rewrite find_update_same by (intros; apply grab_id). reflexivity.
Qed.

Lemma start_streaming_flip (i : cid) :
  i = V4L2_CID_HFLIP \/ i = V4L2_CID_VFLIP ->
  preserves (fun d => find_ctrl i (ctrl_handler d)) imx258_start_streaming.
Proof.
  intros Hi. apply start_streaming_keeps.
  - intros. apply preserves_write_reg. reflexivity.
  - intros msg d. reflexivity.
  - intros c. apply ctrl_kept_set_ctrl. destruct Hi; subst; discriminate.
  - reflexivity.
Qed.

(** What [imx258_set_stream] does to the controls before its last step. *)
Lemma set_stream_eq_cases (d : imx258) (enable : Z) :
  enable = 0 \/ enable = 1 ->
  let p := imx258_set_stream enable d in
  (p = (0, d) /\ Z.b2z (streaming d) = enable) \/
  (exists d1, streaming (snd p) = streaming d /\ fst p <> 0 /\
     ctrl_handler (snd p) = ctrl_handler d1 /\
     (forall i, ctrl_flags i d1 = ctrl_flags i d) /\
     (forall i, i = V4L2_CID_HFLIP \/ i = V4L2_CID_VFLIP ->
        find_ctrl i (ctrl_handler d1) = find_ctrl i (ctrl_handler d))) \/
  (exists d1, p = set_stream_commit enable 0 d1 /\
     streaming d = negb (nonzero enable) /\
     (forall i, ctrl_flags i d1 = ctrl_flags i d) /\
     (forall i, i = V4L2_CID_HFLIP \/ i = V4L2_CID_VFLIP ->
        find_ctrl i (ctrl_handler d1) = find_ctrl i (ctrl_handler d))).
Proof.
  intros He p. subst p.
  destruct (Z.eq_dec (Z.b2z (streaming d)) enable) as [E|E].
  { left. split; [apply set_stream_noop; exact E|exact E]. }
  right.
  destruct (streaming d) eqn:Hs; destruct He as [-> | ->];
    try (exfalso; apply E; reflexivity).
  - (* stop *)
    right. rewrite StreamStop.imx258_set_stream_stop_eq, Hs.
    eexists. split; [reflexivity|]. split; [reflexivity|].
    assert (Hh : ctrl_handler (snd (pm_runtime_put
                                      (snd (imx258_stop_streaming d)))) =
                 ctrl_handler d).
    { rewrite put_ctrl_handler, imx258_stop_streaming_eq. reflexivity. }
    split; intros; unfold ctrl_flags; rewrite Hh; reflexivity.
  - (* start *)
    rewrite (imx258_set_stream_start_eq d 1 Hs) by lia. cbv zeta.
    pose proof (get_sync_ctrl_handler d) as Hh0.
    pose proof (get_sync_streaming d) as Hs0.
    set (p0 := pm_runtime_get_sync d) in *.
    destruct (Z.ltb_spec (fst p0) 0) as [Hneg|Hpos].
    + left. exists d. cbn [fst snd].
      split; [change (streaming (snd p0) = false); rewrite Hs0; exact Hs|].
      split; [lia|].
      split; [exact Hh0|]. split; reflexivity.
    + pose proof (start_streaming_streaming (snd p0)) as Hs1.
      assert (Hf : forall i,
                ctrl_flags i (snd (imx258_start_streaming (snd p0))) =
                ctrl_flags i d).
      { intros i. rewrite start_streaming_flags. unfold ctrl_flags.
        rewrite Hh0. reflexivity. }
      assert (Hc : forall i, i = V4L2_CID_HFLIP \/ i = V4L2_CID_VFLIP ->
                find_ctrl i (ctrl_handler
                               (snd (imx258_start_streaming (snd p0)))) =
                find_ctrl i (ctrl_handler d)).
      { intros i Hi. rewrite (start_streaming_flip i Hi), Hh0. reflexivity. }
      set (q := imx258_start_streaming (snd p0)) in *.
      destruct (nonzero (fst q)) eqn:Hq.
      * left. exists (snd q). cbn [fst snd].
        destruct (pm_runtime_put_quiet (snd q)) as (_ & _ & S2).
        split; [rewrite S2, Hs1, Hs0; exact Hs|].
        split; [apply nonzero_true; exact Hq|].
        split; [apply put_ctrl_handler|]. split; assumption.
      * right. exists (snd q). apply nonzero_false in Hq. rewrite Hq.
        split; [reflexivity|]. split; [reflexivity|]. split; assumption.
Qed.

(** X15: stream control touches the flags of the flip controls only, and
    only on a transition: when the stream is switched on, horizontal and
    vertical flip are grabbed, when it is switched off they are released;
    a call that leaves the streaming flag as it was (nothing to do, or a
    start that failed) leaves every control's flags alone.  Apart from
    the grab the flip controls keep their value and range.  A grabbed
    control has the grabbed flag set and a released one has it clear. *)
Theorem flips_grabbed_while_streaming (d : imx258) (enable : Z) (i : cid) :
  enable = 0 \/ enable = 1 ->
  let d' := snd (imx258_set_stream enable d) in
  let flip := i = V4L2_CID_HFLIP \/ i = V4L2_CID_VFLIP in
  (~ flip -> ctrl_flags i d' = ctrl_flags i d) /\
  (streaming d' = streaming d -> ctrl_flags i d' = ctrl_flags i d) /\
  (flip -> streaming d' <> streaming d ->
   find_ctrl i (ctrl_handler d') =
     option_map (__v4l2_ctrl_grab (streaming d'))
                (find_ctrl i (ctrl_handler d)) /\
   forall c, find_ctrl i (ctrl_handler d') = Some c ->
             has_flag V4L2_CTRL_FLAG_GRABBED c = streaming d').
Proof.
  intros He d' flip. subst d' flip.
  destruct (set_stream_eq_cases d enable He)
    as [[Hp _]|[(d1 & Hs & _ & Hh & Hf & Hc)|(d1 & Hp & Hs & Hf & Hc)]];
    cbv zeta in *.
  - rewrite Hp. cbn [snd]. repeat split; try reflexivity.
    all: intros; exfalso; auto.
  - assert (Hfl : ctrl_flags i (snd (imx258_set_stream enable d)) =
                  ctrl_flags i d).
    { unfold ctrl_flags at 1. rewrite Hh. apply Hf. }
    repeat split; auto; intros; exfalso; auto.
  - rewrite Hp. clear Hp.
    pose proof (set_stream_commit_ctrl enable 0 d1 i) as Hfind.
    destruct (set_stream_commit_run enable 0 d1) as (_ & Hst & _).
    rewrite Hst.
    assert (Hflip : cid_eqb i V4L2_CID_HFLIP || cid_eqb i V4L2_CID_VFLIP =
                    true <-> (i = V4L2_CID_HFLIP \/ i = V4L2_CID_VFLIP)).
    { rewrite orb_true_iff, !cid_eqb_eq. reflexivity. }
    destruct (cid_eqb i V4L2_CID_HFLIP || cid_eqb i V4L2_CID_VFLIP) eqn:Eb.
    + assert (Hi : i = V4L2_CID_HFLIP \/ i = V4L2_CID_VFLIP)
        by (apply Hflip; reflexivity).
      rewrite (Hc i Hi) in Hfind.
      split; [intros H; contradiction|].
      split; [intros H; rewrite Hs in H; destruct (nonzero enable);
              discriminate H|].
      intros _ _. split; [exact Hfind|].
      intros c Hc'. rewrite Hfind in Hc'.
      destruct (find_ctrl i (ctrl_handler d)) as [c0|]; [|discriminate Hc'].
      injection Hc' as <-.
      destruct (grab_has_flag c0) as [G1 G2].
      destruct (nonzero enable); assumption.
    + assert (Hi : ~ (i = V4L2_CID_HFLIP \/ i = V4L2_CID_VFLIP)).
      { intros H. apply Hflip in H. discriminate H. }
      assert (Hfl : ctrl_flags i (snd (set_stream_commit enable 0 d1)) =
                    ctrl_flags i d).
      { unfold ctrl_flags at 1. rewrite Hfind. apply Hf. }
      repeat split; auto; intros; exfalso; auto.
Qed.

Lemma flips_grabbed_while_streaming_witness :
  let d := probe_state no_fault in
  let i := V4L2_CID_HFLIP in
  let d' := snd (imx258_set_stream 1 d) in
  let flip := i = V4L2_CID_HFLIP \/ i = V4L2_CID_VFLIP in
  (~ flip -> ctrl_flags i d' = ctrl_flags i d) /\
  (streaming d' = streaming d -> ctrl_flags i d' = ctrl_flags i d) /\
  (flip -> streaming d' <> streaming d ->
   find_ctrl i (ctrl_handler d') =
     option_map (__v4l2_ctrl_grab (streaming d'))
                (find_ctrl i (ctrl_handler d)) /\
   forall c, find_ctrl i (ctrl_handler d') = Some c ->
             has_flag V4L2_CTRL_FLAG_GRABBED c = streaming d').
Proof.
  apply (flips_grabbed_while_streaming (probe_state no_fault) 1
           V4L2_CID_HFLIP).
  right. reflexivity.
Defined.

(** *** System sleep *)

(** X16: system suspend always answers 0; on a streaming device it makes
    the standby write and nothing else, on any other device nothing at
    all, and it keeps the streaming flag, so that resume knows to
    restart.  Resume does nothing on a device that is not streaming.  On
    a streaming device it runs the stream-start sequence; when that
    succeeds the device keeps streaming, and when it fails resume returns
    the error, makes one standby write and clears the streaming flag,
    but it releases neither the runtime-PM reference of the stream nor
    the grab of the flip controls. *)
Theorem system_sleep (d : imx258) :
  let s := imx258_suspend d in
  let r := imx258_resume d in
  let q := imx258_start_streaming d in
  (fst s = 0 /\ streaming (snd s) = streaming d /\
   power_obs (snd s) = power_obs d /\
   ctrl_handler (snd s) = ctrl_handler d /\
   xfers (client (snd s)) =
     xfers (client d) ++
     (if streaming d then [mk_xfer standby_msg (next_ok (client d))]
      else [])) /\
  (streaming d = false -> r = (0, d)) /\
  (streaming d = true -> fst q = 0 ->
   r = q /\ streaming (snd r) = true) /\
  (streaming d = true -> fst q <> 0 ->
   fst r = fst q /\ streaming (snd r) = false /\
   xfers (client (snd r)) =
     xfers (client (snd q)) ++
     [mk_xfer standby_msg (next_ok (client (snd q)))] /\
   power_obs (snd r) = power_obs d /\
   forall i, ctrl_flags i (snd r) = ctrl_flags i d).
Proof.
  intros s r q. subst s r q. split; [|split; [|split]].
  - unfold imx258_suspend, bind, gets, ret.
    destruct (streaming d) eqn:Hs.
    + rewrite imx258_stop_streaming_eq. cbv zeta. cbn [fst snd].
      unfold push_xfer.
      destruct (next_ok (client d)); repeat split; auto.
    + cbn [fst snd]. rewrite app_nil_r. repeat split; auto.
  - intros Hs. unfold imx258_resume, bind, gets, ret. rewrite Hs.
    reflexivity.
  - intros Hs Hq. unfold imx258_resume, bind, gets, ret. rewrite Hs.
    pose proof (start_streaming_streaming d) as Hs1.
    destruct (imx258_start_streaming d) as [r0 d1]. cbn [fst snd] in *.
    subst r0. change (nonzero 0) with false. cbv iota.
    split; [reflexivity|]. cbn [snd]. rewrite Hs1. exact Hs.
  - intros Hs Hq. unfold imx258_resume, bind, gets, ret, modify. rewrite Hs.
    pose proof (start_streaming_power d) as Hp1.
    pose proof (fun i => start_streaming_flags i d) as Hf1.
    destruct (imx258_start_streaming d) as [r0 d1]. cbn [fst snd] in *.
    apply nonzero_true in Hq. rewrite Hq.
    rewrite imx258_stop_streaming_eq. cbv zeta. cbn [fst snd].
    unfold push_xfer. rewrite <- Hp1.
    split; [reflexivity|]. split; [reflexivity|].
    destruct (next_ok (client d1)).
    + split; [reflexivity|]. split; [reflexivity|].
      intros i. rewrite <- Hf1. reflexivity.
    + split; [reflexivity|]. split; [reflexivity|].
      intros i. rewrite <- Hf1. reflexivity.
Qed.

End StreamPower.

Module ControlDispatch.
Import Soho KernelFacts SohoFacts SohoStream Deferred StreamPower.

(** *** Control sets on a device in use *)

Lemma with_pm_id (d : imx258) :
  with_pm (pm_usage (client d)) (pm_active (client d)) d = d.
Proof. destruct d as [[] ]. reflexivity. Qed.

Lemma with_pm_twice (u u' : nat) (a a' : bool) (d : imx258) :
  with_pm u a (with_pm u' a' d) = with_pm u a d.
Proof. reflexivity. Qed.

Lemma pm_blind_ret {A} (x : A) : pm_blind (ret x).
Proof. intros u a d. reflexivity. Qed.

Lemma pm_blind_bind {A B} (m : M imx258 A) (k : A -> M imx258 B) :
  pm_blind m -> (forall x, pm_blind (k x)) -> pm_blind (bind m k).
Proof.
  intros Hm Hk u a d. unfold bind. rewrite Hm.
  destruct (m d) as [x d1]. cbn [fst snd]. rewrite Hk.
  destruct (k x d1); reflexivity.
Qed.

Lemma pm_blind_gets {A} (f : imx258 -> A) :
  (forall u a d, f (with_pm u a d) = f d) -> pm_blind (gets f).
Proof. intros Hf u a d. unfold gets. cbn [fst snd]. rewrite Hf. reflexivity. Qed.

Lemma pm_blind_modify (f : imx258 -> imx258) :
  (forall u a d, f (with_pm u a d) = with_pm u a (f d)) -> pm_blind (modify f).
Proof. intros Hf u a d. unfold modify. cbn [fst snd]. rewrite Hf. reflexivity. Qed.

Lemma pm_blind_if {A} (b : bool) (m1 m2 : M imx258 A) :
  pm_blind m1 -> pm_blind m2 -> pm_blind (if b then m1 else m2).
Proof. destruct b; auto. Qed.

Lemma pm_blind_write_reg (reg len v : Z) :
  0 <= len <= 4 -> pm_blind (imx258_write_reg reg len v).
Proof.
  intros Hlen u a d. rewrite !imx258_write_reg_eq by exact Hlen.
  reflexivity.
Qed.

Lemma pm_blind_dev_err (msg : string) : pm_blind (on_client (dev_err msg)).
Proof. intros u a d. reflexivity. Qed.

Lemma pm_blind_set_frame_length (v : Z) : pm_blind (imx258_set_frame_length v).
Proof.
  unfold imx258_set_frame_length.
  apply pm_blind_bind; [apply pm_blind_modify; reflexivity|]. intros _.
  apply pm_blind_bind; [apply pm_blind_gets; reflexivity|]. intros s0.
  destruct (frame_length_loop v s0) as [v' s].
  apply pm_blind_bind; [apply pm_blind_modify; reflexivity|]. intros _.
  apply pm_blind_bind;
    [apply pm_blind_write_reg; unfold IMX258_REG_VALUE_16BIT; lia|].
  intros r. apply pm_blind_if; [apply pm_blind_ret|].
  apply pm_blind_bind; [apply pm_blind_gets; reflexivity|]. intros s1.
  apply pm_blind_write_reg. unfold IMX258_REG_VALUE_08BIT. lia.
Qed.

(** On a device in use, the reference taken around the body of a control
    set is given back: the set is the body. *)
Lemma bracket_in_use (body : M imx258 Z) (d : imx258) :
  pm_blind body ->
  pm_in_use (client d) = true ->
  (u <- on_client pm_runtime_get_if_in_use ;;
   if u =? 0 then ret 0
   else r <- body ;; pm_runtime_put ;;; ret r) d = body d.
Proof.
  intros Hb Huse. unfold bind at 1, on_client.
  rewrite get_if_in_use_active by exact Huse.
  change (1 =? 0) with false. cbv beta iota.
  change (set_client (set_pm (S (pm_usage (client d))) (pm_active (client d))
                             (client d)) d)
    with (with_pm (S (pm_usage (client d))) (pm_active (client d)) d).
  unfold bind at 1. rewrite Hb.
  destruct (body d) as [r d2] eqn:Eb. cbn [fst snd].
  assert (Hpm : pm_usage (client d2) = pm_usage (client d) /\
                pm_active (client d2) = pm_active (client d)).
  { pose proof (Hb (pm_usage (client d)) (pm_active (client d)) d) as H.
    rewrite with_pm_id, Eb in H. cbn [fst snd] in H.
    injection H as H. rewrite H. split; reflexivity. }
  destruct Hpm as [Hu Ha].
  unfold pm_in_use in Huse. apply andb_prop in Huse as [_ Hne].
  assert (Hne' : pm_usage (client d) <> 0%nat).
  { intros E. rewrite E in Hne. discriminate Hne. }
  unfold bind, ret.
  rewrite (pm_runtime_put_held_eq _ (pm_usage (client d)));
    [|reflexivity|exact Hne'].
  cbn [fst snd]. f_equal.
  change (with_pm (pm_usage (client d)) (pm_active (client d)) d2 = d2).
  rewrite <- Hu, <- Ha. apply with_pm_id.
Qed.

(** *** Frame length *)

Lemma frame_length_loop_small (v s : Z) :
  v <= IMX258_FRAME_LENGTH_MAX -> frame_length_loop v s = (v, s).
Proof.
  intros H. rewrite frame_length_loop_equation_1.
  destruct (Z_gt_dec v IMX258_FRAME_LENGTH_MAX) as [G|G]; [lia|].
  reflexivity.
Qed.

(** X17: setting the frame length records the long-exposure shift, then
    writes the halved frame length to the 16-bit frame-length register
    and, only when that write succeeded, the shift to the 8-bit shift
    register, in this order.  The first failure is returned and nothing
    is written after it, but the recorded shift is the new one even when
    a write failed.  A frame length that fits the register is written as
    it is, with shift 0. *)
Theorem set_frame_length_writes (L : Z) (d : imx258) :
  let v := fst (frame_length_loop L 0) in
  let s := snd (frame_length_loop L 0) in
  let c := client d in
  let p := imx258_set_frame_length L d in
  long_exp_shift (snd p) = s /\
  xfers (client (snd p)) =
    xfers c ++
    mk_xfer (reg_msg IMX258_REG_FRAME_LENGTH 2 v) (nth_ok c 0) ::
    (if nth_ok c 0
     then [mk_xfer (reg_msg IMX258_LONG_EXP_SHIFT_REG 1 s) (nth_ok c 1)]
     else []) /\
  fst p = (if nth_ok c 0 && nth_ok c 1 then 0 else - EIO) /\
  (L <= IMX258_FRAME_LENGTH_MAX -> v = L /\ s = 0).
Proof.
  intros v s c p. subst v s c p.
  unfold imx258_set_frame_length, bind, modify, gets.
  cbn [fst snd long_exp_shift set_long_exp_shift].
  destruct (frame_length_loop L 0) as [v s] eqn:E. cbn [fst snd].
  unfold IMX258_REG_VALUE_16BIT, IMX258_REG_VALUE_08BIT.
  rewrite imx258_write_reg_eq by lia.
  cbn [client set_long_exp_shift].
  assert (H0 : next_ok (client d) = nth_ok (client d) 0).
  { unfold next_ok, nth_ok. rewrite Nat.add_0_r. reflexivity. }
  rewrite H0.
  destruct (nth_ok (client d) 0) eqn:Ok0.
  - change (nonzero 0) with false. cbv beta iota.
    rewrite imx258_write_reg_eq by lia.
    cbn [fst snd client set_client long_exp_shift set_long_exp_shift].
    assert (H1 : next_ok (push_xfer (reg_msg IMX258_REG_FRAME_LENGTH 2 v)
                                    (client d)) = nth_ok (client d) 1).
    { unfold next_ok, nth_ok, push_xfer.
      cbn [fault xfers set_xfers]. rewrite length_app. reflexivity. }
    rewrite H1. unfold push_xfer at 1. cbn [xfers set_xfers].
    rewrite H1. unfold push_xfer. cbn [xfers set_xfers].
    rewrite H0, <- app_assoc. cbn [andb app].
    split; [reflexivity|]. split; [reflexivity|]. split; [reflexivity|].
    intros HL. rewrite frame_length_loop_small in E by exact HL.
    injection E as <- <-. split; reflexivity.
  - change (nonzero (- EIO)) with true. cbv iota.
    cbn [fst snd client set_client long_exp_shift set_long_exp_shift].
    unfold push_xfer. cbn [xfers set_xfers]. rewrite ?H0. cbn [andb].
    split; [reflexivity|]. split; [reflexivity|]. split; [reflexivity|].
    intros HL. rewrite frame_length_loop_small in E by exact HL.
    injection E as <- <-. split; reflexivity.
Qed.

(** *** Controls without a register *)

(** X18: a control that [imx258_set_ctrl] has no case for (pixel rate,
    link frequency, horizontal blanking, camera orientation and sensor
    rotation) is refused with [-EINVAL] on a device in use: one line goes
    to the log, nothing is sent on the bus and the power state is as
    before.  On an idle device the same set answers 0 and changes
    nothing. *)
Theorem unhandled_ctrl_rejected (ctrl : v4l2_ctrl) (d : imx258) :
  handled (id ctrl) = false ->
  imx258_set_ctrl ctrl d =
  if pm_in_use (client d)
  then (- EINVAL,
        set_client (set_klog (klog (client d) ++ ["ctrl is not handled"%string])
                             (client d)) d)
  else (0, d).
Proof.
  intros Hid. destruct (pm_in_use (client d)) eqn:Huse.
  - transitivity
      ((u <- on_client pm_runtime_get_if_in_use ;;
        if u =? 0 then ret 0
        else r <- (on_client (dev_err "ctrl is not handled") ;;;
                   ret (- EINVAL)) ;;
             pm_runtime_put ;;; ret r) d).
    + destruct ctrl as [i mn mx st df v fl]. cbn [id] in Hid.
      destruct i; try discriminate Hid; reflexivity.
    + rewrite bracket_in_use; [reflexivity| |exact Huse].
      apply pm_blind_bind; [apply pm_blind_dev_err|].
      intros _. apply pm_blind_ret.
  - rewrite imx258_set_ctrl_idle by exact Huse.
    destruct (id ctrl); try discriminate Hid; reflexivity.
Qed.

Lemma unhandled_ctrl_rejected_witness :
  let d := with_pm 1 true (probe_state no_fault) in
  let ctrl := mk_ctrl V4L2_CID_HBLANK 0 65535 1 0 0 0 in
  imx258_set_ctrl ctrl d =
  if pm_in_use (client d)
  then (- EINVAL,
        set_client (set_klog (klog (client d) ++ ["ctrl is not handled"%string])
                             (client d)) d)
  else (0, d).
Proof.
  apply (unhandled_ctrl_rejected (mk_ctrl V4L2_CID_HBLANK 0 65535 1 0 0 0)
           (with_pm 1 true (probe_state no_fault))).
  reflexivity.
Defined.

(** *** Orientation *)

Lemma orientation_bytes (h v : Z) :
  0 <= h <= 1 -> 0 <= v <= 1 ->
  reg_msg IMX258_REG_ORIENTATION 1 (Z.lor h (Z.shiftl v 1)) =
  [0x01; 0x01; h + 2 * v].
Proof.
  intros Hh Hv.
  assert (E : (h = 0 \/ h = 1) /\ (v = 0 \/ v = 1)) by lia.
  destruct E as [[-> | ->] [-> | ->]]; reflexivity.
Qed.

(** X19: on a device in use, setting either flip control is one write of
    the 8-bit orientation register, whose value joins both flips as the
    handler holds them: the horizontal one in bit 0 and the vertical one
    in bit 1.  The result is that write's status; nothing else of the
    device changes.  For flips that are 0 or 1 the bytes on the wire are
    the register address 0x0101 and [h + 2 * v]. *)
Theorem flip_writes_orientation (ctrl : v4l2_ctrl) (d : imx258) :
  pm_in_use (client d) = true ->
  id ctrl = V4L2_CID_HFLIP \/ id ctrl = V4L2_CID_VFLIP ->
  let h := val (hflip d) in
  let v := val (vflip d) in
  imx258_set_ctrl ctrl d =
    ((if next_ok (client d) then 0 else - EIO),
     set_client
       (push_xfer (reg_msg IMX258_REG_ORIENTATION 1 (Z.lor h (Z.shiftl v 1)))
                  (client d)) d) /\
  (0 <= h <= 1 -> 0 <= v <= 1 ->
   reg_msg IMX258_REG_ORIENTATION 1 (Z.lor h (Z.shiftl v 1)) =
   [0x01; 0x01; h + 2 * v]).
Proof.
  intros Huse Hid h v. split; [|apply orientation_bytes].
  transitivity
    ((u <- on_client pm_runtime_get_if_in_use ;;
      if u =? 0 then ret 0
      else r <- (h <- gets (fun d => val (hflip d)) ;;
                 v <- gets (fun d => val (vflip d)) ;;
                 imx258_write_reg IMX258_REG_ORIENTATION 1
                                  (Z.lor h (Z.shiftl v 1))) ;;
           pm_runtime_put ;;; ret r) d).
  - destruct ctrl as [i mn mx st df v0 fl]. cbn [id] in Hid.
    destruct Hid as [-> | ->]; reflexivity.
  - rewrite bracket_in_use; [| |exact Huse].
    + unfold bind at 1, gets at 1. cbv beta iota.
      unfold bind at 1, gets at 1. cbv beta iota.
      rewrite imx258_write_reg_eq by lia. reflexivity.
    + apply pm_blind_bind; [apply pm_blind_gets; reflexivity|]. intros h0.
      apply pm_blind_bind; [apply pm_blind_gets; reflexivity|]. intros v0.
      apply pm_blind_write_reg. lia.
Qed.

Lemma flip_writes_orientation_witness :
  let d := with_pm 1 true (probe_state no_fault) in
  let ctrl := ctrl_of V4L2_CID_VFLIP (ctrl_handler d) in
  let h := val (hflip d) in
  let v := val (vflip d) in
  imx258_set_ctrl ctrl d =
    ((if next_ok (client d) then 0 else - EIO),
     set_client
       (push_xfer (reg_msg IMX258_REG_ORIENTATION 1 (Z.lor h (Z.shiftl v 1)))
                  (client d)) d) /\
  (0 <= h <= 1 -> 0 <= v <= 1 ->
   reg_msg IMX258_REG_ORIENTATION 1 (Z.lor h (Z.shiftl v 1)) =
   [0x01; 0x01; h + 2 * v]).
Proof.
  apply (flip_writes_orientation
           (ctrl_of V4L2_CID_VFLIP
              (ctrl_handler (with_pm 1 true (probe_state no_fault))))
           (with_pm 1 true (probe_state no_fault))).
  - reflexivity.
  - right. reflexivity.
Defined.

End ControlDispatch.
